(** * Dickies dashboard ETL: metrics aggregation and size enrichment

    A shallow embedding of the aggregation and derivation code of
    [etl_comprehensive_v5.py], [velocity_trends_integration.py] and
    [austin_insights.py], and of the figures [html_updater_v5.py]
    derives from the artifacts, with the properties of its derived
    metrics.

    Numbers.  A Python [float] is modelled by an exact rational ([Q]);
    the not-a-number value, which pandas uses as its missing-cell marker
    and which steers several branches of the code, is kept as a value of
    its own ([NaN]).  Binary rounding error and the infinities are not
    modelled.  Equality of rationals is [Qeq] ([==]).

    Frames.  A pandas frame is a list of rows.  The measure columns of
    the POS table and of the frames aggregated from it hold floats; the
    rows of the velocity frame are dictionaries of arbitrary cells.  What
    pandas itself does is modelled from its documentation: a group-by
    drops the rows whose key is missing and orders its groups by key, a
    sum skips NaN, a left join leaves NaN where it finds no match; its
    sort is a parameter of the pipeline under a stated contract.

    Effects.  A function that can raise returns a [result]; the object
    fields and the output directory a run works on are passed
    explicitly. *)

From Stdlib Require Import ZArith QArith Qround Qabs Qminmax Lia Lqa.
From Stdlib Require Import String List Permutation Sorted.
From Stdlib Require OrderedTypeEx.
From stdpp Require Import base option list sorting gmap strings pretty.

Local Open Scope Z_scope.
Local Open Scope Q_scope.

(** ** Python values *)

Module Py.

(** A float: a finite (here: rational) value or NaN. *)
Inductive pyfloat : Type :=
  | Fin (q : Q)
  | NaN.

(** [math.isnan] / [pd.isna] on a float. *)
Definition isnan (x : pyfloat) : bool :=
  match x with NaN => true | Fin _ => false end.

(** Comparisons of floats: every comparison with NaN is false. *)
Definition Qltb (a b : Q) : bool := negb (Qle_bool b a).

Definition f_lt (a b : pyfloat) : bool :=
  match a, b with Fin x, Fin y => Qltb x y | _, _ => false end.
Definition f_gt (a b : pyfloat) : bool := f_lt b a.
Definition f_eq (a b : pyfloat) : bool :=
  match a, b with Fin x, Fin y => Qeq_bool x y | _, _ => false end.

(** The same comparisons as propositions about the value. *)
Definition f_above (x : pyfloat) (b : Q) : Prop := exists q, x = Fin q /\ b < q.
Definition f_below (x : pyfloat) (b : Q) : Prop := exists q, x = Fin q /\ q < b.
Definition f_equal (x : pyfloat) (b : Q) : Prop := exists q, x = Fin q /\ q == b.

(** Truthiness of a float ([x or d] keeps [x] when it is truthy): zero is
    falsy, NaN is truthy. *)
Definition f_truthy (x : pyfloat) : bool :=
  match x with Fin q => negb (Qeq_bool q 0) | NaN => true end.

(** [max(a, b)] on finite floats: Python returns the first argument
    unless the second is strictly greater. *)
Definition py_max (a b : Q) : Q := if Qltb a b then b else a.

(** Round half to even, to an integer. *)
Definition round_half_even (x : Q) : Z :=
  let f := Qfloor x in
  match Qcompare (x - inject_Z f) (1 # 2) with
  | Lt => f
  | Gt => (f + 1)%Z
  | Eq => if Z.even f then f else (f + 1)%Z
  end.

(** [round(x, n)] for a float [x] and [n >= 0] digits. *)
Definition py_round (x : Q) (n : nat) : Q :=
  let scale := inject_Z (10 ^ Z.of_nat n) in
  inject_Z (round_half_even (x * scale)) / scale.

(** [round] of NaN is NaN. *)
Definition f_round (x : pyfloat) (n : nat) : pyfloat :=
  match x with Fin q => Fin (py_round q n) | NaN => NaN end.

End Py.
Import Py.

(** ** Cells, strings and exceptions *)

Module Cells.

(** A cell of a pandas frame: a float (NaN marks a missing cell), a
    string, or [None]. *)
Inductive cell : Type :=
  | CFloat (x : pyfloat)
  | CStr (s : string)
  | CNone.

(** [pd.isna] on a scalar: true on NaN and [None]; a string is never
    missing, whatever it spells. *)
Definition pd_isna (c : cell) : bool :=
  match c with
  | CFloat x => isnan x
  | CStr _ => false
  | CNone => true
  end.

(** [str(x)] on a cell.  Only the images that matter for the branches of
    the code are spelled out: NaN prints as "nan", [None] as "None"; the
    digits of a finite float are left to [show_float]. *)
Definition py_str (show_float : Q -> string) (c : cell) : string :=
  match c with
  | CFloat (Fin q) => show_float q
  | CFloat NaN => "nan"
  | CStr s => s
  | CNone => "None"
  end.

(** Python's (ASCII) whitespace, as [str.strip] sees it. *)
Definition is_space (a : Ascii.ascii) : bool :=
  let n := Ascii.nat_of_ascii a in
  (Nat.eqb n 32 || (Nat.leb 9 n && Nat.leb n 13) || (Nat.leb 28 n && Nat.leb n 31))%bool.

Fixpoint lstrip (s : string) : string :=
  match s with
  | String a s' => if is_space a then lstrip s' else s
  | EmptyString => EmptyString
  end.

(** [rstrip]: drop the trailing whitespace. *)
Fixpoint rstrip (s : string) : string :=
  match s with
  | String a s' =>
      match rstrip s' with
      | EmptyString => if is_space a then EmptyString else String a EmptyString
      | r => String a r
      end
  | EmptyString => EmptyString
  end.

Definition strip (s : string) : string := rstrip (lstrip s).

(** Equality and order of group keys.  pandas orders the keys of a
    group-by; numbers come before strings. *)
Definition cell_eqb (a b : cell) : bool :=
  match a, b with
  | CFloat x, CFloat y => f_eq x y
  | CStr s, CStr t => String.eqb s t
  | _, _ => false
  end.

Definition cell_ltb (a b : cell) : bool :=
  match a, b with
  | CFloat x, CFloat y => f_lt x y
  | CFloat _, CStr _ => true
  | CStr s, CStr t => String.ltb s t
  | _, _ => false
  end.

(** The exceptions the pipeline raises, with their messages. *)
Inductive exn : Type :=
  | ValueError (msg : string)
  | RuntimeError (msg : string)
  | KeyError (msg : string)
  | AttributeError (msg : string)
  | TypeError (msg : string)
  | ZeroDivisionError (msg : string).

Definition exn_message (e : exn) : string :=
  match e with
  | ValueError m | RuntimeError m | KeyError m | AttributeError m
  | TypeError m | ZeroDivisionError m => m
  end.

(** A computation that returns or raises. *)
Inductive result (A : Type) : Type :=
  | Ok (a : A)
  | Raise (e : exn).
Arguments Ok {A} a.
Arguments Raise {A} e.

#[global] Instance result_ret : MRet result := fun _ a => Ok a.
#[global] Instance result_bind : MBind result := fun _ _ k m =>
  match m with
  | Ok a => k a
  | Raise e => Raise e
  end.

End Cells.
Import Cells.

(** ** Data model *)

Module Model.

(** A size (Prime Item) record, as [map_velocity_to_styles] builds it. *)
Record prime_item : Type := {
  prime_item_nbr : cell;          (* 'prime_item' *)
  size_desc : string;             (* 'size' *)
  item_status : string;
  lw_pos_qty : pyfloat;
  lw_inv_units : pyfloat;
  lw_inv_retail : pyfloat;
  wos : pyfloat;
  curr_valid_stores : Z;
  unit_retail : pyfloat;
  unit_cost : pyfloat;
}.

(** The size-analysis aggregate of a SKU. *)
Record size_analysis : Type := {
  total_prime_items : nat;
  active_items : nat;
  total_stores : Z;
  avg_wos : Q;
  max_wos : Q;
  min_wos : Q;
  productive_sizes : nat;
  dead_sizes : nat;
  size_efficiency_pct : Q;
}.

(** A SKU record of [sku_master].  The last three fields are the keys
    the size enrichment adds to the dictionary; [None] is "key absent". *)
Record sku_record : Type := {
  sku : cell;
  sku_fineline : cell;
  description : cell;
  color : cell;
  gender : cell;
  category : cell;
  sub_category : cell;
  aur_ty : Q;
  aur_ly : Q;
  sales_units_ytd : Q;
  sales_dollars_ytd : Q;
  sales_units_lw : Q;
  sales_units_lwly : Q;
  sales_dollars_lw : Q;
  sales_dollars_lwly : Q;
  inventory_units_lw : Q;
  inventory_dollars_lw : Q;
  sell_through_ty : Q;
  sell_through_ly : Q;
  st_change : Q;
  unit_pct_change : Q;
  dollar_pct_change : Q;
  sku_wos : Q;                    (* 'wos' *)
  tier : string;
  sales_pct_of_total : Q;
  cumulative_sales_pct : Q;
  inventory_pct_of_total : Q;
  store_count : option Z;
  sku_size_analysis : option size_analysis;   (* 'size_analysis' *)
  prime_items : option (list prime_item);
}.

(** A fineline record of [fineline_rollup]. *)
Record fineline_record : Type := {
  fl_fineline : cell;
  fl_sales_units_lw : Q;
  fl_sales_units_lwly : Q;
  fl_sales_dollars_lw : Q;
  fl_sales_dollars_lwly : Q;
  fl_inventory_units_lw : Q;
  fl_inventory_dollars_lw : Q;
  fl_sales_units_ytd : Q;
  fl_sales_dollars_ytd : Q;
  fl_wos : Q;
}.

(** The weekly summary. *)
Record weekly_summary_record : Type := {
  ws_sales_units_lw : Q;
  ws_sales_units_lwly : Q;
  ws_sales_dollars_lw : Q;
  ws_sales_dollars_lwly : Q;
  ws_inventory_units_lw : Q;
  ws_inventory_dollars_lw : Q;
  ws_units_delta : Q;
  ws_dollars_delta : Q;
  ws_units_pct_delta : Q;
  ws_dollars_pct_delta : Q;
  ws_wos : Q;
}.

(** A row of the store-level POS table; the measure columns are float
    columns (a blank cell is NaN). *)
Record pos_row : Type := {
  p_style_color : cell;           (* 'WD Style/Color' *)
  p_fineline : cell;              (* 'Fineline' *)
  p_sales_units_lw : pyfloat;     (* 'Sales Units LW' *)
  p_sales_units_lwly : pyfloat;   (* 'Sales Units LWLY' *)
  p_sales_dollars_lw : pyfloat;   (* 'Sales Retail $ LW' *)
  p_sales_dollars_lwly : pyfloat; (* 'Sales Retail $ LWLY' *)
  p_inventory_units_lw : pyfloat; (* 'Store On Hand Units LW' *)
  p_inventory_dollars_lw : pyfloat; (* 'Store On Hand Retail LW' *)
  p_sales_units_ytd : pyfloat;    (* 'Sales Units 2025YTD' *)
  p_sales_dollars_ytd : pyfloat;  (* 'Sales Retail $ 2025YTD' *)
}.

(** A table: its column names and its rows.  The field of a column that
    the table does not have is never read. *)
Record pos_table : Type := {
  columns : list string;
  rows : list pos_row;
}.

(** A row of the item ladder. *)
Record ladder_row : Type := {
  l_style_color : cell;
  l_fineline : cell;
  l_description : cell;
  l_color : cell;
  l_gender : cell;
  l_category : cell;
  l_sub_category : cell;
  l_aur_ty : pyfloat;
  l_aur_ly : pyfloat;
}.

Record ladder_table : Type := {
  l_columns : list string;
  l_rows : list ladder_row;
}.

(** A row of [sku_df], the frame [build_sku_master] iterates over: the
    last-week sums of a style/color, joined (left) with its YTD sums and
    its ladder attributes.  A left join leaves NaN where it finds no
    match; a ladder attribute is [None] when the ladder has no such
    column. *)
Record sku_row : Type := {
  c_style_color : cell;
  c_sales_units_lw : pyfloat;
  c_sales_units_lwly : pyfloat;
  c_sales_dollars_lw : pyfloat;
  c_sales_dollars_lwly : pyfloat;
  c_inventory_units_lw : pyfloat;
  c_inventory_dollars_lw : pyfloat;
  c_sales_dollars_ytd : pyfloat;
  c_sales_units_ytd : pyfloat;
  c_fineline : option cell;
  c_description : option cell;
  c_color : option cell;
  c_gender : option cell;
  c_category : option cell;
  c_sub_category : option cell;
  c_aur_ty : option pyfloat;
  c_aur_ly : option pyfloat;
  c_tier : string;
}.

End Model.
Import Model.

(** ** The ETL pipeline ([etl_comprehensive_v5.py]) *)

Module Etl.

(** [_safe_float] on a float cell: the default on NaN. *)
Definition _safe_float (x : pyfloat) (default : Q) : Q :=
  match x with
  | Fin q => q
  | NaN => default
  end.

(** [Series.sum()] and [Series.fillna(0).sum()]: NaN counts for zero. *)
Definition col_sum {A : Type} (col : A -> pyfloat) (rs : list A) : Q :=
  foldr (fun r acc => _safe_float (col r) 0 + acc) 0 rs.

(** *** Group-by *)

(** The sorted list of distinct keys. *)
Fixpoint insert_key (k : cell) (ks : list cell) : list cell :=
  match ks with
  | [] => [k]
  | h :: t =>
      if cell_eqb k h then ks
      else if cell_ltb k h then k :: ks
      else h :: insert_key k t
  end.

(** [df.groupby(key)]: one group per distinct key, in key order; a row
    whose key is missing belongs to no group (pandas' [dropna=True]). *)
Definition group_keys {A : Type} (key : A -> cell) (rs : list A) : list cell :=
  foldr insert_key [] (List.filter (fun k => negb (pd_isna k)) (map key rs)).

Definition groupby {A : Type} (key : A -> cell) (rs : list A)
  : list (cell * list A) :=
  map (fun k => (k, List.filter (fun r => cell_eqb (key r) k) rs))
      (group_keys key rs).

(** *** Fineline rollup *)

Definition required_cols : list string :=
  [ "Fineline"; "Sales Units LW"; "Sales Units LWLY"; "Sales Retail $ LW";
    "Sales Retail $ LWLY"; "Store On Hand Units LW";
    "Store On Hand Retail LW"; "Sales Units 2025YTD";
    "Sales Retail $ 2025YTD" ]%string.

(** The loop over [required_cols]: the first absent column raises. *)
Fixpoint check_required (cols required : list string) : result unit :=
  match required with
  | [] => Ok tt
  | col :: rest =>
      if bool_decide (col ∈ cols) then check_required cols rest
      else Raise (ValueError ("Missing required fineline column: " +:+ col))
  end.

(** The weeks of supply of a fineline (the [if] of the loop body). *)
Definition fineline_wos (inventory_units_lw sales_units_lw : Q) : Q :=
  if Qltb 0 sales_units_lw
  then inventory_units_lw / py_max sales_units_lw (1 # 10000)
  else 0.

(** The body of the loop over the groups. *)
Definition fineline_record_of (g : cell * list pos_row) : fineline_record :=
  let rs := g.2 in
  let sales_units_lw := _safe_float (Fin (col_sum p_sales_units_lw rs)) 0 in
  let sales_units_lwly := _safe_float (Fin (col_sum p_sales_units_lwly rs)) 0 in
  let sales_dollars_lw := _safe_float (Fin (col_sum p_sales_dollars_lw rs)) 0 in
  let sales_dollars_lwly := _safe_float (Fin (col_sum p_sales_dollars_lwly rs)) 0 in
  let inventory_units_lw := _safe_float (Fin (col_sum p_inventory_units_lw rs)) 0 in
  let inventory_dollars_lw := _safe_float (Fin (col_sum p_inventory_dollars_lw rs)) 0 in
  let sales_units_ytd := _safe_float (Fin (col_sum p_sales_units_ytd rs)) 0 in
  let sales_dollars_ytd := _safe_float (Fin (col_sum p_sales_dollars_ytd rs)) 0 in
  let wos := fineline_wos inventory_units_lw sales_units_lw in
  {| fl_fineline := g.1;
     fl_sales_units_lw := sales_units_lw;
     fl_sales_units_lwly := sales_units_lwly;
     fl_sales_dollars_lw := sales_dollars_lw;
     fl_sales_dollars_lwly := sales_dollars_lwly;
     fl_inventory_units_lw := inventory_units_lw;
     fl_inventory_dollars_lw := inventory_dollars_lw;
     fl_sales_units_ytd := sales_units_ytd;
     fl_sales_dollars_ytd := sales_dollars_ytd;
     fl_wos := py_round wos 1 |}.

(** [build_fineline_rollup] on the table [self.pos_lw]. *)
Definition fineline_rollup_of (df : pos_table) : result (list fineline_record) :=
  let cols := map strip (columns df) in
  check_required cols required_cols ;;
  mret (map fineline_record_of (groupby p_fineline (rows df))).

(** *** Weekly summary *)

(** [df[col]]: a [KeyError] when the table has no such column. *)
Definition get_col (df : pos_table) (name : string) (col : pos_row -> pyfloat)
  : result (list pyfloat) :=
  if bool_decide (name ∈ columns df) then Ok (map col (rows df))
  else Raise (KeyError name).

Definition weekly_wos (total_inventory_units_lw total_sales_units_lw : Q) : Q :=
  if Qltb 0 total_sales_units_lw
  then total_inventory_units_lw / py_max total_sales_units_lw (1 # 10000)
  else 0.

(** [(delta / prior * 100.0) if prior > 0 else 0.0], the percent delta
    of the summary (units and dollars). *)
Definition pct_delta (delta prior : Q) : Q :=
  if Qltb 0 prior then delta / prior * 100 else 0.

Definition weekly_summary_of (df : pos_table) : result weekly_summary_record :=
  c1 ← get_col df "Sales Units LW" p_sales_units_lw;
  let total_sales_units_lw := _safe_float (Fin (col_sum id c1)) 0 in
  c2 ← get_col df "Sales Units LWLY" p_sales_units_lwly;
  let total_sales_units_lwly := _safe_float (Fin (col_sum id c2)) 0 in
  c3 ← get_col df "Sales Retail $ LW" p_sales_dollars_lw;
  let total_sales_dollars_lw := _safe_float (Fin (col_sum id c3)) 0 in
  c4 ← get_col df "Sales Retail $ LWLY" p_sales_dollars_lwly;
  let total_sales_dollars_lwly := _safe_float (Fin (col_sum id c4)) 0 in
  c5 ← get_col df "Store On Hand Units LW" p_inventory_units_lw;
  let total_inventory_units_lw := _safe_float (Fin (col_sum id c5)) 0 in
  c6 ← get_col df "Store On Hand Retail LW" p_inventory_dollars_lw;
  let total_inventory_dollars_lw := _safe_float (Fin (col_sum id c6)) 0 in
  let units_delta := total_sales_units_lw - total_sales_units_lwly in
  let dollars_delta := total_sales_dollars_lw - total_sales_dollars_lwly in
  let units_pct_delta := pct_delta units_delta total_sales_units_lwly in
  let dollars_pct_delta := pct_delta dollars_delta total_sales_dollars_lwly in
  let wos := weekly_wos total_inventory_units_lw total_sales_units_lw in
  mret {| ws_sales_units_lw := total_sales_units_lw;
          ws_sales_units_lwly := total_sales_units_lwly;
          ws_sales_dollars_lw := total_sales_dollars_lw;
          ws_sales_dollars_lwly := total_sales_dollars_lwly;
          ws_inventory_units_lw := total_inventory_units_lw;
          ws_inventory_dollars_lw := total_inventory_dollars_lw;
          ws_units_delta := units_delta;
          ws_dollars_delta := dollars_delta;
          ws_units_pct_delta := units_pct_delta;
          ws_dollars_pct_delta := dollars_pct_delta;
          ws_wos := wos |}.

(** *** SKU master *)

(** [sku_df.sort_values(by='sales_dollars_ytd', ascending=False)] is
    pandas' code, taken as a parameter [sort_values] of the pipeline
    under the contract pandas documents ([sorts_descending] below).
    [sort_values_desc] is one sort that meets it, by stable insertion. *)
Fixpoint insert_desc (r : sku_row) (q : Q) (l : list (sku_row * Q))
  : list (sku_row * Q) :=
  match l with
  | [] => [(r, q)]
  | h :: t =>
      if Qle_bool h.2 q then (r, q) :: l else h :: insert_desc r q t
  end.

Fixpoint sort_present (l : list sku_row) : list (sku_row * Q) :=
  match l with
  | [] => []
  | r :: t =>
      match c_sales_dollars_ytd r with
      | Fin q => insert_desc r q (sort_present t)
      | NaN => sort_present t
      end
  end.

Definition sort_values_desc (l : list sku_row) : list sku_row :=
  map fst (sort_present l)
  ++ List.filter (fun r => isnan (c_sales_dollars_ytd r)) l.

(** The order of the sorted part: by descending value. *)
Definition desc (a b : sku_row * Q) : Prop := b.2 <= a.2.

(** The rows of the frame whose value is present and equal to [q]. *)
Definition has_value (q : Q) (r : sku_row) : bool :=
  f_eq (c_sales_dollars_ytd r) (Fin q).

(** The YTD sales dollars a row contributes (0.0 when missing). *)
Definition ytd_of (r : sku_row) : Q := _safe_float (c_sales_dollars_ytd r) 0.

(** [row.get(col, default)] on a column the frame may lack. *)
Definition row_get {A : Type} (c : option A) (default : A) : A :=
  match c with
  | Some x => x
  | None => default
  end.

(** The weeks of supply of a SKU (the [if] of the loop body). *)
Definition sku_wos_of (inventory_units_lw sales_units_lw : Q) : Q :=
  if Qltb 0 sales_units_lw
  then inventory_units_lw / py_max sales_units_lw (1 # 10000)
  else 0.

(** One iteration of the loop over the sorted frame: the record of the
    row, and the running [cumulative_sales] after it. *)
Definition sku_record_of (total_sales_ytd total_inventory_lw : Q)
    (cumulative_sales : Q) (row : sku_row) : sku_record * Q :=
  let sales_dollars_ytd := _safe_float (c_sales_dollars_ytd row) 0 in
  let sales_units_ytd := _safe_float (c_sales_units_ytd row) 0 in
  let sales_units_lw := _safe_float (c_sales_units_lw row) 0 in
  let sales_units_lwly := _safe_float (c_sales_units_lwly row) 0 in
  let sales_dollars_lw := _safe_float (c_sales_dollars_lw row) 0 in
  let sales_dollars_lwly := _safe_float (c_sales_dollars_lwly row) 0 in
  let inventory_units_lw := _safe_float (c_inventory_units_lw row) 0 in
  let inventory_dollars_lw := _safe_float (c_inventory_dollars_lw row) 0 in
  (* 'ST TY', 'ST LY', '% Change in ST', '% Unit Diff', '% $ Diff' are
     not columns of the joined frame: [row.get] yields the default. *)
  let sell_through_ty := _safe_float (row_get None (Fin 0)) 0 in
  let sell_through_ly := _safe_float (row_get None (Fin 0)) 0 in
  let st_change := _safe_float (row_get None (Fin 0)) 0 in
  let unit_pct_change := _safe_float (row_get None (Fin 0)) 0 in
  let dollar_pct_change := _safe_float (row_get None (Fin 0)) 0 in
  let wos := sku_wos_of inventory_units_lw sales_units_lw in
  let share :=
    if (Qltb 0 total_sales_ytd && Qltb 0 sales_dollars_ytd)%bool
    then sales_dollars_ytd / total_sales_ytd else 0 in
  let cumulative_sales := cumulative_sales + sales_dollars_ytd in
  let cumulative_share :=
    if Qltb 0 total_sales_ytd then cumulative_sales / total_sales_ytd else 0 in
  let inv_share :=
    if (Qltb 0 total_inventory_lw && Qltb 0 inventory_dollars_lw)%bool
    then inventory_dollars_lw / total_inventory_lw else 0 in
  ({| sku := c_style_color row;
      sku_fineline := row_get (c_fineline row) (CStr "");
      description := row_get (c_description row) (CStr "");
      color := row_get (c_color row) (CStr "");
      gender := row_get (c_gender row) (CStr "");
      category := row_get (c_category row) (CStr "");
      sub_category := row_get (c_sub_category row) (CStr "");
      aur_ty := _safe_float (row_get (c_aur_ty row) (Fin 0)) 0;
      aur_ly := _safe_float (row_get (c_aur_ly row) (Fin 0)) 0;
      sales_units_ytd := sales_units_ytd;
      sales_dollars_ytd := sales_dollars_ytd;
      sales_units_lw := sales_units_lw;
      sales_units_lwly := sales_units_lwly;
      sales_dollars_lw := sales_dollars_lw;
      sales_dollars_lwly := sales_dollars_lwly;
      inventory_units_lw := inventory_units_lw;
      inventory_dollars_lw := inventory_dollars_lw;
      sell_through_ty := sell_through_ty;
      sell_through_ly := sell_through_ly;
      st_change := st_change;
      unit_pct_change := unit_pct_change;
      dollar_pct_change := dollar_pct_change;
      sku_wos := py_round wos 1;
      tier := c_tier row;
      sales_pct_of_total := py_round share 6;
      cumulative_sales_pct := py_round cumulative_share 6;
      inventory_pct_of_total := py_round inv_share 6;
      store_count := None;
      sku_size_analysis := None;
      prime_items := None |},
   cumulative_sales).

(** The loop [for _, row in sku_df.iterrows()], threading
    [cumulative_sales]. *)
Fixpoint sku_loop (total_sales_ytd total_inventory_lw : Q)
    (cumulative_sales : Q) (frame : list sku_row) : list sku_record :=
  match frame with
  | [] => []
  | row :: rest =>
      let '(record, cumulative_sales) :=
        sku_record_of total_sales_ytd total_inventory_lw cumulative_sales row in
      record :: sku_loop total_sales_ytd total_inventory_lw cumulative_sales rest
  end.

(** [float(t) if t and not math.isnan(t) else 0.0] on a finite total. *)
Definition total_or_zero (t : Q) : Q := if Qeq_bool t 0 then 0 else t.

Definition total_sales_ytd_of (sku_df : list sku_row) : Q :=
  total_or_zero (col_sum c_sales_dollars_ytd sku_df).

Definition total_inventory_lw_of (sku_df : list sku_row) : Q :=
  total_or_zero (col_sum c_inventory_dollars_lw sku_df).

(** What pandas documents of a descending sort with the default
    [na_position='last']: the rows are rearranged; those with a value
    come first, by descending value; those whose value is missing come
    last. *)
Record sorts_descending (sort_values : list sku_row -> list sku_row) : Prop := {
  sorted_perm : forall l, sort_values l ≡ₚ l;
  sorted_shape : forall l,
    exists present missing,
      sort_values l = present ++ missing
      /\ Forall (fun r => isnan (c_sales_dollars_ytd r) = false) present
      /\ Forall (fun r => isnan (c_sales_dollars_ytd r) = true) missing
      /\ StronglySorted (fun a b => ytd_of b <= ytd_of a) present;
}.

(** A stable sort keeps the rows that carry one and the same value in
    the order they have in the frame.  pandas promises it for
    [kind='stable'] only; the code asks for the default kind. *)
Definition stable (sort_values : list sku_row -> list sku_row) : Prop :=
  forall l q,
    List.filter (has_value q) (sort_values l) = List.filter (has_value q) l.

Section Pipeline.

Variable sort_values : list sku_row -> list sku_row.

(** [build_sku_master] from the joined frame on: totals, sort, loop. *)
Definition sku_master_of (sku_df : list sku_row) : list sku_record :=
  let total_sales_ytd := total_sales_ytd_of sku_df in
  let total_inventory_lw := total_inventory_lw_of sku_df in
  let sku_df' := sort_values sku_df in
  sku_loop total_sales_ytd total_inventory_lw 0 sku_df'.

(** *** The joined frame *)

Definition require_col (cols : list string) (name : string) : result unit :=
  if bool_decide (name ∈ cols) then Ok tt else Raise (KeyError name).

(** [_lookup_tier]; the tier sets hold style/color strings. *)
Record tiers : Type := {
  tier_A : gset string;
  tier_B : gset string;
  tier_C : gset string;
}.

Definition cell_in (c : cell) (s : gset string) : bool :=
  match c with
  | CStr k => bool_decide (k ∈ s)
  | _ => false
  end.

Definition _lookup_tier (t : tiers) (sku : cell) : string :=
  if cell_in sku (tier_A t) then "A"
  else if cell_in sku (tier_B t) then "B"
  else if cell_in sku (tier_C t) then "C"
  else "C".

(** The value a left join brings for a key: the sum of the group with
    that key, NaN when there is none. *)
Definition joined_sum (groups : list (cell * list pos_row)) (k : cell)
    (col : pos_row -> pyfloat) : pyfloat :=
  match List.find (fun g => cell_eqb g.1 k) groups with
  | Some g => Fin (col_sum col g.2)
  | None => NaN
  end.

(** A ladder column, when the ladder has it. *)
Definition ladder_attr {A : Type} (lad : ladder_table) (name : string)
    (v : A) : option A :=
  if bool_decide (name ∈ l_columns lad) then Some v else None.

Definition joined_row (t : tiers) (ytd : list (cell * list pos_row))
    (lad : ladder_table) (g : cell * list pos_row) (l : ladder_row) : sku_row :=
  {| c_style_color := g.1;
     c_sales_units_lw := Fin (col_sum p_sales_units_lw g.2);
     c_sales_units_lwly := Fin (col_sum p_sales_units_lwly g.2);
     c_sales_dollars_lw := Fin (col_sum p_sales_dollars_lw g.2);
     c_sales_dollars_lwly := Fin (col_sum p_sales_dollars_lwly g.2);
     c_inventory_units_lw := Fin (col_sum p_inventory_units_lw g.2);
     c_inventory_dollars_lw := Fin (col_sum p_inventory_dollars_lw g.2);
     c_sales_dollars_ytd := joined_sum ytd g.1 p_sales_dollars_ytd;
     c_sales_units_ytd := joined_sum ytd g.1 p_sales_units_ytd;
     c_fineline := ladder_attr lad "Fineline" (l_fineline l);
     c_description := ladder_attr lad "Item Description" (l_description l);
     c_color := ladder_attr lad "Color" (l_color l);
     c_gender := ladder_attr lad "Gender" (l_gender l);
     c_category := ladder_attr lad "Category" (l_category l);
     c_sub_category := ladder_attr lad "Sub Category" (l_sub_category l);
     c_aur_ty := ladder_attr lad "AUR TY" (l_aur_ty l);
     c_aur_ly := ladder_attr lad "AUR LY" (l_aur_ly l);
     c_tier := _lookup_tier t g.1 |}.

(** The ladder row a left join supplies when no ladder row matches. *)
Definition no_ladder_row : ladder_row :=
  {| l_style_color := CFloat NaN; l_fineline := CFloat NaN;
     l_description := CFloat NaN; l_color := CFloat NaN;
     l_gender := CFloat NaN; l_category := CFloat NaN;
     l_sub_category := CFloat NaN; l_aur_ty := NaN; l_aur_ly := NaN |}.

(** The group-bys and left joins at the head of [build_sku_master].  A
    column that a table lacks is a [KeyError] of pandas, whose message is
    given as the name of the column. *)
Definition sku_frame (t : tiers) (lw ytd : pos_table) (lad : ladder_table)
  : result (list sku_row) :=
  require_col (columns ytd) "WD Style/Color" ;;
  require_col (columns ytd) "Sales Retail $ 2025YTD" ;;
  require_col (columns ytd) "Sales Units 2025YTD" ;;
  require_col (columns lw) "WD Style/Color" ;;
  require_col (columns lw) "Sales Units LW" ;;
  require_col (columns lw) "Sales Units LWLY" ;;
  require_col (columns lw) "Sales Retail $ LW" ;;
  require_col (columns lw) "Sales Retail $ LWLY" ;;
  require_col (columns lw) "Store On Hand Units LW" ;;
  require_col (columns lw) "Store On Hand Retail LW" ;;
  require_col (l_columns lad) "WD Style/Color" ;;
  let ytd_groups := groupby p_style_color (rows ytd) in
  mret (flat_map
          (fun g =>
             match List.filter (fun l => cell_eqb (l_style_color l) g.1)
                               (l_rows lad) with
             | [] => [joined_row t ytd_groups lad g no_ladder_row]
             | ls => map (joined_row t ytd_groups lad g) ls
             end)
          (groupby p_style_color (rows lw))).

(** *** The run *)

Record metrics_record : Type := {
  tier_a_count : nat;
  tier_b_count : nat;
  tier_c_count : nat;
  metrics_avg_wos : Q;
}.

(** The dictionary [build_meta] stores in [self.meta]: the time of the
    build, the base names of the three source files (POS, ladder and
    velocity, in this order) and [self.metrics]. *)
Record meta_record : Type := {
  generated_at : string;
  source_files : string * string * string;
  meta_metrics : option metrics_record;
}.

(** What [_save_json] writes.  The JSON of [seasonal_risk.json] and
    [action_items.json] is passed through unread. *)
Inductive artifact : Type :=
  | ASkuMaster (l : list sku_record)
  | AFinelineRollup (l : list fineline_record)
  | AWeeklySummary (w : option weekly_summary_record)
  | AOpaque (json : string)
  | AMeta (m : option meta_record).

(** The fields of a [DickiesDashboardETL] object.  The class is read with
    the indentation of its methods restored.  [pos_lw], [pos_ytd] and
    [ladder] are set to [None] by [__init__]; no other statement of the
    class assigns them. *)
Record etl : Type := {
  pos_lw : option pos_table;
  pos_ytd : option pos_table;
  ladder : option ladder_table;
  pos_ytd_df : option pos_table;
  velocity_raw : option (list (gmap string cell));
  sku_master : list sku_record;
  fineline_rollup : list fineline_record;
  weekly_summary : option weekly_summary_record;
  seasonal_risk : artifact;
  action_items : artifact;
  meta : option meta_record;
  metrics : option metrics_record;
  tier_assignments : tiers;
}.

(** [__init__]. *)
Definition init : etl :=
  {| pos_lw := None; pos_ytd := None; ladder := None; pos_ytd_df := None;
     velocity_raw := None; sku_master := []; fineline_rollup := [];
     weekly_summary := None; seasonal_risk := AOpaque "[]";
     action_items := AOpaque "[]"; meta := None; metrics := None;
     tier_assignments := {| tier_A := ∅; tier_B := ∅; tier_C := ∅ |} |}.

(** What a run reads: the table the scan of the POS workbook settles on
    (the first one with both 'WD Style/Color' and 'Sales Retail $
    2025YTD' and at least one row, if any), the velocity workbook (if it
    can be read), the files of the output directory, the clock (the text
    [datetime.utcnow().isoformat()] gives when [build_meta] runs) and
    the base names of the paths of the three source files. *)
Record world : Type := {
  pos_workbook : option pos_table;
  velocity_workbook : option (list (gmap string cell));
  output_dir : gmap string artifact;
  utcnow : string;
  source_names : string * string * string;
}.

Definition set_pos_ytd_df (v : option pos_table) (s : etl) : etl :=
  {| pos_lw := pos_lw s; pos_ytd := pos_ytd s; ladder := ladder s;
     pos_ytd_df := v; velocity_raw := velocity_raw s;
     sku_master := sku_master s; fineline_rollup := fineline_rollup s;
     weekly_summary := weekly_summary s; seasonal_risk := seasonal_risk s;
     action_items := action_items s; meta := meta s; metrics := metrics s;
     tier_assignments := tier_assignments s |}.
Definition set_velocity_raw (v : option (list (gmap string cell))) (s : etl) : etl :=
  {| pos_lw := pos_lw s; pos_ytd := pos_ytd s; ladder := ladder s;
     pos_ytd_df := pos_ytd_df s; velocity_raw := v;
     sku_master := sku_master s; fineline_rollup := fineline_rollup s;
     weekly_summary := weekly_summary s; seasonal_risk := seasonal_risk s;
     action_items := action_items s; meta := meta s; metrics := metrics s;
     tier_assignments := tier_assignments s |}.
Definition set_sku_master (v : list sku_record) (s : etl) : etl :=
  {| pos_lw := pos_lw s; pos_ytd := pos_ytd s; ladder := ladder s;
     pos_ytd_df := pos_ytd_df s; velocity_raw := velocity_raw s;
     sku_master := v; fineline_rollup := fineline_rollup s;
     weekly_summary := weekly_summary s; seasonal_risk := seasonal_risk s;
     action_items := action_items s; meta := meta s; metrics := metrics s;
     tier_assignments := tier_assignments s |}.
Definition set_fineline_rollup (v : list fineline_record) (s : etl) : etl :=
  {| pos_lw := pos_lw s; pos_ytd := pos_ytd s; ladder := ladder s;
     pos_ytd_df := pos_ytd_df s; velocity_raw := velocity_raw s;
     sku_master := sku_master s; fineline_rollup := v;
     weekly_summary := weekly_summary s; seasonal_risk := seasonal_risk s;
     action_items := action_items s; meta := meta s; metrics := metrics s;
     tier_assignments := tier_assignments s |}.
Definition set_weekly_summary (v : option weekly_summary_record) (s : etl) : etl :=
  {| pos_lw := pos_lw s; pos_ytd := pos_ytd s; ladder := ladder s;
     pos_ytd_df := pos_ytd_df s; velocity_raw := velocity_raw s;
     sku_master := sku_master s; fineline_rollup := fineline_rollup s;
     weekly_summary := v; seasonal_risk := seasonal_risk s;
     action_items := action_items s; meta := meta s; metrics := metrics s;
     tier_assignments := tier_assignments s |}.
Definition set_risk_and_actions (r a : artifact) (s : etl) : etl :=
  {| pos_lw := pos_lw s; pos_ytd := pos_ytd s; ladder := ladder s;
     pos_ytd_df := pos_ytd_df s; velocity_raw := velocity_raw s;
     sku_master := sku_master s; fineline_rollup := fineline_rollup s;
     weekly_summary := weekly_summary s; seasonal_risk := r;
     action_items := a; meta := meta s; metrics := metrics s;
     tier_assignments := tier_assignments s |}.
Definition set_metrics (m : option metrics_record) (s : etl) : etl :=
  {| pos_lw := pos_lw s; pos_ytd := pos_ytd s; ladder := ladder s;
     pos_ytd_df := pos_ytd_df s; velocity_raw := velocity_raw s;
     sku_master := sku_master s; fineline_rollup := fineline_rollup s;
     weekly_summary := weekly_summary s; seasonal_risk := seasonal_risk s;
     action_items := action_items s; meta := meta s; metrics := m;
     tier_assignments := tier_assignments s |}.

Definition set_meta (m : option meta_record) (s : etl) : etl :=
  {| pos_lw := pos_lw s; pos_ytd := pos_ytd s; ladder := ladder s;
     pos_ytd_df := pos_ytd_df s; velocity_raw := velocity_raw s;
     sku_master := sku_master s; fineline_rollup := fineline_rollup s;
     weekly_summary := weekly_summary s; seasonal_risk := seasonal_risk s;
     action_items := action_items s; meta := m; metrics := metrics s;
     tier_assignments := tier_assignments s |}.

(** [load_pos_data]: the table found is kept in [pos_ytd_df]; it is an
    error to find none (the message is given without its leading mark and
    without the list of sheet names it ends with). *)
Definition load_pos_data (w : world) (s : etl) : result etl :=
  match pos_workbook w with
  | Some df =>
      let df := {| columns := map strip (columns df); rows := rows df |} in
      Ok (set_pos_ytd_df (Some df) s)
  | None =>
      Raise (ValueError
        "Could not locate POS YTD table with both 'WD Style/Color' and 'Sales Retail $ 2025YTD' in any sheet.")
  end.

(** [load_ladder_data]: the body under this name reads the velocity
    workbook into [velocity_raw] and swallows every failure. *)
Definition load_ladder_data (w : world) (s : etl) : result etl :=
  Ok (set_velocity_raw (velocity_workbook w) s).

Definition build_sku_master (s : etl) : result etl :=
  match pos_lw s, ladder s with
  | Some lw, Some lad =>
      match pos_ytd s with
      | Some ytd =>
          sku_df ← sku_frame (tier_assignments s) lw ytd lad;
          mret (set_sku_master (sku_master_of sku_df) s)
      | None =>
          Raise (AttributeError "'NoneType' object has no attribute 'groupby'")
      end
  | _, _ =>
      Raise (RuntimeError
        "POS LW and Ladder data must be loaded before building SKU master.")
  end.

Definition build_fineline_rollup (s : etl) : result etl :=
  match pos_lw s with
  | Some df =>
      fineline_rows ← fineline_rollup_of df;
      mret (set_fineline_rollup fineline_rows s)
  | None => Raise (AttributeError "'NoneType' object has no attribute 'copy'")
  end.

Definition build_weekly_sales_summary (s : etl) : result etl :=
  match pos_lw s with
  | Some df =>
      summary ← weekly_summary_of df;
      mret (set_weekly_summary (Some summary) s)
  | None => Raise (AttributeError "'NoneType' object has no attribute 'copy'")
  end.

(** [load_seasonal_risk_and_actions]: each file is read when it exists. *)
Definition load_seasonal_risk_and_actions (w : world) (s : etl) : result etl :=
  let r := default (seasonal_risk s) (output_dir w !! "seasonal_risk.json") in
  let a := default (action_items s) (output_dir w !! "action_items.json") in
  Ok (set_risk_and_actions r a s).

(** [calculate_summary_metrics] and [build_meta]. *)
Definition calculate_summary_metrics (s : etl) : metrics_record :=
  let wos_vals := map sku_wos (sku_master s) in
  let avg_wos :=
    match wos_vals with
    | [] => 0
    | _ => foldr Qplus 0 wos_vals / inject_Z (Z.of_nat (length wos_vals))
    end in
  {| tier_a_count := size (tier_A (tier_assignments s));
     tier_b_count := size (tier_B (tier_assignments s));
     tier_c_count := size (tier_C (tier_assignments s));
     metrics_avg_wos := avg_wos |}.

(** [build_meta]: the metrics are computed and stored in
    [self.metrics], then the dictionary is built around them. *)
Definition build_meta (w : world) (s : etl) : result etl :=
  let s := set_metrics (Some (calculate_summary_metrics s)) s in
  Ok (set_meta (Some {| generated_at := utcnow w +:+ "Z";
                        source_files := source_names w;
                        meta_metrics := metrics s |}) s).

(** [_save_json]: write (or overwrite) one file of the output directory.
    Every value of the artifacts as they are modelled here (floats with
    NaN, strings, [None], integers, lists and dictionaries of these) is
    one [json.dump] serialises, so that the save is a plain write; a
    value of another type, which [json.dump] refuses, is outside of the
    tables as they are modelled. *)
Definition _save_json (name : string) (obj : artifact)
    (dir : gmap string artifact) : gmap string artifact :=
  <[name := obj]> dir.

(** The stages of [run] ahead of the saves. *)
Definition stages (w : world) (s : etl) : result etl :=
  s ← load_pos_data w s;
  s ← load_ladder_data w s;
  s ← build_sku_master s;
  s ← build_fineline_rollup s;
  s ← build_weekly_sales_summary s;
  s ← load_seasonal_risk_and_actions w s;
  build_meta w s.

(** The outcome of [run]: its return value, the line it prints when it
    fails, and the output directory it leaves. *)
Record outcome : Type := {
  success : bool;
  failure_line : option string;
  files : gmap string artifact;
}.

(** [run]: every exception of a stage is caught, reported and turned into
    [False]; the six saves come after the last stage.  The reported line
    is given without its leading blank line and mark; creating the output
    directory writes no artifact and is left out. *)
Definition run (w : world) (s : etl) : outcome :=
  match stages w s with
  | Ok s =>
      let dir := output_dir w in
      let dir := _save_json "sku_master.json" (ASkuMaster (sku_master s)) dir in
      let dir := _save_json "fineline_rollup.json"
                   (AFinelineRollup (fineline_rollup s)) dir in
      let dir := _save_json "weekly_sales_summary.json"
                   (AWeeklySummary (weekly_summary s)) dir in
      let dir := _save_json "seasonal_risk.json" (seasonal_risk s) dir in
      let dir := _save_json "action_items.json" (action_items s) dir in
      let dir := _save_json "meta.json" (AMeta (meta s)) dir in
      {| success := true; failure_line := None; files := dir |}
  | Raise e =>
      {| success := false;
         failure_line := Some ("ETL FAILED: " +:+ exn_message e);
         files := output_dir w |}
  end.

End Pipeline.

End Etl.

(** ** Size-level enrichment ([velocity_trends_integration.py]) *)

Module Velocity.

(** Truthiness of a cell, and [x or d]. *)
Definition cell_truthy (c : cell) : bool :=
  match c with
  | CFloat x => f_truthy x
  | CStr s => negb (String.eqb s "")
  | CNone => false
  end.

Definition cell_or (c d : cell) : cell := if cell_truthy c then c else d.

(** [row.get(key, default)] on a row of the velocity frame. *)
Definition get (row : gmap string cell) (key : string) (default : cell) : cell :=
  match row !! key with
  | Some c => c
  | None => default
  end.

(** [x > 0]: a number compares, anything else is a [TypeError]. *)
Definition gt_zero (c : cell) : result bool :=
  match c with
  | CFloat x => Ok (f_gt x (Fin 0))
  | _ => Raise (TypeError "'>' not supported between instances")
  end.

(** [a / b] on floats: NaN propagates, a zero divisor raises. *)
Definition f_div (a b : pyfloat) : result pyfloat :=
  match a, b with
  | Fin x, Fin y =>
      if Qeq_bool y 0 then Raise (ZeroDivisionError "float division by zero")
      else Ok (Fin (x / y))
  | NaN, Fin y =>
      if Qeq_bool y 0 then Raise (ZeroDivisionError "float division by zero")
      else Ok NaN
  | _, NaN => Ok NaN
  end.

(** [a / b] on finite numbers. *)
Definition q_div (a b : Q) : result Q :=
  if Qeq_bool b 0 then Raise (ZeroDivisionError "division by zero")
  else Ok (a / b).

Definition cell_div (a b : cell) : result cell :=
  match a, b with
  | CFloat x, CFloat y => q ← f_div x y; mret (CFloat q)
  | _, _ => Raise (TypeError "unsupported operand type(s) for /")
  end.

(** [int(x)] on a finite float truncates towards zero. *)
Definition Qtrunc (q : Q) : Z := if Qle_bool 0 q then Qfloor q else Qceiling q.

Section Conversions.

(** How Python prints a finite float, and what [float(s)] and [int(s)]
    make of a string: the decimal notation is not modelled. *)
Variable show_float : Q -> string.
Variable float_of_str : string -> result pyfloat.
Variable int_of_str : string -> result Z.

Definition py_float (c : cell) : result pyfloat :=
  match c with
  | CFloat x => Ok x
  | CStr s => float_of_str s
  | CNone => Raise (TypeError "float() argument must be a string or a real number")
  end.

Definition py_int (c : cell) : result Z :=
  match c with
  | CFloat (Fin q) => Ok (Qtrunc q)
  | CFloat NaN => Raise (ValueError "cannot convert float NaN to integer")
  | CStr s => int_of_str s
  | CNone => Raise (TypeError "int() argument must be a string or a real number")
  end.

(** [lw_inv_retail / lw_avg_retail if lw_avg_retail > 0 else 0]. *)
Definition lw_inv_units_of (lw_inv_retail lw_avg_retail : cell) : result cell :=
  positive ← gt_zero lw_avg_retail;
  if positive : bool then cell_div lw_inv_retail lw_avg_retail
  else Ok (CFloat (Fin 0)).

(** [(lw_inv_units / lw_pos_qty) if lw_pos_qty > 0 else 0]. *)
Definition wos_of (lw_inv_units lw_pos_qty : cell) : result cell :=
  positive ← gt_zero lw_pos_qty;
  if positive : bool then cell_div lw_inv_units lw_pos_qty
  else Ok (CFloat (Fin 0)).

(** The sales and inventory figures of a row: [lw_pos_qty],
    [lw_inv_retail], and the per-size inventory units and weeks of supply
    computed from them. *)
Definition inv_units_and_wos (row : gmap string cell)
  : result (cell * cell * cell * cell) :=
  let lw_pos_qty := cell_or (get row "LW POS Qty" (CFloat (Fin 0))) (CFloat (Fin 0)) in
  let lw_inv_retail :=
    cell_or (get row "Total LW Str Inv Retail" (CFloat (Fin 0))) (CFloat (Fin 0)) in
  let lw_avg_retail :=
    cell_or (get row "LW Avg Retail" (CFloat (Fin 0))) (CFloat (Fin 1)) in
  lw_inv_units ← lw_inv_units_of lw_inv_retail lw_avg_retail;
  wos ← wos_of lw_inv_units lw_pos_qty;
  mret (lw_pos_qty, lw_inv_retail, lw_inv_units, wos).

(** The body of the loop of [map_velocity_to_styles]: [None] when the row
    is skipped, else the key and the record to append under it. *)
Definition map_row (row : gmap string cell) : result (option (string * prime_item)) :=
  let style_color := strip (py_str show_float (get row "Vndr Category 2" (CStr ""))) in
  if (String.eqb style_color "" || pd_isna (CStr style_color))%bool then Ok None
  else
    let prime_item := get row "Prime Item Nbr" (CStr "") in
    let size := strip (py_str show_float (get row "Prime Size Description" (CStr ""))) in
    let item_status := strip (py_str show_float (get row "Item Status" (CStr ""))) in
    '(lw_pos_qty, lw_inv_retail, lw_inv_units, wos) ← inv_units_and_wos row;
    let curr_valid_stores :=
      cell_or (get row "Curr Valid Stores" (CFloat (Fin 0))) (CFloat (Fin 0)) in
    f_lw_pos_qty ← py_float lw_pos_qty;
    f_lw_inv_units ← py_float lw_inv_units;
    f_lw_inv_retail ← py_float lw_inv_retail;
    f_wos ← py_float wos;
    i_curr_valid_stores ← py_int curr_valid_stores;
    f_unit_retail ←
      py_float (cell_or (get row "Unit Retail" (CFloat (Fin 0))) (CFloat (Fin 0)));
    f_unit_cost ←
      py_float (cell_or (get row "Unit Cost" (CFloat (Fin 0))) (CFloat (Fin 0)));
    mret (Some (style_color,
      {| prime_item_nbr := prime_item;
         size_desc := size;
         item_status := item_status;
         lw_pos_qty := f_lw_pos_qty;
         lw_inv_units := f_lw_inv_units;
         lw_inv_retail := f_lw_inv_retail;
         wos := f_round f_wos 1;
         curr_valid_stores := i_curr_valid_stores;
         unit_retail := f_unit_retail;
         unit_cost := f_unit_cost |})).

(** The loop over the rows of the velocity frame. *)
Fixpoint map_velocity_loop (velocity_df : list (gmap string cell))
    (style_map : gmap string (list prime_item))
  : result (gmap string (list prime_item)) :=
  match velocity_df with
  | [] => Ok style_map
  | row :: rest =>
      r ← map_row row;
      match r with
      | None => map_velocity_loop rest style_map
      | Some (style_color, prime_item_record) =>
          let items := default [] (style_map !! style_color) in
          map_velocity_loop rest
            (<[style_color := items ++ [prime_item_record]]> style_map)
      end
  end.

Definition map_velocity_to_styles (velocity_df : list (gmap string cell))
  : result (gmap string (list prime_item)) :=
  map_velocity_loop velocity_df ∅.

End Conversions.

(** *** Enrichment *)

(** The three keys the enrichment writes into a SKU dictionary. *)
Definition with_size_fields (count : option Z) (analysis : option size_analysis)
    (items : option (list prime_item)) (s : sku_record) : sku_record :=
  {| sku := sku s; sku_fineline := sku_fineline s;
     description := description s; color := color s; gender := gender s;
     category := category s; sub_category := sub_category s;
     aur_ty := aur_ty s; aur_ly := aur_ly s;
     sales_units_ytd := sales_units_ytd s;
     sales_dollars_ytd := sales_dollars_ytd s;
     sales_units_lw := sales_units_lw s;
     sales_units_lwly := sales_units_lwly s;
     sales_dollars_lw := sales_dollars_lw s;
     sales_dollars_lwly := sales_dollars_lwly s;
     inventory_units_lw := inventory_units_lw s;
     inventory_dollars_lw := inventory_dollars_lw s;
     sell_through_ty := sell_through_ty s;
     sell_through_ly := sell_through_ly s;
     st_change := st_change s; unit_pct_change := unit_pct_change s;
     dollar_pct_change := dollar_pct_change s;
     sku_wos := sku_wos s; tier := tier s;
     sales_pct_of_total := sales_pct_of_total s;
     cumulative_sales_pct := cumulative_sales_pct s;
     inventory_pct_of_total := inventory_pct_of_total s;
     store_count := count;
     sku_size_analysis := analysis;
     prime_items := items |}.

(** [max(...)] and [min(...)] over a non-empty sequence. *)
Definition max_stores (first : Z) (others : list Z) : Z :=
  fold_left (fun m x => if (m <? x)%Z then x else m) others first.

Definition max_of (first : Q) (others : list Q) : Q :=
  fold_left (fun m x => if Qltb m x then x else m) others first.

Definition min_of (first : Q) (others : list Q) : Q :=
  fold_left (fun m x => if Qltb x m then x else m) others first.

(** [[p['wos'] for p in prime_items if p['wos'] > 0]]. *)
Fixpoint wos_values_of (prime_items : list prime_item) : list Q :=
  match prime_items with
  | [] => []
  | p :: rest =>
      match wos p with
      | Fin q => if Qltb 0 q then q :: wos_values_of rest else wos_values_of rest
      | NaN => wos_values_of rest
      end
  end.

Definition is_productive (p : prime_item) : bool :=
  (f_gt (lw_pos_qty p) (Fin 0) && f_lt (wos p) (Fin 20))%bool.

Definition is_dead (p : prime_item) : bool :=
  (f_gt (wos p) (Fin 30)
   || (f_eq (lw_pos_qty p) (Fin 0) && f_gt (lw_inv_units p) (Fin 0)))%bool.

Definition nat_Q (n : nat) : Q := inject_Z (Z.of_nat n).

(** The size-level metrics of the list of sizes of one SKU. *)
Definition size_analysis_of (prime_items : list prime_item) : result size_analysis :=
  let total_prime_items := length prime_items in
  let active_items :=
    List.filter (fun p => String.eqb (item_status p) "A") prime_items in
  let total_stores :=
    match map curr_valid_stores prime_items with
    | [] => 0%Z
    | x :: xs => max_stores x xs
    end in
  let wos_values := wos_values_of prime_items in
  avg_wos ←
    match wos_values with
    | [] => Ok 0
    | _ => q_div (foldr Qplus 0 wos_values) (nat_Q (length wos_values))
    end;
  let max_wos := match wos_values with [] => 0 | x :: xs => max_of x xs end in
  let min_wos := match wos_values with [] => 0 | x :: xs => min_of x xs end in
  let productive_sizes := List.filter is_productive prime_items in
  let dead_sizes := List.filter is_dead prime_items in
  size_efficiency_pct ←
    (if (0 <? total_prime_items)%nat
     then r ← q_div (nat_Q (length productive_sizes)) (nat_Q total_prime_items);
          mret (py_round (r * 100) 1)
     else Ok 0);
  mret {| total_prime_items := total_prime_items;
          active_items := length active_items;
          total_stores := total_stores;
          avg_wos := py_round avg_wos 1;
          max_wos := py_round max_wos 1;
          min_wos := py_round min_wos 1;
          productive_sizes := length productive_sizes;
          dead_sizes := length dead_sizes;
          size_efficiency_pct := size_efficiency_pct |}.

(** [style_map[sku_code]] when [sku_code in style_map]; the keys of the
    map are strings, so only a string code can be one of them. *)
Definition lookup_code (style_map : gmap string (list prime_item)) (sku_code : cell)
  : option (list prime_item) :=
  match sku_code with
  | CStr code => style_map !! code
  | _ => None
  end.

(** The body of the loop of [enrich_sku_master_with_size_analysis]. *)
Definition enrich_sku (style_map : gmap string (list prime_item))
    (s : sku_record) : result sku_record :=
  let sku_code := sku s in
  let s := with_size_fields (Some 0%Z) (sku_size_analysis s) (prime_items s) s in
  match lookup_code style_map sku_code with
  | Some prime_items =>
      analysis ← size_analysis_of prime_items;
      mret (with_size_fields (Some (total_stores analysis)) (Some analysis)
                             (Some prime_items) s)
  | None => Ok s
  end.

(** The loop over [sku_master]. *)
Fixpoint enrich_sku_master_with_size_analysis (sku_master : list sku_record)
    (style_map : gmap string (list prime_item)) : result (list sku_record) :=
  match sku_master with
  | [] => Ok []
  | s :: rest =>
      s' ← enrich_sku style_map s;
      rest' ← enrich_sku_master_with_size_analysis rest style_map;
      mret (s' :: rest')
  end.

(** *** Recommendations *)

Record recommendation : Type := {
  rec_sku : cell;
  rec_fineline : cell;
  rec_tier : string;
  rec_total_sizes : nat;
  rec_dead_sizes : nat;
  rec_size_efficiency_pct : Q;
  rec_recommendation : string;
  rec_priority : string;
  rec_expected_impact : string;
}.

Definition recommendation_of (s : sku_record) (a : size_analysis) : recommendation :=
  let dead_sizes := dead_sizes a in
  let size_efficiency := size_efficiency_pct a in
  {| rec_sku := sku s;
     rec_fineline := sku_fineline s;
     rec_tier := tier s;
     rec_total_sizes := total_prime_items a;
     rec_dead_sizes := dead_sizes;
     rec_size_efficiency_pct := size_efficiency;
     rec_recommendation :=
       "Optimize size curve - " +:+ pretty dead_sizes +:+ " dead sizes out of "
       +:+ pretty (total_prime_items a);
     rec_priority := if (3 <? dead_sizes)%nat then "high" else "medium";
     rec_expected_impact := "Reduce inventory bloat, improve WOS" |}.

(** The loop of [generate_size_recommendations]; [acc] is the list
    [recommendations] built so far. *)
Fixpoint recommendations_loop (sku_master : list sku_record)
    (acc : list recommendation) : list recommendation :=
  match sku_master with
  | [] => acc
  | s :: rest =>
      match sku_size_analysis s with
      | None => recommendations_loop rest acc
      | Some a =>
          if ((0 <? dead_sizes a)%nat && Qltb (size_efficiency_pct a) 70)%bool
          then recommendations_loop rest (acc ++ [recommendation_of s a])
          else recommendations_loop rest acc
      end
  end.

Definition generate_size_recommendations (sku_master : list sku_record)
  : list recommendation :=
  recommendations_loop sku_master [].

End Velocity.

(** ** Narrative helpers ([austin_insights.py]) *)

Module Insights.

(** [_yoy_pct]. *)
Definition _yoy_pct (current ly : Q) : Q :=
  if Qeq_bool ly 0 then 0 else (current - ly) / ly * 100.

(** The local [yoy_pct] of [_generate_header_metrics] and of
    [_generate_big_picture]. *)
Definition yoy_pct (cur prev : Q) : Q :=
  if Qeq_bool prev 0 then 0 else (cur - prev) / prev * 100.

End Insights.

(** ** The rules of the specification

    The derived-metric functions as the specification words them, to be
    compared with what the code computes. *)

Module Spec.

(** "inventory_units / max(sales_units, eps) when sales_units > 0 else
    0.0", with eps = 0.0001. *)
Definition weeks_of_supply (inventory_units sales_units : Q) : Q :=
  if Qlt_le_dec 0 sales_units
  then inventory_units / Qmax sales_units (1 # 10000)
  else 0.

(** "(current - prior) / prior * 100, returns 0.0 when prior == 0". *)
Definition percent_change (current prior : Q) : Q :=
  if Qeq_dec prior 0 then 0 else (current - prior) / prior * 100.

End Spec.

(** ** Unrestricted statements and sample data *)

Module Claims.

Import Etl.

(** The cumulative-share property as the specification words it, for a
    sort [sort_values]: whenever the total of the YTD sales dollars is
    positive, the records are in descending order of
    [sales_dollars_ytd], records with equal [sales_dollars_ytd] stand in
    the order of their rows in the frame, [cumulative_sales_pct] never
    decreases, and the last one is 1.0 up to 1e-6. *)
Definition cumulative_share_as_worded (sort_values : list sku_row -> list sku_row)
    (sku_df : list sku_row) : Prop :=
  0 < total_sales_ytd_of sku_df ->
  let out := sku_master_of sort_values sku_df in
  StronglySorted (fun a b => sales_dollars_ytd b <= sales_dollars_ytd a) out
  /\ (forall q,
        map sku (List.filter (fun r => Qeq_bool (sales_dollars_ytd r) q) out)
        = map c_style_color (List.filter (fun r => Qeq_bool (ytd_of r) q) sku_df))
  /\ StronglySorted (fun a b => cumulative_sales_pct a <= cumulative_sales_pct b) out
  /\ (exists r, last out = Some r
                /\ Qabs (cumulative_sales_pct r - 1) <= 1 # 1000000).

(** A row of the joined frame with the given key and YTD sales dollars,
    and nothing else of note. *)
Definition frame_row (key : string) (ytd : pyfloat) : sku_row :=
  {| c_style_color := CStr key;
     c_sales_units_lw := Fin 0; c_sales_units_lwly := Fin 0;
     c_sales_dollars_lw := Fin 0; c_sales_dollars_lwly := Fin 0;
     c_inventory_units_lw := Fin 0; c_inventory_dollars_lw := Fin 0;
     c_sales_dollars_ytd := ytd; c_sales_units_ytd := Fin 0;
     c_fineline := None; c_description := None; c_color := None;
     c_gender := None; c_category := None; c_sub_category := None;
     c_aur_ty := None; c_aur_ly := None; c_tier := "C" |}.

(** A frame with a return-driven negative YTD figure, and a frame with a
    style/color that has no YTD row. *)
Definition frame_with_returns : list sku_row :=
  [frame_row "A1" (Fin 5); frame_row "A2" (Fin (-3))].

Definition frame_with_missing : list sku_row :=
  [frame_row "A1" NaN; frame_row "A2" (Fin 0); frame_row "A3" (Fin 10)].

(** A frame in which two styles sold the same. *)
Definition frame_with_ties : list sku_row :=
  [frame_row "K1" (Fin 5); frame_row "K2" (Fin 5); frame_row "K3" (Fin 10)].

(** A second sort that meets what pandas documents of a descending
    sort: the insertion sort over the frame read from its end.  Rows of
    one and the same value come out in the reverse of their order in the
    frame, as they may under pandas' default kind, which is not
    stable. *)
Definition sort_values_unstable (l : list sku_row) : list sku_row :=
  sort_values_desc (rev l).

(** "Productive" as the specification words it: positive sales and a
    WOS below 30. *)
Definition productive_as_worded (p : prime_item) : bool :=
  (f_gt (lw_pos_qty p) (Fin 0) && f_lt (wos p) (Fin 30))%bool.

(** A size record with the given last-week quantity, inventory units,
    WOS and store count. *)
Definition size_record (qty inv w : Q) (stores : Z) : prime_item :=
  {| prime_item_nbr := CStr ""; size_desc := "32X32"; item_status := "A";
     lw_pos_qty := Fin qty; lw_inv_units := Fin inv; lw_inv_retail := Fin inv;
     wos := Fin w; curr_valid_stores := stores;
     unit_retail := Fin 0; unit_cost := Fin 0 |}.

(** The SKU record [build_sku_master] makes of a row with the given key. *)
Definition sku_of_key (key : string) : sku_record :=
  (sku_record_of 1 1 0 (frame_row key (Fin 1))).1.

(** One selling size with a WOS of 25. *)
Definition sizes_wos_25 : list prime_item := [size_record 5 125 25 10].

(** Four sizes: two with a WOS above 30, two that sell nothing and hold
    inventory. *)
Definition sizes_two_over_30 : list prime_item :=
  [ size_record 1 40 40 10; size_record 1 35 35 10;
    size_record 0 5 0 10; size_record 0 7 0 10 ].

(** Four sizes: two with a WOS above 30, two that sell. *)
Definition sizes_two_dead : list prime_item :=
  [ size_record 1 40 40 10; size_record 3 30 10 10;
    size_record 1 35 35 10; size_record 2 50 25 10 ].

(** Three sizes, one of them productive. *)
Definition sizes_one_of_three : list prime_item :=
  [ size_record 5 50 10 100; size_record 1 25 25 120; size_record 1 28 28 90 ].

Definition style_map_of (key : string) (sizes : list prime_item)
  : gmap string (list prime_item) :=
  {[ key := sizes ]}.

(** The two ways a size is dead. *)
Definition over_30 (p : prime_item) : bool := f_gt (wos p) (Fin 30).

Definition unsold_with_inventory (p : prime_item) : bool :=
  (f_eq (lw_pos_qty p) (Fin 0) && f_gt (lw_inv_units p) (Fin 0))%bool.

(** The size analysis the enrichment attaches to a SKU "A1" whose sizes
    are the given ones. *)
Definition analysis_of_enriched (sizes : list prime_item) : option size_analysis :=
  match Velocity.enrich_sku (style_map_of "A1" sizes) (sku_of_key "A1") with
  | Ok s => sku_size_analysis s
  | Raise _ => None
  end.

(** Two cells hold the same number (NaN matching NaN). *)
Definition same_number (a b : cell) : Prop :=
  match a, b with
  | CFloat (Fin x), CFloat (Fin y) => x == y
  | CFloat NaN, CFloat NaN => True
  | _, _ => False
  end.

Definition is_number (c : cell) : Prop :=
  match c with
  | CFloat _ => True
  | _ => False
  end.

(** A velocity row of style "EU1939RBD" whose average retail cell is
    blank (NaN), with 100 dollars of inventory and 5 units sold. *)
Definition row_blank_avg_retail : gmap string cell :=
  {[ "Vndr Category 2" := CStr "EU1939RBD";
     "LW POS Qty" := CFloat (Fin 5);
     "Total LW Str Inv Retail" := CFloat (Fin 100);
     "LW Avg Retail" := CFloat NaN ]}.

(** The same row with the average retail column absent. *)
Definition row_no_avg_retail : gmap string cell :=
  {[ "Vndr Category 2" := CStr "EU1939RBD";
     "LW POS Qty" := CFloat (Fin 5);
     "Total LW Str Inv Retail" := CFloat (Fin 100) ]}.

(** The SKUs that call for a size recommendation: those with a size
    analysis showing a dead size and an efficiency below 70. *)
Definition needs_recommendation (s : sku_record) : bool :=
  match sku_size_analysis s with
  | Some a => ((0 <? dead_sizes a)%nat && Qltb (size_efficiency_pct a) 70)%bool
  | None => false
  end.

(** A velocity row whose style/color cell ('Vndr Category 2') is blank
    (NaN), and one where it is [None]. *)
Definition row_blank_style : gmap string cell :=
  {[ "Vndr Category 2" := CFloat NaN;
     "Prime Size Description" := CStr "32X32";
     "Item Status" := CStr "A";
     "LW POS Qty" := CFloat (Fin 5);
     "Total LW Str Inv Retail" := CFloat (Fin 100);
     "LW Avg Retail" := CFloat (Fin 20);
     "Curr Valid Stores" := CFloat (Fin 40) ]}.

Definition row_none_style : gmap string cell :=
  <["Vndr Category 2" := CNone]> row_blank_style.

(** The rows of a table whose key is present. *)
Definition with_key {A : Type} (key : A -> cell) (rs : list A) : list A :=
  List.filter (fun r => negb (pd_isna (key r))) rs.

(** A POS table that has every column the rollups read except
    'Sales Retail $ LW', with one store row. *)
Definition pos_without_sales_lw : pos_table :=
  {| columns :=
       [ "WD Style/Color"; "Fineline"; "Sales Units LW"; "Sales Units LWLY";
         "Sales Retail $ LWLY"; "Store On Hand Units LW";
         "Store On Hand Retail LW"; "Sales Units 2025YTD";
         "Sales Retail $ 2025YTD" ]%string;
     rows :=
       [ {| p_style_color := CStr "A1"; p_fineline := CFloat (Fin 3012);
            p_sales_units_lw := Fin 50; p_sales_units_lwly := Fin 40;
            p_sales_dollars_lw := NaN; p_sales_dollars_lwly := Fin 900;
            p_inventory_units_lw := Fin 100; p_inventory_dollars_lw := Fin 2500;
            p_sales_units_ytd := Fin 2000; p_sales_dollars_ytd := Fin 48000 |} ] |}.

(** A run over a workbook that holds that table, into an empty output
    directory. *)
Definition world_without_sales_lw : Etl.world :=
  {| Etl.pos_workbook := Some pos_without_sales_lw;
     Etl.velocity_workbook := None;
     Etl.output_dir := ∅;
     Etl.utcnow := "2025-11-11T08:00:00";
     Etl.source_names := ("pos.xlsx", "ladder.xlsb", "velocity.xlsx") |}.

End Claims.

(** ** The dashboard updater ([html_updater_v5.py]) *)

Module Html.

Import Velocity.

(** [float(s.get(key, 0) or 0)] on a key that holds a float: a zero is
    replaced by the integer 0 and converted back. *)
Definition or_zero (x : Q) : Q := if Qeq_bool x 0 then 0 else x.

(** [sum(...)]: from 0, left to right. *)
Definition py_sum (l : list Q) : Q := fold_left Qplus l 0.

(** [compute_totals]. *)
Definition compute_totals (skus : list sku_record) : Q * Q :=
  let total_sales_ytd := py_sum (map (fun s => or_zero (sales_dollars_ytd s)) skus) in
  let total_inv_ytd := py_sum (map (fun s => or_zero (inventory_dollars_lw s)) skus) in
  let total_sales_ytd := if Qeq_bool total_sales_ytd 0 then 1 else total_sales_ytd in
  let total_inv_ytd := if Qeq_bool total_inv_ytd 0 then 1 else total_inv_ytd in
  (total_sales_ytd, total_inv_ytd).

(** [d[key]] on a dictionary: a [KeyError] when the key is absent. *)
Definition getitem {A : Type} (d : gmap string A) (key : string) : result A :=
  match d !! key with
  | Some v => Ok v
  | None => Raise (KeyError key)
  end.

(** The dictionary [calculate_tier_stats] returns. *)
Record tier_stats : Type := {
  ts_tier_a_count : nat;
  ts_tier_b_count : nat;
  ts_tier_c_count : nat;
  ts_tier_ab_count : nat;
  ts_tier_a_sales_pct : Q;
  ts_tier_b_sales_pct : Q;
  ts_tier_ab_sales_pct : Q;
}.

(** The loop of [calculate_tier_stats] over [tier_counts], [tier_sales]
    and [total_sales]. *)
Fixpoint tier_loop (skus : list sku_record)
    (st : gmap string nat * gmap string Q * Q) : gmap string nat * gmap string Q * Q :=
  match skus with
  | [] => st
  | s :: rest =>
      let '(tier_counts, tier_sales, total_sales) := st in
      let tier := tier s in
      let sales := or_zero (sales_dollars_ytd s) in
      let tier_counts := <[tier := (default 0%nat (tier_counts !! tier) + 1)%nat]> tier_counts in
      let tier_sales := <[tier := default 0 (tier_sales !! tier) + sales]> tier_sales in
      tier_loop rest (tier_counts, tier_sales, total_sales + sales)
  end.

Definition calculate_tier_stats (skus : list sku_record) : result tier_stats :=
  let tier_counts : gmap string nat := {[ "A" := 0%nat; "B" := 0%nat; "C" := 0%nat ]} in
  let tier_sales : gmap string Q := {[ "A" := 0; "B" := 0; "C" := 0 ]} in
  let '(tier_counts, tier_sales, total_sales) :=
    tier_loop skus (tier_counts, tier_sales, 0) in
  tier_a_pct ←
    (if Qltb 0 total_sales
     then sales_a ← getitem tier_sales "A"; q ← q_div sales_a total_sales; mret (q * 100)
     else Ok 0);
  tier_b_pct ←
    (if Qltb 0 total_sales
     then sales_b ← getitem tier_sales "B"; q ← q_div sales_b total_sales; mret (q * 100)
     else Ok 0);
  let tier_ab_pct := tier_a_pct + tier_b_pct in
  count_a ← getitem tier_counts "A";
  count_b ← getitem tier_counts "B";
  count_c ← getitem tier_counts "C";
  count_a' ← getitem tier_counts "A";
  count_b' ← getitem tier_counts "B";
  mret {| ts_tier_a_count := count_a;
          ts_tier_b_count := count_b;
          ts_tier_c_count := count_c;
          ts_tier_ab_count := (count_a' + count_b')%nat;
          ts_tier_a_sales_pct := tier_a_pct;
          ts_tier_b_sales_pct := tier_b_pct;
          ts_tier_ab_sales_pct := tier_ab_pct |}.

(** [s.replace(old, new)] where [old] is one character. *)
Fixpoint str_replace (old : Ascii.ascii) (new : string) (s : string) : string :=
  match s with
  | EmptyString => EmptyString
  | String c rest =>
      if Ascii.eqb c old
      then new +:+ str_replace old new rest
      else String c (str_replace old new rest)
  end.

(** The double quote, the single quote and the backslash, by their
    codes. *)
Definition double_quote : Ascii.ascii := Ascii.ascii_of_nat 34.
Definition single_quote : Ascii.ascii := Ascii.ascii_of_nat 39.
Definition backslash : Ascii.ascii := Ascii.ascii_of_nat 92.

(** The two [replace] calls that escape the quotes of a description:
    a backslash goes before every double quote, then before every single
    quote. *)
Definition escape_quotes (desc : string) : string :=
  str_replace single_quote (String backslash (String single_quote EmptyString))
    (str_replace double_quote (String backslash (String double_quote EmptyString))
       desc).

(** [desc = (s.get("description", "") or "")] followed by
    [desc.replace(...)].  A string has the method; a float that is not
    falsy has not, and such is the NaN that [build_sku_master] stores
    for a style the ladder does not list: that is an
    [AttributeError]. *)
Definition escaped_description (s : sku_record) : result string :=
  match cell_or (description s) (CStr "") with
  | CStr desc => Ok (escape_quotes desc)
  | CFloat _ => Raise (AttributeError "'float' object has no attribute 'replace'")
  | CNone => Raise (AttributeError "'NoneType' object has no attribute 'replace'")
  end.

(** A row of [js_rows] in [build_sku_js_array].  The formatting of the
    rows into JavaScript is left out. *)
Record js_row : Type := {
  Item_Key : cell;
  Item_Description : string;
  Fineline : string;
  Size : string;
  ABC : string;
  Sales_13W_Retail : Q;
  Total_Inv_Retail : Q;
  Pct_of_Sales : Q;
  Pct_of_Inventory : Q;
  WOS_Per_SKU : Q;
  Store_Count : Z;
  Style_Action : string;
}.

(** The body of the loop over the SKUs.  A SKU record has no 'status',
    so that [s.get("status", "Monitor") or "Monitor"] is "Monitor", and
    its tier is a string, which [or ""] leaves as it is. *)
Definition js_row_of (show_float : Q -> string) (total_sales_ytd total_inv_ytd : Q)
    (s : sku_record) : result js_row :=
  let sales_ytd := or_zero (sales_dollars_ytd s) in
  let inv_ytd := or_zero (inventory_dollars_lw s) in
  share ← q_div sales_ytd total_sales_ytd;
  let pct_sales := py_round (share * 100) 1 in
  inv_share ← q_div inv_ytd total_inv_ytd;
  let pct_inv := py_round (inv_share * 100) 1 in
  desc ← escaped_description s;
  mret {| Item_Key := sku s;
          Item_Description := desc;
          Fineline := py_str show_float (cell_or (sku_fineline s) (CStr ""));
          Size := "";
          ABC := tier s;
          Sales_13W_Retail := py_round sales_ytd 2;
          Total_Inv_Retail := py_round inv_ytd 2;
          Pct_of_Sales := pct_sales;
          Pct_of_Inventory := pct_inv;
          WOS_Per_SKU := or_zero (sku_wos s);
          Store_Count := 0%Z;
          Style_Action := "Monitor" |}.

Fixpoint js_rows_loop (show_float : Q -> string) (total_sales_ytd total_inv_ytd : Q)
    (skus : list sku_record) : result (list js_row) :=
  match skus with
  | [] => Ok []
  | s :: rest =>
      row ← js_row_of show_float total_sales_ytd total_inv_ytd s;
      rows ← js_rows_loop show_float total_sales_ytd total_inv_ytd rest;
      mret (row :: rows)
  end.

(** The rows [build_sku_js_array] formats. *)
Definition js_rows (show_float : Q -> string) (skus : list sku_record)
  : result (list js_row) :=
  let '(total_sales_ytd, total_inv_ytd) := compute_totals skus in
  js_rows_loop show_float total_sales_ytd total_inv_ytd skus.

(** What [load_weekly_metrics] computes from the summary it has read;
    [_to_float] turns the [None] of an absent key into 0.0.  The week
    label, which is read off another file, is left out. *)
Record weekly_metrics : Type := {
  wm_sales_dollars : Q;
  wm_sales_units : Q;
  wm_inv_units : Q;
  wm_inv_dollars : Q;
  wm_wos : Q;
  wm_sell_thru_pct : Q;
  wm_units_delta : Q;
  wm_dollars_delta : Q;
  wm_units_pct_delta : Q;
  wm_dollars_pct_delta : Q;
  wm_change_class : string;
}.

(** [_to_float(summary.get(key))]; a summary without its keys is the
    [{}] that [__init__] sets. *)
Definition summary_get (summary : option weekly_summary_record)
    (field : weekly_summary_record -> Q) : Q :=
  match summary with
  | Some w => field w
  | None => 0
  end.

Definition load_weekly_metrics (summary : option weekly_summary_record)
  : weekly_metrics :=
  let sales_dollars := summary_get summary ws_sales_dollars_lw in
  let sales_units := summary_get summary ws_sales_units_lw in
  let inv_units := summary_get summary ws_inventory_units_lw in
  let inv_dollars := summary_get summary ws_inventory_dollars_lw in
  let wos := summary_get summary ws_wos in
  let units_delta := summary_get summary ws_units_delta in
  let dollars_delta := summary_get summary ws_dollars_delta in
  let units_pct_delta := summary_get summary ws_units_pct_delta in
  let dollars_pct_delta := summary_get summary ws_dollars_pct_delta in
  let denom := sales_units + inv_units in
  let sell_thru_pct := if Qltb 0 denom then sales_units / denom * 100 else 0 in
  let change_class :=
    if Qle_bool 0 dollars_pct_delta then "positive"%string else "negative"%string in
  {| wm_sales_dollars := sales_dollars;
     wm_sales_units := sales_units;
     wm_inv_units := inv_units;
     wm_inv_dollars := inv_dollars;
     wm_wos := wos;
     wm_sell_thru_pct := sell_thru_pct;
     wm_units_delta := units_delta;
     wm_dollars_delta := dollars_delta;
     wm_units_pct_delta := units_pct_delta;
     wm_dollars_pct_delta := dollars_pct_delta;
     wm_change_class := change_class |}.

End Html.

(** ** Notions the further properties are stated with *)

Module Notions.

Import Etl.

(** The on-hand inventory dollars a row contributes (0.0 when
    missing). *)
Definition inventory_of (r : sku_row) : Q :=
  _safe_float (c_inventory_dollars_lw r) 0.

(** The sum of a field over a list of records. *)
Definition total {A : Type} (f : A -> Q) (l : list A) : Q :=
  foldr Qplus 0 (map f l).

(** Whether a key is that of one of the groups. *)
Definition covered (ks : list cell) (k : cell) : bool :=
  existsb (cell_eqb k) ks.

(** The order of the keys of a group-by. *)
Definition key_lt (a b : cell) : Prop := cell_ltb a b = true.

(** The columns [build_weekly_sales_summary] reads, in the order it
    reads them. *)
Definition weekly_cols : list string :=
  [ "Sales Units LW"; "Sales Units LWLY"; "Sales Retail $ LW";
    "Sales Retail $ LWLY"; "Store On Hand Units LW";
    "Store On Hand Retail LW" ]%string.

(** The first of the columns [required] that [cols] lacks. *)
Definition first_absent (cols required : list string) : option string :=
  List.find (fun c => negb (bool_decide (c ∈ cols))) required.

(** The files a run saves. *)
Definition artifact_names : list string :=
  [ "sku_master.json"; "fineline_rollup.json"; "weekly_sales_summary.json";
    "seasonal_risk.json"; "action_items.json"; "meta.json" ]%string.

(** The records that a sequence of loop bodies files under a key, in
    the order of the rows. *)
Definition items_of (k : string) (rs : list (option (string * prime_item)))
  : list prime_item :=
  flat_map (fun r => match r with
                     | Some (k', p) => if String.eqb k' k then [p] else []
                     | None => []
                     end) rs.

(** The style/color key the mapping reads off a row. *)
Definition style_key (show_float : Q -> string) (row : gmap string cell) : string :=
  strip (py_str show_float (Velocity.get row "Vndr Category 2" (CStr ""))).

(** The ladder rows a left join matches with a key. *)
Definition ladder_matches (lad : ladder_table) (k : cell) : list ladder_row :=
  List.filter (fun l => cell_eqb (l_style_color l) k) (l_rows lad).

(** The rows of a frame that carry a key. *)
Definition rows_of_key (k : cell) (frame : list sku_row) : list sku_row :=
  List.filter (fun r => cell_eqb (c_style_color r) k) frame.

(** The world a run leaves to a run at the time [now]: the same
    workbooks under the same names, and the output directory as the run
    left it. *)
Definition after_run (sort_values : list sku_row -> list sku_row)
    (w : world) (s : etl) (now : string) : world :=
  {| pos_workbook := pos_workbook w;
     velocity_workbook := velocity_workbook w;
     output_dir := files (run sort_values w s);
     utcnow := now;
     source_names := source_names w |}.

(** The text attribute a record gets from a ladder cell. *)
Definition attribute_of (lad : ladder_table) (name : string) (v : cell) : cell :=
  row_get (ladder_attr lad name v) (CStr "").

(** Whether the description of a SKU record is one whose quotes can be
    escaped: a string, or a value that [or ""] replaces by the empty
    string ([None], 0.0). *)
Definition describable (s : sku_record) : bool :=
  match Velocity.cell_or (description s) (CStr "") with
  | CStr _ => true
  | _ => false
  end.

(** Whether a SKU record is of a tier. *)
Definition in_tier (k : string) (s : sku_record) : bool := String.eqb (tier s) k.

(** The rows of a table whose key is missing. *)
Definition without_key {A : Type} (key : A -> cell) (rs : list A) : list A :=
  List.filter (fun r => pd_isna (key r)) rs.

End Notions.

(** ** Further sample data *)

Module Samples.

Import Etl Claims.

(** A store row of the POS table. *)
Definition store_row (style : string) (fineline : cell)
    (units_lw dollars_lw inv_units inv_dollars units_ytd dollars_ytd : pyfloat)
  : pos_row :=
  {| p_style_color := CStr style; p_fineline := fineline;
     p_sales_units_lw := units_lw; p_sales_units_lwly := Fin 0;
     p_sales_dollars_lw := dollars_lw; p_sales_dollars_lwly := Fin 0;
     p_inventory_units_lw := inv_units; p_inventory_dollars_lw := inv_dollars;
     p_sales_units_ytd := units_ytd; p_sales_dollars_ytd := dollars_ytd |}.

(** A POS table with every column the pipeline reads: two styles of one
    fineline over three store rows, and one row without a fineline. *)
Definition pos_complete : pos_table :=
  {| columns :=
       [ "WD Style/Color"; "Fineline"; "Sales Units LW"; "Sales Units LWLY";
         "Sales Retail $ LW"; "Sales Retail $ LWLY"; "Store On Hand Units LW";
         "Store On Hand Retail LW"; "Sales Units 2025YTD";
         "Sales Retail $ 2025YTD" ]%string;
     rows :=
       [ store_row "A1" (CFloat (Fin 3012)) (Fin 30) (Fin 600) (Fin 60)
                   (Fin 1200) (Fin 400) (Fin 8000);
         store_row "A2" (CFloat (Fin 3012)) (Fin 0) (Fin 0) (Fin 20)
                   (Fin 500) (Fin 100) (Fin 2000);
         store_row "A1" (CFloat (Fin 3012)) (Fin 20) NaN (Fin 40)
                   (Fin 800) (Fin 300) (Fin 6000);
         store_row "A3" (CFloat NaN) (Fin 5) (Fin 100) (Fin 10)
                   (Fin 200) (Fin 50) (Fin 1000) ] |}.

(** A ladder with the key column and two attributes. *)
Definition ladder_sample : ladder_table :=
  {| l_columns := [ "WD Style/Color"; "Fineline"; "Color" ]%string;
     l_rows :=
       [ {| l_style_color := CStr "A1"; l_fineline := CFloat (Fin 3012);
            l_description := CNone; l_color := CStr "BK"; l_gender := CNone;
            l_category := CNone; l_sub_category := CNone;
            l_aur_ty := NaN; l_aur_ly := NaN |} ] |}.

(** An object whose three tables have been assigned from outside. *)
Definition loaded : etl :=
  {| pos_lw := Some pos_complete; pos_ytd := Some pos_complete;
     ladder := Some ladder_sample; pos_ytd_df := None;
     velocity_raw := None; sku_master := []; fineline_rollup := [];
     weekly_summary := None; seasonal_risk := AOpaque "[]";
     action_items := AOpaque "[]"; meta := None; metrics := None;
     tier_assignments := tier_assignments init |}.

(** The same table under headers padded with blanks. *)
Definition pos_padded : pos_table :=
  {| columns := map (fun c => " " +:+ c +:+ " ") (columns pos_complete);
     rows := rows pos_complete |}.

(** A run over a workbook that holds the complete table, into an output
    directory that holds a seasonal-risk file and a file of another
    tool. *)
Definition world_complete : world :=
  {| pos_workbook := Some pos_complete;
     velocity_workbook := None;
     output_dir := {[ "seasonal_risk.json" := AOpaque "[1]";
                      "index.html" := AOpaque "<html>" ]};
     utcnow := "2025-11-11T08:00:00";
     source_names := ("pos.xlsx", "ladder.xlsb", "velocity.xlsx") |}.

(** A velocity row of style "EU1939RBD" whose store-count cell is blank
    (NaN), and a complete row of style "EU1939BK". *)
Definition row_blank_stores : gmap string cell :=
  <["Curr Valid Stores" := CFloat NaN]>
    (<["Vndr Category 2" := CStr "EU1939RBD"]> row_blank_style).

Definition row_complete : gmap string cell :=
  <["Vndr Category 2" := CStr "EU1939BK"]> row_blank_style.

(** A velocity frame of three rows, two of them of one style. *)
Definition velocity_sample : list (gmap string cell) :=
  [ row_complete;
    <["Curr Valid Stores" := CFloat (Fin 55)]> row_complete;
    <["Vndr Category 2" := CStr "  "]> row_complete ].

(** A ladder that lists style "A1" twice. *)
Definition ladder_twice : ladder_table :=
  {| l_columns := l_columns ladder_sample;
     l_rows := l_rows ladder_sample ++ l_rows ladder_sample |}.

(** A velocity row of a size that sold nothing and holds inventory. *)
Definition row_unsold : gmap string cell :=
  <["LW POS Qty" := CFloat (Fin 0)]> row_complete.

(** A ladder that has the description column and lists style "A1"
    alone, and the object loaded with it: the styles "A2" and "A3" of
    the POS table are not on it. *)
Definition ladder_described : ladder_table :=
  {| l_columns := [ "WD Style/Color"; "Fineline"; "Item Description" ]%string;
     l_rows :=
       [ {| l_style_color := CStr "A1"; l_fineline := CFloat (Fin 3012);
            l_description := CStr "Men's 874 Work Pant"; l_color := CNone;
            l_gender := CNone; l_category := CNone; l_sub_category := CNone;
            l_aur_ty := NaN; l_aur_ly := NaN |} ] |}.

Definition loaded_described : etl :=
  {| pos_lw := Some pos_complete; pos_ytd := Some pos_complete;
     ladder := Some ladder_described; pos_ytd_df := None;
     velocity_raw := None; sku_master := []; fineline_rollup := [];
     weekly_summary := None; seasonal_risk := AOpaque "[]";
     action_items := AOpaque "[]"; meta := None; metrics := None;
     tier_assignments := tier_assignments init |}.

(** A frame in which no style sold anything. *)
Definition frame_without_sales : list sku_row :=
  [frame_row "A1" (Fin 0); frame_row "A2" NaN].

End Samples.

(** * Properties *)

(** Unfold the bind and return of [result]. *)
Ltac unfold_result := unfold mbind, mret, result_bind, result_ret in *.

(** ** Comparisons and rounding *)

Section Numbers.

Lemma Qltb_lt (a b : Q) : Qltb a b = true <-> a < b.
Proof.
  unfold Qltb. rewrite negb_true_iff.
  destruct (Qle_bool b a) eqn:E.
  - apply Qle_bool_iff in E. split; [discriminate | intros H; exfalso; lra].
  - split; [intros _ | reflexivity].
    apply Qnot_le_lt. intros H. apply Qle_bool_iff in H. congruence.
Qed.

Lemma Qltb_ge (a b : Q) : Qltb a b = false <-> b <= a.
Proof.
  unfold Qltb. rewrite negb_false_iff. apply Qle_bool_iff.
Qed.

Lemma Qltb_comp (a a' b b' : Q) : a == a' -> b == b' -> Qltb a b = Qltb a' b'.
Proof.
  intros Ha Hb.
  destruct (Qltb a' b') eqn:E.
  - apply Qltb_lt. apply Qltb_lt in E. rewrite Ha, Hb. exact E.
  - apply Qltb_ge. apply Qltb_ge in E. rewrite Ha, Hb. exact E.
Qed.

(** [max(a, b)] is the mathematical maximum. *)
Lemma py_max_Qmax (a b : Q) : py_max a b == Qmax a b.
Proof.
  unfold py_max. destruct (Qltb a b) eqn:E.
  - apply Qltb_lt in E. symmetry. apply Q.max_r. lra.
  - apply Qltb_ge in E. symmetry. apply Q.max_l. exact E.
Qed.

Lemma py_max_pos (a b : Q) : 0 < b -> 0 < py_max a b.
Proof.
  intros Hb. unfold py_max. destruct (Qltb a b) eqn:E; [exact Hb|].
  apply Qltb_ge in E. lra.
Qed.

Lemma round_half_even_comp (x y : Q) :
  x == y -> round_half_even x = round_half_even y.
Proof.
  intros H. unfold round_half_even.
  rewrite (Qfloor_comp _ _ H).
  assert (E : x - inject_Z (Qfloor y) == y - inject_Z (Qfloor y))
    by (rewrite H; reflexivity).
  rewrite (Qcompare_comp _ _ E (1 # 2) (1 # 2) (Qeq_refl _)).
  reflexivity.
Qed.

Lemma round_half_even_bounds (x : Q) :
  (Qfloor x <= round_half_even x <= Qfloor x + 1)%Z.
Proof.
  unfold round_half_even.
  destruct (Qcompare _ _); [destruct (Z.even _)| |]; lia.
Qed.

Lemma round_half_even_mono (x y : Q) :
  x <= y -> (round_half_even x <= round_half_even y)%Z.
Proof.
  intros Hxy.
  pose proof (Qfloor_resp_le _ _ Hxy) as Hf.
  destruct (Z.eq_dec (Qfloor x) (Qfloor y)) as [E | NE].
  - unfold round_half_even. rewrite E.
    assert (Hd : x - inject_Z (Qfloor y) <= y - inject_Z (Qfloor y)) by lra.
    destruct (Qcompare_spec (x - inject_Z (Qfloor y)) (1 # 2)) as [Hx | Hx | Hx];
      destruct (Qcompare_spec (y - inject_Z (Qfloor y)) (1 # 2)) as [Hy | Hy | Hy];
      try (destruct (Z.even (Qfloor y))); try lia; exfalso; lra.
  - pose proof (round_half_even_bounds x). pose proof (round_half_even_bounds y).
    lia.
Qed.

Lemma scale_pos (n : nat) : 0 < inject_Z (10 ^ Z.of_nat n).
Proof.
  change 0 with (inject_Z 0). rewrite <- Zlt_Qlt.
  apply Z.pow_pos_nonneg; lia.
Qed.

Lemma py_round_comp (x y : Q) (n : nat) : x == y -> py_round x n == py_round y n.
Proof.
  intros H. unfold py_round.
  set (k := inject_Z (10 ^ Z.of_nat n)).
  rewrite (round_half_even_comp (x * k) (y * k)); [reflexivity|].
  rewrite H. reflexivity.
Qed.

Lemma py_round_mono (x y : Q) (n : nat) : x <= y -> py_round x n <= py_round y n.
Proof.
  intros H. unfold py_round.
  pose proof (scale_pos n) as Hs.
  set (k := inject_Z (10 ^ Z.of_nat n)) in *.
  apply Qmult_le_compat_r.
  - rewrite <- Zle_Qle. apply round_half_even_mono.
    apply Qmult_le_compat_r; lra.
  - apply Qlt_le_weak, Qinv_lt_0_compat, Hs.
Qed.

End Numbers.

(** ** Weeks of supply and percent change *)

Section DerivedMetrics.

Lemma wos_inline_spec (i s : Q) :
  (if Qltb 0 s then i / py_max s (1 # 10000) else 0) == Spec.weeks_of_supply i s.
Proof.
  unfold Spec.weeks_of_supply.
  destruct (Qltb 0 s) eqn:E; destruct (Qlt_le_dec 0 s) as [H | H].
  - rewrite py_max_Qmax. reflexivity.
  - apply Qltb_lt in E. exfalso; lra.
  - apply Qltb_ge in E. exfalso; lra.
  - reflexivity.
Qed.

Lemma weekly_summary_fields (df : pos_table) :
  match Etl.weekly_summary_of df with
  | Ok w =>
      ws_wos w = Etl.weekly_wos (ws_inventory_units_lw w) (ws_sales_units_lw w)
      /\ ws_units_delta w = ws_sales_units_lw w - ws_sales_units_lwly w
      /\ ws_dollars_delta w = ws_sales_dollars_lw w - ws_sales_dollars_lwly w
      /\ ws_units_pct_delta w
         = Etl.pct_delta (ws_units_delta w) (ws_sales_units_lwly w)
      /\ ws_dollars_pct_delta w
         = Etl.pct_delta (ws_dollars_delta w) (ws_sales_dollars_lwly w)
  | Raise _ => True
  end.
Proof.
  unfold Etl.weekly_summary_of, Etl.get_col.
  unfold_result.
  repeat (case_bool_decide; [|exact I]).
  repeat split.
Qed.

(** C5.  The weeks of supply computed at SKU, fineline and weekly-summary
    level all follow the rule "inventory / max(sales, 0.0001) when sales
    > 0, else 0.0"; the divisor is never zero, so no zero sales figure
    can raise; the rule gives 0.0 at (0, 0) and (100, 0) and 10.0 at
    (100, 10), rounded or not.  The SKU and fineline records store the
    value rounded to one decimal, the weekly summary stores it as it
    is. *)
Theorem weeks_of_supply_rule (i s : Q) :
  Etl.sku_wos_of i s == Spec.weeks_of_supply i s
  /\ Etl.fineline_wos i s == Spec.weeks_of_supply i s
  /\ Etl.weekly_wos i s == Spec.weeks_of_supply i s
  /\ 0 < py_max s (1 # 10000)
  /\ (Etl.sku_wos_of 0 0 == 0 /\ Etl.sku_wos_of 100 0 == 0
      /\ Etl.sku_wos_of 100 10 == 10)
  /\ (Etl.fineline_wos 0 0 == 0 /\ Etl.fineline_wos 100 0 == 0
      /\ Etl.fineline_wos 100 10 == 10)
  /\ (Etl.weekly_wos 0 0 == 0 /\ Etl.weekly_wos 100 0 == 0
      /\ Etl.weekly_wos 100 10 == 10)
  /\ (py_round (Etl.sku_wos_of 0 0) 1 == 0
      /\ py_round (Etl.sku_wos_of 100 0) 1 == 0
      /\ py_round (Etl.sku_wos_of 100 10) 1 == 10)
  /\ (forall total_sales total_inventory cumulative row,
        let r := (Etl.sku_record_of total_sales total_inventory cumulative row).1 in
        sku_wos r
        = py_round (Etl.sku_wos_of (inventory_units_lw r) (sales_units_lw r)) 1)
  /\ (forall g,
        let r := Etl.fineline_record_of g in
        fl_wos r
        = py_round (Etl.fineline_wos (fl_inventory_units_lw r) (fl_sales_units_lw r)) 1)
  /\ (forall df,
        match Etl.weekly_summary_of df with
        | Ok w =>
            ws_wos w
            = Etl.weekly_wos (ws_inventory_units_lw w) (ws_sales_units_lw w)
        | Raise _ => True
        end).
Proof.
  repeat apply conj.
  - apply wos_inline_spec.
  - apply wos_inline_spec.
  - apply wos_inline_spec.
  - apply py_max_pos. reflexivity.
  - reflexivity.
  - reflexivity.
  - reflexivity.
  - reflexivity.
  - reflexivity.
  - reflexivity.
  - reflexivity.
  - reflexivity.
  - reflexivity.
  - reflexivity.
  - reflexivity.
  - reflexivity.
  - intros. reflexivity.
  - intros. reflexivity.
  - intros df. pose proof (weekly_summary_fields df) as H.
    destruct (Etl.weekly_summary_of df); [apply H | exact I].
Qed.

Lemma yoy_inline_spec (c p : Q) :
  (if Qeq_bool p 0 then 0 else (c - p) / p * 100) == Spec.percent_change c p.
Proof.
  unfold Spec.percent_change.
  destruct (Qeq_bool p 0) eqn:E; destruct (Qeq_dec p 0) as [H | H];
    try reflexivity.
  - apply Qeq_bool_iff in E. contradiction.
  - apply Qeq_bool_iff in H. congruence.
Qed.

(** C6.  For a current value [c] and a non-negative prior value [p], the
    year-over-year percent change of the narrative helpers ([_yoy_pct]
    and the local [yoy_pct]) and the percent delta of the weekly summary
    all equal (c - p) / p * 100 when p is not zero and 0.0 when it is;
    the change from 100 to 110 is 10.0 and the change from 0 is 0.0
    whatever the current value. *)
Theorem percent_change_rule (c p : Q) :
  0 <= p ->
  Insights._yoy_pct c p == Spec.percent_change c p
  /\ Insights.yoy_pct c p == Spec.percent_change c p
  /\ Etl.pct_delta (c - p) p == Spec.percent_change c p
  /\ (Insights._yoy_pct 110 100 == 10 /\ Etl.pct_delta (110 - 100) 100 == 10)
  /\ (Insights._yoy_pct c 0 == 0 /\ Insights.yoy_pct c 0 == 0
      /\ Etl.pct_delta (c - 0) 0 == 0)
  /\ (forall df,
        match Etl.weekly_summary_of df with
        | Ok w =>
            ws_units_pct_delta w
            = Etl.pct_delta (ws_sales_units_lw w - ws_sales_units_lwly w)
                            (ws_sales_units_lwly w)
            /\ ws_dollars_pct_delta w
               = Etl.pct_delta (ws_sales_dollars_lw w - ws_sales_dollars_lwly w)
                               (ws_sales_dollars_lwly w)
        | Raise _ => True
        end).
Proof.
  intros Hp. repeat apply conj.
  - apply yoy_inline_spec.
  - apply yoy_inline_spec.
  - unfold Etl.pct_delta, Spec.percent_change.
    destruct (Qltb 0 p) eqn:E; destruct (Qeq_dec p 0) as [H | H].
    + apply Qltb_lt in E. exfalso. rewrite H in E. lra.
    + reflexivity.
    + reflexivity.
    + apply Qltb_ge in E. exfalso. apply H. lra.
  - reflexivity.
  - reflexivity.
  - reflexivity.
  - reflexivity.
  - reflexivity.
  - intros df. pose proof (weekly_summary_fields df) as H.
    destruct (Etl.weekly_summary_of df) as [w|]; [|exact I].
    destruct H as (_ & Hu & Hd & Hup & Hdp).
    rewrite Hup, Hdp, Hu, Hd. split; reflexivity.
Qed.

Lemma percent_change_rule_witness :
  0 <= 100
  /\ Insights._yoy_pct 110 100 == Spec.percent_change 110 100
  /\ Etl.pct_delta (110 - 100) 100 == Spec.percent_change 110 100.
Proof.
  assert (H : 0 <= 100) by (unfold Qle; simpl; lia).
  split; [exact H|].
  split; [apply (percent_change_rule 110 100 H) | apply (percent_change_rule 110 100 H)].
Defined.

End DerivedMetrics.

(** ** The sort of the SKU frame *)

Section SortValues.

Import Etl.

Lemma insert_desc_perm r q l : insert_desc r q l ≡ₚ (r, q) :: l.
Proof.
  induction l as [|h t IH]; simpl; [reflexivity|].
  destruct (Qle_bool h.2 q); [reflexivity|].
  rewrite IH. apply perm_swap.
Qed.

Lemma insert_desc_sorted r q l :
  StronglySorted desc l -> StronglySorted desc (insert_desc r q l).
Proof.
  induction l as [|h t IH]; intros Hs; simpl.
  - repeat constructor.
  - apply StronglySorted_cons in Hs as [Hh Ht].
    destruct (Qle_bool h.2 q) eqn:E.
    + apply Qle_bool_iff in E.
      constructor; [constructor; assumption|].
      constructor; [exact E|].
      eapply Forall_impl; [exact Hh|].
      intros x Hx. unfold desc in *. simpl. lra.
    + assert (Hlt : q < h.2).
      { apply Qnot_le_lt. intros H. apply Qle_bool_iff in H. congruence. }
      constructor; [apply IH, Ht|].
      rewrite (insert_desc_perm r q t).
      constructor; [unfold desc; simpl; lra | exact Hh].
Qed.

Lemma sort_present_sorted l : StronglySorted desc (sort_present l).
Proof.
  induction l as [|r t IH]; simpl; [constructor|].
  destruct (c_sales_dollars_ytd r); [apply insert_desc_sorted|]; exact IH.
Qed.

(** Every row of the sorted part carries its own value. *)
Lemma sort_present_value l :
  Forall (fun p => c_sales_dollars_ytd p.1 = Fin p.2 /\ p.1 ∈ l) (sort_present l).
Proof.
  induction l as [|r t IH]; simpl; [constructor|].
  assert (IH' : Forall (fun p => c_sales_dollars_ytd p.1 = Fin p.2 /\ p.1 ∈ r :: t)
                       (sort_present t)).
  { eapply Forall_impl; [exact IH|]. intros p [? ?]. split; [assumption|].
    apply elem_of_cons. right. assumption. }
  destruct (c_sales_dollars_ytd r) as [q|] eqn:E; [|exact IH'].
  rewrite (insert_desc_perm r q (sort_present t)).
  constructor; [|exact IH'].
  simpl. split; [exact E | apply elem_of_cons; left; reflexivity].
Qed.

(** The sorted frame is a rearrangement of the frame. *)
Lemma sort_values_desc_perm l : sort_values_desc l ≡ₚ l.
Proof.
  unfold sort_values_desc.
  induction l as [|r t IH]; simpl; [reflexivity|].
  destruct (c_sales_dollars_ytd r) as [q|] eqn:E; simpl.
  - rewrite (fmap_Permutation fst _ _ (insert_desc_perm r q (sort_present t))).
    simpl. constructor. exact IH.
  - rewrite <- Permutation_middle. constructor. exact IH.
Qed.

(** Inserting a row leaves the rows of any one value in their order. *)
Lemma filter_insert_desc q r x l :
  c_sales_dollars_ytd r = Fin x ->
  Forall (fun p => c_sales_dollars_ytd p.1 = Fin p.2) l ->
  List.filter (has_value q) (map fst (insert_desc r x l))
  = List.filter (has_value q) (r :: map fst l).
Proof.
  intros Hr. induction l as [|h t IH]; intros Hl; [reflexivity|].
  apply Forall_cons in Hl as [Hh Ht].
  cbn [insert_desc]. destruct (Qle_bool h.2 x) eqn:E; [reflexivity|].
  cbn [map List.filter fst]. rewrite (IH Ht). cbn [List.filter].
  assert (Vr : has_value q r = Qeq_bool x q) by (unfold has_value; rewrite Hr; reflexivity).
  assert (Vh : has_value q h.1 = Qeq_bool h.2 q) by (unfold has_value; rewrite Hh; reflexivity).
  rewrite Vr, Vh.
  destruct (Qeq_bool x q) eqn:Ex; [|reflexivity].
  destruct (Qeq_bool h.2 q) eqn:Eh; [|reflexivity].
  exfalso. apply Qeq_bool_iff in Ex, Eh.
  assert (H : h.2 <= x) by lra. apply Qle_bool_iff in H. congruence.
Qed.

(** The insertion sort is stable. *)
Lemma sort_values_desc_stable q l :
  List.filter (has_value q) (sort_values_desc l) = List.filter (has_value q) l.
Proof.
  unfold sort_values_desc. rewrite List.filter_app.
  assert (Hnan : List.filter (has_value q)
                   (List.filter (fun r => isnan (c_sales_dollars_ytd r)) l) = []).
  { induction l as [|r t IH]; [reflexivity|]. cbn [List.filter].
    destruct (c_sales_dollars_ytd r) eqn:E; cbn [isnan]; [exact IH|].
    cbn [List.filter]. unfold has_value at 1. rewrite E. cbn [f_eq]. exact IH. }
  rewrite Hnan, app_nil_r. clear Hnan.
  induction l as [|r t IH]; [reflexivity|].
  cbn [sort_present].
  destruct (c_sales_dollars_ytd r) as [x|] eqn:E.
  - rewrite (filter_insert_desc q r x _ E).
    + cbn [List.filter]. rewrite IH. reflexivity.
    + eapply Forall_impl; [apply sort_present_value|]. intros p [? _]. assumption.
  - cbn [List.filter]. unfold has_value at 2. rewrite E. cbn [f_eq]. exact IH.
Qed.

Lemma sort_values_desc_stable' : stable sort_values_desc.
Proof. intros l q. apply sort_values_desc_stable. Qed.

(** The insertion sort meets the contract of the sort. *)
Lemma sort_values_desc_ok : sorts_descending sort_values_desc.
Proof.
  constructor; [apply sort_values_desc_perm|].
  intros l. exists (map fst (sort_present l)).
  exists (List.filter (fun r => isnan (c_sales_dollars_ytd r)) l).
  split; [reflexivity|].
  pose proof (sort_present_sorted l) as Hs.
  pose proof (sort_present_value l) as Hv.
  repeat apply conj.
  - clear Hs. induction Hv as [|p ps [Hp _] _ IH]; simpl;
      constructor; [|exact IH].
    rewrite Hp. reflexivity.
  - rewrite Forall_forall. intros r Hr.
    apply list_elem_of_In, filter_In in Hr as [_ Hr]. exact Hr.
  - revert Hv. induction Hs as [|p ps Hps IH Hp]; intros Hv; [constructor|].
    apply Forall_cons in Hv as [[Hpv _] Hv].
    simpl. constructor; [apply IH, Hv|].
    clear IH Hps. induction Hv as [|y ys [Hyv _] _ IH]; simpl; [constructor|].
    apply Forall_cons in Hp as [Hpy Hp].
    constructor; [|apply IH, Hp].
    unfold ytd_of. rewrite Hpv, Hyv. exact Hpy.
Qed.

End SortValues.

(** ** The SKU master: order and cumulative share *)

Section SkuMaster.

Import Etl.

Lemma StronglySorted_map {A B : Type} (R : relation B) (f : A -> B) (l : list A) :
  StronglySorted (fun a b => R (f a) (f b)) l -> StronglySorted R (map f l).
Proof.
  induction 1 as [|a l Hs IH Hall]; simpl; constructor; [exact IH|].
  clear Hs IH. induction Hall; simpl; constructor; assumption.
Qed.

Lemma StronglySorted_of_rel_map {A B : Type} (f : A -> B) (R : relation B)
    (l : list A) :
  StronglySorted R (map f l) -> StronglySorted (fun a b => R (f a) (f b)) l.
Proof.
  induction l as [|a l IH]; simpl; intros H; [constructor|].
  apply StronglySorted_cons in H as [Hall Hs].
  constructor; [apply IH, Hs|].
  clear IH Hs. induction l as [|b l IH]; simpl in *; [constructor|].
  apply Forall_cons in Hall as [Hb Hl]. constructor; [exact Hb | apply IH, Hl].
Qed.

Lemma col_sum_perm {A : Type} (f : A -> pyfloat) (l l' : list A) :
  l ≡ₚ l' -> col_sum f l == col_sum f l'.
Proof.
  induction 1 as [|x l l' _ IH|x y l|l l' l'' _ IH1 _ IH2]; simpl.
  - reflexivity.
  - rewrite IH. reflexivity.
  - ring.
  - rewrite IH1. exact IH2.
Qed.

Lemma total_or_zero_eq (t : Q) : total_or_zero t == t.
Proof.
  unfold total_or_zero. destruct (Qeq_bool t 0) eqn:E; [|reflexivity].
  apply Qeq_bool_iff in E. symmetry. exact E.
Qed.

(** One step of the loop. *)
Lemma sku_loop_cons t ti c row rest :
  sku_loop t ti c (row :: rest)
  = (sku_record_of t ti c row).1 :: sku_loop t ti (c + ytd_of row) rest.
Proof. reflexivity. Qed.

Lemma cumulative_of_record t ti c row :
  0 < t ->
  cumulative_sales_pct (sku_record_of t ti c row).1
  = py_round ((c + ytd_of row) / t) 6.
Proof.
  intros Ht. apply Qltb_lt in Ht. unfold sku_record_of. cbn [fst cumulative_sales_pct].
  rewrite Ht. reflexivity.
Qed.

(** The records come out in the order of the sorted frame. *)
Lemma sku_loop_keys t ti c frame :
  map sku (sku_loop t ti c frame) = map c_style_color frame.
Proof.
  revert c. induction frame as [|row rest IH]; intros c; [reflexivity|].
  rewrite sku_loop_cons. cbn [map]. rewrite IH. reflexivity.
Qed.

Lemma sku_loop_sales t ti c frame :
  map sales_dollars_ytd (sku_loop t ti c frame) = map ytd_of frame.
Proof.
  revert c. induction frame as [|row rest IH]; intros c; [reflexivity|].
  rewrite sku_loop_cons. cbn [map]. rewrite IH. reflexivity.
Qed.

Lemma share_mono (t a b : Q) : 0 < t -> a <= b -> a / t <= b / t.
Proof.
  intros Ht Hab. unfold Qdiv. apply Qmult_le_compat_r; [exact Hab|].
  apply Qlt_le_weak, Qinv_lt_0_compat, Ht.
Qed.

(** With non-negative sales the cumulative share never decreases along
    the loop, and never falls below the share reached before it. *)
Lemma sku_loop_cumulative t ti c frame :
  0 < t ->
  Forall (fun r => 0 <= ytd_of r) frame ->
  Forall (fun r => py_round (c / t) 6 <= cumulative_sales_pct r)
         (sku_loop t ti c frame)
  /\ StronglySorted (fun a b => cumulative_sales_pct a <= cumulative_sales_pct b)
                    (sku_loop t ti c frame).
Proof.
  intros Ht. revert c.
  induction frame as [|row rest IH]; intros c Hall.
  - split; constructor.
  - apply Forall_cons in Hall as [Hrow Hrest].
    destruct (IH (c + ytd_of row) Hrest) as [Hlow Hsorted].
    rewrite sku_loop_cons.
    assert (Hstep : py_round (c / t) 6 <= py_round ((c + ytd_of row) / t) 6).
    { apply py_round_mono, share_mono; [exact Ht | lra]. }
    split.
    + constructor; [rewrite (cumulative_of_record _ _ _ _ Ht); exact Hstep|].
      eapply Forall_impl; [exact Hlow|]. intros r Hr. simpl in Hr.
      eapply Qle_trans; [exact Hstep | exact Hr].
    + constructor; [exact Hsorted|].
      rewrite (cumulative_of_record _ _ _ _ Ht). exact Hlow.
Qed.

(** The last record carries the share of the whole running sum. *)
Lemma sku_loop_last t ti c frame :
  0 < t ->
  frame <> [] ->
  exists r,
    last (sku_loop t ti c frame) = Some r
    /\ cumulative_sales_pct r
       == py_round ((c + col_sum c_sales_dollars_ytd frame) / t) 6.
Proof.
  intros Ht. revert c.
  induction frame as [|row rest IH]; intros c Hne; [congruence|].
  rewrite sku_loop_cons.
  destruct rest as [|row' rest'].
  - eexists. split; [reflexivity|].
    rewrite (cumulative_of_record _ _ _ _ Ht).
    apply py_round_comp. unfold ytd_of. simpl. field. lra.
  - destruct (IH (c + ytd_of row)) as (r & Hlast & Hr); [discriminate|].
    exists r. split.
    + rewrite sku_loop_cons in Hlast |- *. exact Hlast.
    + rewrite Hr. apply py_round_comp.
      change (col_sum c_sales_dollars_ytd (row :: row' :: rest'))
        with (ytd_of row + col_sum c_sales_dollars_ytd (row' :: rest')).
      field. lra.
Qed.

(** With non-negative sales a frame sorted under the contract is in
    descending order of the values its rows contribute, the missing ones
    counting for 0.0. *)
Lemma sorted_frame_descending sort_values l :
  sorts_descending sort_values ->
  Forall (fun r => 0 <= ytd_of r) l ->
  StronglySorted (fun a b => ytd_of b <= ytd_of a) (sort_values l).
Proof.
  intros Hsort Hpos.
  assert (Hpos' : Forall (fun r => 0 <= ytd_of r) (sort_values l)).
  { rewrite (sorted_perm _ Hsort l). exact Hpos. }
  destruct (sorted_shape _ Hsort l) as (present & missing & E & _ & Hm & Hs).
  rewrite E in Hpos' |- *. apply Forall_app in Hpos' as [Hp _].
  assert (Hzero : Forall (fun r => ytd_of r = 0) missing).
  { eapply Forall_impl; [exact Hm|]. intros r Hr. simpl in Hr. unfold ytd_of.
    destruct (c_sales_dollars_ytd r); [discriminate Hr | reflexivity]. }
  apply StronglySorted_app_2; [|exact Hs|].
  - intros x1 x2 H1 H2. rewrite Forall_forall in Hp, Hzero.
    rewrite (Hzero x2 H2). apply Hp, H1.
  - clear - Hzero. induction Hzero as [|r rs Hr Hrs IH]; constructor; [exact IH|].
    eapply Forall_impl; [exact Hrs|]. intros y Hy. rewrite Hr, Hy. lra.
Qed.

End SkuMaster.

(** ** The cumulative share *)

Section CumulativeShare.

Import Etl Claims.

Lemma frame_nonempty_of_total (sku_df : list sku_row) :
  0 < total_sales_ytd_of sku_df -> sku_df <> [].
Proof.
  intros H ->. vm_compute in H. discriminate.
Qed.

Lemma filter_perm {A : Type} (p : A -> bool) (l l' : list A) :
  l ≡ₚ l' -> List.filter p l ≡ₚ List.filter p l'.
Proof.
  induction 1 as [|x l l' _ IH|x y l|l l' l'' _ IH1 _ IH2]; cbn [List.filter].
  - reflexivity.
  - destruct (p x); [constructor|]; exact IH.
  - destruct (p x), (p y); try reflexivity. apply perm_swap.
  - rewrite IH1. exact IH2.
Qed.

(** The insertion sort over the reversed frame meets the contract. *)
Lemma sort_values_unstable_ok : sorts_descending sort_values_unstable.
Proof.
  constructor.
  - intros l. unfold sort_values_unstable.
    rewrite (sorted_perm _ sort_values_desc_ok (rev l)).
    symmetry. apply Permutation_rev.
  - intros l. exact (sorted_shape _ sort_values_desc_ok (rev l)).
Qed.

(** C1, as the code has it.  When no SKU has negative YTD sales dollars
    and their total is positive, [build_sku_master] emits the records in
    the order of the sorted frame: descending [sales_dollars_ytd], the
    rows whose YTD value is missing (emitted as 0.0) last.  The sort is
    asked for with pandas' default kind, so nothing fixes the order of
    the rows that carry one and the same value: they are the rows of the
    frame with that value, in some order.  Over the emitted sequence
    [cumulative_sales_pct] never decreases, and on the last record it is
    1.0 (so within 1e-6 of it). *)
Theorem cumulative_share_sorted (sort_values : list sku_row -> list sku_row)
    (sku_df : list sku_row) :
  sorts_descending sort_values ->
  Forall (fun r => 0 <= ytd_of r) sku_df ->
  0 < total_sales_ytd_of sku_df ->
  let out := sku_master_of sort_values sku_df in
  let sorted := sort_values sku_df in
  (map sku out = map c_style_color sorted
   /\ map sales_dollars_ytd out = map ytd_of sorted
   /\ sorted ≡ₚ sku_df)
  /\ StronglySorted (fun a b => sales_dollars_ytd b <= sales_dollars_ytd a) out
  /\ (exists present missing,
        sorted = present ++ missing
        /\ Forall (fun r => isnan (c_sales_dollars_ytd r) = false) present
        /\ Forall (fun r => isnan (c_sales_dollars_ytd r) = true) missing)
  /\ (forall q,
        List.filter (has_value q) sorted ≡ₚ List.filter (has_value q) sku_df)
  /\ StronglySorted
       (fun a b => cumulative_sales_pct a <= cumulative_sales_pct b) out
  /\ (exists r,
        last out = Some r
        /\ cumulative_sales_pct r == 1
        /\ Qabs (cumulative_sales_pct r - 1) <= 1 # 1000000).
Proof.
  intros Hsort Hpos Htotal out sorted.
  assert (Hperm : sorted ≡ₚ sku_df) by apply (sorted_perm _ Hsort).
  assert (Hpos' : Forall (fun r => 0 <= ytd_of r) sorted).
  { rewrite Hperm. exact Hpos. }
  repeat apply conj.
  - apply sku_loop_keys.
  - apply sku_loop_sales.
  - exact Hperm.
  - apply (StronglySorted_of_rel_map sales_dollars_ytd (fun a b : Q => b <= a)).
    unfold out, sku_master_of. rewrite sku_loop_sales.
    apply (StronglySorted_map (fun a b : Q => b <= a) ytd_of).
    apply sorted_frame_descending; assumption.
  - destruct (sorted_shape _ Hsort sku_df) as (present & missing & E & Hp & Hm & _).
    exists present, missing. repeat split; assumption.
  - intros q. apply filter_perm, Hperm.
  - apply sku_loop_cumulative; assumption.
  - destruct (sku_loop_last (total_sales_ytd_of sku_df)
                (total_inventory_lw_of sku_df) 0 sorted Htotal)
      as (r & Hlast & Hr).
    { intros E. apply (frame_nonempty_of_total sku_df Htotal).
      apply Permutation_nil. rewrite <- Hperm, E. reflexivity. }
    assert (Hone : cumulative_sales_pct r == 1).
    { rewrite Hr.
      assert (E : (0 + col_sum c_sales_dollars_ytd sorted)
                  / total_sales_ytd_of sku_df == 1).
      { unfold total_sales_ytd_of in *.
        rewrite (col_sum_perm _ _ _ Hperm).
        rewrite total_or_zero_eq in Htotal |- *.
        field. lra. }
      rewrite (py_round_comp _ _ 6 E). reflexivity. }
    exists r. split; [exact Hlast|]. split; [exact Hone|].
    rewrite Hone. vm_compute. discriminate.
Qed.

Lemma cumulative_share_sorted_witness :
  sorts_descending sort_values_unstable
  /\ Forall (fun r => 0 <= ytd_of r) frame_with_ties
  /\ 0 < total_sales_ytd_of frame_with_ties
  /\ StronglySorted
       (fun a b => sales_dollars_ytd b <= sales_dollars_ytd a)
       (sku_master_of sort_values_unstable frame_with_ties)
  /\ StronglySorted
       (fun a b => cumulative_sales_pct a <= cumulative_sales_pct b)
       (sku_master_of sort_values_unstable frame_with_ties)
  /\ (exists r,
        last (sku_master_of sort_values_unstable frame_with_ties) = Some r
        /\ cumulative_sales_pct r == 1).
Proof.
  assert (H1 : Forall (fun r => 0 <= ytd_of r) frame_with_ties).
  { repeat constructor; vm_compute; discriminate. }
  assert (H2 : 0 < total_sales_ytd_of frame_with_ties).
  { vm_compute. reflexivity. }
  destruct (cumulative_share_sorted sort_values_unstable frame_with_ties
              sort_values_unstable_ok H1 H2)
    as (_ & Hdesc & _ & _ & Hmono & r & Hlast & Hone & _).
  split; [exact sort_values_unstable_ok|].
  split; [exact H1|]. split; [exact H2|].
  split; [exact Hdesc|]. split; [exact Hmono|].
  exists r. split; [exact Hlast | exact Hone].
Defined.

(** C1 as worded fails on the code, within the invariant that no sales
    figure is negative.  The code asks pandas for its default sort,
    which is not stable: under a sort that meets all pandas documents of
    it, two styles that sold the same (K1 and K2, 5 each) are emitted in
    the reverse of their input order.  And under a stable sort too, a
    style/color that has no YTD row is emitted last with
    [sales_dollars_ytd] 0.0, behind a record that has a true 0.0 and
    stood after it in the frame: that tie is not in input order
    either. *)
Lemma cumulative_share_counterexample :
  (sorts_descending sort_values_unstable
   /\ ~ stable sort_values_unstable
   /\ Forall (fun r => 0 <= ytd_of r) frame_with_ties
   /\ 0 < total_sales_ytd_of frame_with_ties
   /\ map c_style_color frame_with_ties = [CStr "K1"; CStr "K2"; CStr "K3"]
   /\ map sku (sku_master_of sort_values_unstable frame_with_ties)
      = [CStr "K3"; CStr "K2"; CStr "K1"]
   /\ Forall2 Qeq (map sales_dollars_ytd
                     (sku_master_of sort_values_unstable frame_with_ties))
                  [10; 5; 5]
   /\ ~ cumulative_share_as_worded sort_values_unstable frame_with_ties)
  /\ (stable sort_values_desc
      /\ Forall (fun r => 0 <= ytd_of r) frame_with_missing
      /\ 0 < total_sales_ytd_of frame_with_missing
      /\ map c_style_color frame_with_missing = [CStr "A1"; CStr "A2"; CStr "A3"]
      /\ map sku (sku_master_of sort_values_desc frame_with_missing)
         = [CStr "A3"; CStr "A2"; CStr "A1"]
      /\ Forall2 Qeq (map sales_dollars_ytd
                        (sku_master_of sort_values_desc frame_with_missing))
                     [10; 0; 0]
      /\ ~ cumulative_share_as_worded sort_values_desc frame_with_missing).
Proof.
  split.
  - split; [exact sort_values_unstable_ok|]. split.
    { intros H. specialize (H frame_with_ties 5). vm_compute in H. discriminate H. }
    split; [repeat constructor; vm_compute; discriminate|].
    split; [vm_compute; reflexivity|]. split; [reflexivity|].
    split; [vm_compute; reflexivity|]. split; [repeat constructor|].
    intros H. destruct H as (_ & Htie & _); [vm_compute; reflexivity|].
    specialize (Htie 5). vm_compute in Htie. discriminate Htie.
  - split; [exact sort_values_desc_stable'|].
    split; [repeat constructor; vm_compute; discriminate|].
    split; [vm_compute; reflexivity|]. split; [reflexivity|].
    split; [vm_compute; reflexivity|]. split; [repeat constructor|].
    intros H. destruct H as (_ & Htie & _); [vm_compute; reflexivity|].
    specialize (Htie 0). vm_compute in Htie. discriminate Htie.
Qed.

End CumulativeShare.

(** ** Size enrichment *)

Section Enrichment.

Import Velocity Claims.

Lemma nat_Q_nonzero (n : nat) : n <> 0%nat -> Qeq_bool (nat_Q n) 0 = false.
Proof.
  intros Hn. destruct (Qeq_bool (nat_Q n) 0) eqn:E; [|reflexivity].
  apply Qeq_bool_iff in E. unfold Qeq, nat_Q in E. simpl in E. lia.
Qed.

(** The aggregate is always produced: neither division can meet a zero
    divisor. *)
Lemma size_analysis_of_ok (ps : list prime_item) :
  exists avg,
    size_analysis_of ps
    = Ok {| total_prime_items := length ps;
            active_items :=
              length (List.filter (fun p => String.eqb (item_status p) "A") ps);
            total_stores :=
              match map curr_valid_stores ps with
              | [] => 0%Z
              | x :: xs => max_stores x xs
              end;
            avg_wos := py_round avg 1;
            max_wos :=
              py_round (match wos_values_of ps with
                        | [] => 0 | x :: xs => max_of x xs end) 1;
            min_wos :=
              py_round (match wos_values_of ps with
                        | [] => 0 | x :: xs => min_of x xs end) 1;
            productive_sizes := length (List.filter is_productive ps);
            dead_sizes := length (List.filter is_dead ps);
            size_efficiency_pct :=
              if (0 <? length ps)%nat
              then py_round (nat_Q (length (List.filter is_productive ps))
                             / nat_Q (length ps) * 100) 1
              else 0 |}.
Proof.
  unfold size_analysis_of. unfold_result.
  destruct (wos_values_of ps) as [|w ws] eqn:Ew.
  - destruct (0 <? length ps)%nat eqn:El.
    + unfold q_div. rewrite nat_Q_nonzero; [eexists; reflexivity|].
      apply Nat.ltb_lt in El. lia.
    + eexists; reflexivity.
  - unfold q_div at 1. rewrite nat_Q_nonzero; [|discriminate].
    destruct (0 <? length ps)%nat eqn:El.
    + unfold q_div. rewrite nat_Q_nonzero; [eexists; reflexivity|].
      apply Nat.ltb_lt in El. lia.
    + eexists; reflexivity.
Qed.

(** [max(...)] over the store counts: an element, and an upper bound. *)
Lemma max_stores_spec (x : Z) (xs : list Z) :
  max_stores x xs ∈ x :: xs /\ (forall y, y ∈ x :: xs -> (y <= max_stores x xs)%Z).
Proof.
  unfold max_stores. revert x.
  induction xs as [|z zs IH]; intros x; simpl.
  - split; [apply list_elem_of_singleton; reflexivity|].
    intros y Hy. apply list_elem_of_singleton in Hy. lia.
  - destruct (IH (if (x <? z)%Z then z else x)) as [Hin Hub].
    split.
    + apply elem_of_cons in Hin as [Hin | Hin].
      * rewrite Hin. destruct (x <? z)%Z.
        -- apply elem_of_cons. right. apply elem_of_cons. left. reflexivity.
        -- apply elem_of_cons. left. reflexivity.
      * apply elem_of_cons. right. apply elem_of_cons. right. exact Hin.
    + intros y Hy.
      assert (Hm : ((if (x <? z)%Z then z else x)
                    <= fold_left (fun m v => if (m <? v)%Z then v else m) zs
                         (if (x <? z)%Z then z else x))%Z).
      { apply Hub. apply elem_of_cons. left. reflexivity. }
      apply elem_of_cons in Hy as [-> | Hy].
      * destruct (x <? z)%Z eqn:E; [apply Z.ltb_lt in E|]; lia.
      * apply elem_of_cons in Hy as [-> | Hy].
        -- destruct (x <? z)%Z eqn:E; [|apply Z.ltb_ge in E]; lia.
        -- apply Hub. apply elem_of_cons. right. exact Hy.
Qed.

Lemma f_gt_above (x : pyfloat) (b : Q) : f_gt x (Fin b) = true <-> f_above x b.
Proof.
  unfold f_gt, f_lt, f_above. destruct x as [q|].
  - rewrite Qltb_lt. split; [intros H; exists q; auto|].
    intros (q' & E & H). inversion E; subst. exact H.
  - split; [discriminate | intros (q' & E & _); discriminate].
Qed.

Lemma f_lt_below (x : pyfloat) (b : Q) : f_lt x (Fin b) = true <-> f_below x b.
Proof.
  unfold f_lt, f_below. destruct x as [q|].
  - rewrite Qltb_lt. split; [intros H; exists q; auto|].
    intros (q' & E & H). inversion E; subst. exact H.
  - split; [discriminate | intros (q' & E & _); discriminate].
Qed.

Lemma f_eq_equal (x : pyfloat) (b : Q) : f_eq x (Fin b) = true <-> f_equal x b.
Proof.
  unfold f_eq, f_equal. destruct x as [q|].
  - rewrite Qeq_bool_iff. split; [intros H; exists q; auto|].
    intros (q' & E & H). inversion E; subst. exact H.
  - split; [discriminate | intros (q' & E & _); discriminate].
Qed.

Lemma is_productive_iff (p : prime_item) :
  is_productive p = true <-> f_above (lw_pos_qty p) 0 /\ f_below (wos p) 20.
Proof.
  unfold is_productive. rewrite andb_true_iff, f_gt_above, f_lt_below. reflexivity.
Qed.

Lemma is_dead_iff (p : prime_item) :
  is_dead p = true
  <-> f_above (wos p) 30
      \/ (f_equal (lw_pos_qty p) 0 /\ f_above (lw_inv_units p) 0).
Proof.
  unfold is_dead.
  rewrite orb_true_iff, andb_true_iff, !f_gt_above, f_eq_equal. reflexivity.
Qed.

Lemma count_either {A : Type} (a b : A -> bool) (l : list A) :
  length (List.filter (fun x => a x || b x) l)
  = (length (List.filter a l)
     + length (List.filter (fun x => negb (a x) && b x) l))%nat.
Proof.
  induction l as [|x l IH]; [reflexivity|]. cbn [List.filter].
  destruct (a x), (b x); cbn [orb negb andb length]; lia.
Qed.

Lemma enrich_sku_some style_map s ps :
  lookup_code style_map (sku s) = Some ps ->
  exists a,
    size_analysis_of ps = Ok a
    /\ enrich_sku style_map s
       = Ok (with_size_fields (Some (total_stores a)) (Some a) (Some ps)
               (with_size_fields (Some 0%Z) (sku_size_analysis s) (prime_items s) s)).
Proof.
  intros Hl. destruct (size_analysis_of_ok ps) as (avg & Ha).
  eexists. split; [exact Ha|].
  unfold enrich_sku. rewrite Hl, Ha. reflexivity.
Qed.

Lemma enrich_sku_none style_map s :
  lookup_code style_map (sku s) = None ->
  enrich_sku style_map s
  = Ok (with_size_fields (Some 0%Z) (sku_size_analysis s) (prime_items s) s).
Proof.
  intros Hl. unfold enrich_sku. rewrite Hl. reflexivity.
Qed.

(** The enrichment returns for every SKU master and every size map, with
    the enriched record of each SKU in its place. *)
Lemma enrich_total (sku_master : list sku_record)
    (style_map : gmap string (list prime_item)) :
  exists out,
    enrich_sku_master_with_size_analysis sku_master style_map = Ok out
    /\ Forall2 (fun s s' => enrich_sku style_map s = Ok s' /\ sku s' = sku s)
               sku_master out.
Proof.
  induction sku_master as [|s rest (out & Hout & Hall)].
  - exists []. split; [reflexivity | constructor].
  - cbn [enrich_sku_master_with_size_analysis].
    destruct (lookup_code style_map (sku s)) as [ps|] eqn:Hl.
    + destruct (enrich_sku_some style_map s ps Hl) as (a & _ & E).
      rewrite E. unfold_result. rewrite Hout. eexists. split; [reflexivity|].
      constructor; [split; [exact E | reflexivity] | exact Hall].
    + pose proof (enrich_sku_none style_map s Hl) as E.
      rewrite E. unfold_result. rewrite Hout. eexists. split; [reflexivity|].
      constructor; [split; [exact E | reflexivity] | exact Hall].
Qed.

(** C2, as the code has it.  For a SKU with size records, the aggregate
    counts a size as productive iff its last-week sales quantity is
    positive and its WOS is below 20, counts it as dead iff its WOS
    exceeds 30 or it has zero sales with positive inventory units, and
    sets size_efficiency_pct to productive / total sizes * 100 rounded to
    one decimal; a SKU with 4 size records of which exactly 2 have a WOS
    above 30, and none of the others unsold with inventory, gets
    dead_sizes = 2. *)
Theorem size_analysis_counts (style_map : gmap string (list prime_item))
    (s : sku_record) (ps : list prime_item) :
  lookup_code style_map (sku s) = Some ps ->
  exists s' a,
    enrich_sku style_map s = Ok s'
    /\ sku_size_analysis s' = Some a
    /\ total_prime_items a = length ps
    /\ productive_sizes a = length (List.filter is_productive ps)
    /\ dead_sizes a = length (List.filter is_dead ps)
    /\ (forall p, is_productive p = true
                  <-> f_above (lw_pos_qty p) 0 /\ f_below (wos p) 20)
    /\ (forall p, is_dead p = true
                  <-> f_above (wos p) 30
                      \/ (f_equal (lw_pos_qty p) 0 /\ f_above (lw_inv_units p) 0))
    /\ size_efficiency_pct a
       = (if (0 <? length ps)%nat
          then py_round (nat_Q (productive_sizes a) / nat_Q (length ps) * 100) 1
          else 0)
    /\ dead_sizes a
       = (length (List.filter over_30 ps)
          + length (List.filter
                      (fun p => negb (over_30 p) && unsold_with_inventory p) ps))%nat
    /\ (length ps = 4%nat ->
        length (List.filter over_30 ps) = 2%nat ->
        (forall p, p ∈ ps -> unsold_with_inventory p = true -> over_30 p = true) ->
        dead_sizes a = 2%nat).
Proof.
  intros Hl.
  destruct (enrich_sku_some style_map s ps Hl) as (a & Ha & Hs).
  destruct (size_analysis_of_ok ps) as (avg & Ha').
  rewrite Ha' in Ha. injection Ha as <-.
  assert (Hdead : length (List.filter is_dead ps)
                  = (length (List.filter over_30 ps)
                     + length (List.filter
                         (fun p => negb (over_30 p) && unsold_with_inventory p) ps))%nat).
  { apply (count_either over_30 unsold_with_inventory). }
  eexists. eexists. split; [exact Hs|].
  cbn [sku_size_analysis with_size_fields total_prime_items productive_sizes
       dead_sizes size_efficiency_pct].
  repeat apply conj; try reflexivity.
  - apply is_productive_iff.
  - apply is_dead_iff.
  - exact Hdead.
  - intros _ H2 Hnone. rewrite Hdead, H2.
    assert (E : List.filter (fun p => negb (over_30 p) && unsold_with_inventory p) ps
                = []).
    { clear - Hnone. induction ps as [|p ps IH]; [reflexivity|].
      cbn [List.filter].
      destruct (unsold_with_inventory p) eqn:Eu.
      - rewrite (Hnone p); [|apply elem_of_cons; left; reflexivity | exact Eu].
        cbn [negb andb]. apply IH. intros q Hq. apply Hnone.
        apply elem_of_cons. right. exact Hq.
      - rewrite andb_false_r. apply IH. intros q Hq. apply Hnone.
        apply elem_of_cons. right. exact Hq. }
    rewrite E. reflexivity.
Qed.

Lemma size_analysis_counts_witness :
  lookup_code (style_map_of "A1" sizes_two_dead) (sku (sku_of_key "A1"))
  = Some sizes_two_dead
  /\ length sizes_two_dead = 4%nat
  /\ length (List.filter over_30 sizes_two_dead) = 2%nat
  /\ exists s' a,
       enrich_sku (style_map_of "A1" sizes_two_dead) (sku_of_key "A1") = Ok s'
       /\ sku_size_analysis s' = Some a
       /\ productive_sizes a = 1%nat
       /\ dead_sizes a = 2%nat.
Proof.
  assert (H : lookup_code (style_map_of "A1" sizes_two_dead)
                          (sku (sku_of_key "A1")) = Some sizes_two_dead).
  { reflexivity. }
  split; [exact H|]. split; [reflexivity|]. split; [reflexivity|].
  destruct (size_analysis_counts _ _ _ H)
    as (s' & a & H1 & H2 & _ & H4 & _ & _ & _ & _ & _ & Hfour).
  exists s', a. split; [exact H1|]. split; [exact H2|].
  split; [rewrite H4; reflexivity|].
  apply Hfour; [reflexivity | reflexivity |].
  intros p Hp Hu.
  repeat (apply elem_of_cons in Hp as [-> | Hp]; [vm_compute in Hu |- *; congruence|]).
  apply elem_of_nil in Hp. contradiction.
Defined.

(** C2 as worded fails on the code.  A selling size with a WOS of 25 is
    productive by the wording (WOS below 30) and is not counted; of four
    sizes with exactly two above a WOS of 30, all four are dead when the
    other two sell nothing and hold inventory; one productive size out of
    three gives 33.3, not 100/3. *)
Lemma size_analysis_counterexample :
  (Forall (fun p => productive_as_worded p = true) sizes_wos_25
   /\ match analysis_of_enriched sizes_wos_25 with
      | Some a => productive_sizes a = 0%nat /\ size_efficiency_pct a == 0
      | None => False
      end)
  /\ (length sizes_two_over_30 = 4%nat
      /\ length (List.filter over_30 sizes_two_over_30) = 2%nat
      /\ match analysis_of_enriched sizes_two_over_30 with
         | Some a => dead_sizes a = 4%nat
         | None => False
         end)
  /\ match analysis_of_enriched sizes_one_of_three with
     | Some a =>
         productive_sizes a = 1%nat /\ total_prime_items a = 3%nat
         /\ size_efficiency_pct a == 333 # 10
         /\ ~ size_efficiency_pct a == 1 / 3 * 100
     | None => False
     end.
Proof.
  split; [|split].
  - split; [repeat constructor|]. vm_compute. split; reflexivity.
  - vm_compute. repeat split; reflexivity.
  - vm_compute. repeat split; try reflexivity. discriminate.
Qed.

(** C8.  For a SKU with at least one matching size record, the enriched
    [store_count] and the [total_stores] of its size analysis are the
    maximum of [curr_valid_stores] over those records: the count of one
    of them, and no smaller than that of any. *)
Theorem store_count_is_max (style_map : gmap string (list prime_item))
    (s : sku_record) (ps : list prime_item) :
  lookup_code style_map (sku s) = Some ps ->
  ps <> [] ->
  exists s' a m,
    enrich_sku style_map s = Ok s'
    /\ sku_size_analysis s' = Some a
    /\ store_count s' = Some m
    /\ total_stores a = m
    /\ (exists p, p ∈ ps /\ curr_valid_stores p = m)
    /\ (forall p, p ∈ ps -> (curr_valid_stores p <= m)%Z).
Proof.
  intros Hl Hne.
  destruct (enrich_sku_some style_map s ps Hl) as (a & Ha & Hs).
  destruct (size_analysis_of_ok ps) as (avg & Ha').
  rewrite Ha' in Ha. injection Ha as <-.
  eexists. eexists. eexists. split; [exact Hs|].
  cbn [sku_size_analysis store_count with_size_fields total_stores].
  split; [reflexivity|]. split; [reflexivity|]. split; [reflexivity|].
  destruct ps as [|p0 ps]; [congruence|]. cbn [map].
  destruct (max_stores_spec (curr_valid_stores p0) (map curr_valid_stores ps))
    as [Hin Hub].
  split.
  - change (curr_valid_stores p0 :: map curr_valid_stores ps)
      with (curr_valid_stores <$> (p0 :: ps)) in Hin.
    apply list_elem_of_fmap in Hin as (p & E & Hp).
    exists p. split; [exact Hp | symmetry; exact E].
  - intros p Hp. apply Hub.
    change (curr_valid_stores p0 :: map curr_valid_stores ps)
      with (curr_valid_stores <$> (p0 :: ps)).
    apply list_elem_of_fmap. exists p. split; [reflexivity | exact Hp].
Qed.

Lemma store_count_is_max_witness :
  lookup_code (style_map_of "A1" sizes_one_of_three) (sku (sku_of_key "A1"))
  = Some sizes_one_of_three
  /\ map curr_valid_stores sizes_one_of_three = [100; 120; 90]%Z
  /\ exists s',
       enrich_sku (style_map_of "A1" sizes_one_of_three) (sku_of_key "A1") = Ok s'
       /\ store_count s' = Some 120%Z.
Proof.
  assert (H : lookup_code (style_map_of "A1" sizes_one_of_three)
                          (sku (sku_of_key "A1")) = Some sizes_one_of_three).
  { reflexivity. }
  assert (Hne : sizes_one_of_three <> []) by discriminate.
  split; [exact H|]. split; [reflexivity|].
  destruct (store_count_is_max _ _ _ H Hne)
    as (s' & a & m & H1 & _ & H3 & _ & (p & Hp & Hpm) & Hub).
  exists s'. split; [exact H1|]. rewrite H3. f_equal.
  assert (Hge : (120 <= m)%Z).
  { apply (Hub (size_record 1 25 25 120)).
    apply elem_of_cons. right. apply elem_of_cons. left. reflexivity. }
  assert (Hle : (m <= 120)%Z).
  { rewrite <- Hpm. clear - Hp.
    repeat (apply elem_of_cons in Hp as [-> | Hp]; [vm_compute; discriminate|]).
    apply elem_of_nil in Hp. contradiction. }
  lia.
Defined.

(** C7.  For a SKU whose style/color key has no entry in the size map,
    the enrichment sets [store_count] to 0 and leaves the record without
    [size_analysis] (and without [prime_items]) if it had none; this is
    no error: the enrichment returns for every SKU master and every size
    map, with one record per SKU. *)
Theorem enrich_without_sizes (style_map : gmap string (list prime_item))
    (s : sku_record) :
  lookup_code style_map (sku s) = None ->
  (exists s',
     enrich_sku style_map s = Ok s'
     /\ store_count s' = Some 0%Z
     /\ sku_size_analysis s' = sku_size_analysis s
     /\ prime_items s' = prime_items s
     /\ (forall sort_values df,
          s ∈ Etl.sku_master_of sort_values df -> sku_size_analysis s' = None))
  /\ (forall sku_master style_map',
        exists out,
          enrich_sku_master_with_size_analysis sku_master style_map' = Ok out
          /\ Forall2 (fun r r' => enrich_sku style_map' r = Ok r' /\ sku r' = sku r)
                     sku_master out).
Proof.
  intros Hl. split.
  - eexists. split; [apply enrich_sku_none, Hl|].
    cbn [store_count sku_size_analysis prime_items with_size_fields].
    repeat split.
    intros sort_values df Hin. unfold Etl.sku_master_of in Hin.
    revert Hin. generalize (sort_values df), 0.
    intros frame. induction frame as [|row rest IH]; intros c Hin.
    + apply elem_of_nil in Hin. contradiction.
    + rewrite sku_loop_cons in Hin. apply elem_of_cons in Hin as [-> | Hin].
      * reflexivity.
      * eapply IH, Hin.
  - intros sku_master style_map'. apply enrich_total.
Qed.

Lemma enrich_without_sizes_witness :
  lookup_code (style_map_of "A1" sizes_wos_25) (sku (sku_of_key "B7")) = None
  /\ exists s',
       enrich_sku (style_map_of "A1" sizes_wos_25) (sku_of_key "B7") = Ok s'
       /\ store_count s' = Some 0%Z
       /\ sku_size_analysis s' = None.
Proof.
  assert (H : lookup_code (style_map_of "A1" sizes_wos_25) (sku (sku_of_key "B7"))
              = None).
  { reflexivity. }
  split; [exact H|].
  destruct (enrich_without_sizes _ _ H) as [(s' & H1 & H2 & H3 & _) _].
  exists s'. split; [exact H1|]. split; [exact H2|]. rewrite H3. reflexivity.
Defined.

End Enrichment.

(** ** Per-size inventory units and weeks of supply *)

Section InventoryUnits.

Import Velocity Claims.

Lemma f_div_no_zero_division (a b : pyfloat) :
  f_gt b (Fin 0) = true -> exists q, f_div a b = Ok q.
Proof.
  intros Hb. destruct b as [y|]; [|discriminate].
  apply (f_gt_above (Fin y) 0) in Hb as (y' & E & Hy). inversion E; subst y'.
  assert (Hnz : Qeq_bool y 0 = false).
  { destruct (Qeq_bool y 0) eqn:Ey; [|reflexivity].
    apply Qeq_bool_iff in Ey. exfalso. lra. }
  destruct a as [x|]; simpl; rewrite Hnz; eexists; reflexivity.
Qed.

(** A guarded quotient either returns or fails on the type of an
    operand; it never divides by zero. *)
Lemma guarded_div (a b : cell) :
  (exists c, is_number c
             /\ (positive ← gt_zero b;
                 if positive : bool then cell_div a b else Ok (CFloat (Fin 0)))
                = Ok c)
  \/ (exists msg,
        (positive ← gt_zero b;
         if positive : bool then cell_div a b else Ok (CFloat (Fin 0)))
        = Raise (TypeError msg)).
Proof.
  destruct b as [y| |]; unfold_result; cbn [gt_zero];
    [|right; eexists; reflexivity|right; eexists; reflexivity].
  destruct (f_gt y (Fin 0)) eqn:Hy.
  - destruct a as [x| |]; cbn [cell_div];
      [|right; eexists; reflexivity|right; eexists; reflexivity].
    destruct (f_div_no_zero_division x y Hy) as (q & ->).
    left. eexists. split; [|reflexivity]. exact I.
  - left. eexists. split; [|reflexivity]. exact I.
Qed.

Lemma cell_or_number (c d : cell) :
  is_number d -> (forall s, c <> CStr s) -> is_number (cell_or c d).
Proof.
  intros Hd Hc. unfold cell_or. destruct c as [x|s|]; simpl.
  - destruct (f_truthy x); [exact I | exact Hd].
  - exfalso. eapply Hc. reflexivity.
  - exact Hd.
Qed.

Lemma guarded_div_numbers (a b : cell) :
  is_number a -> is_number b ->
  exists c, is_number c
            /\ (positive ← gt_zero b;
                if positive : bool then cell_div a b else Ok (CFloat (Fin 0)))
               = Ok c.
Proof.
  intros Ha Hb.
  destruct (guarded_div a b) as [H | (msg & H)]; [exact H|].
  exfalso. destruct a as [x| |], b as [y| |]; try contradiction.
  unfold_result. cbn [gt_zero cell_div] in H.
  destruct (f_gt y (Fin 0)) eqn:Hy; [|discriminate].
  destruct (f_div_no_zero_division x y Hy) as (q & E).
  rewrite E in H. discriminate.
Qed.

Lemma lw_inv_units_of_cases (a b : cell) :
  (exists c, is_number c /\ lw_inv_units_of a b = Ok c)
  \/ (exists msg, lw_inv_units_of a b = Raise (TypeError msg)).
Proof. exact (guarded_div a b). Qed.

Lemma wos_of_cases (a b : cell) :
  (exists c, is_number c /\ wos_of a b = Ok c)
  \/ (exists msg, wos_of a b = Raise (TypeError msg)).
Proof. exact (guarded_div a b). Qed.

Lemma lw_inv_units_of_numbers (a b : cell) :
  is_number a -> is_number b ->
  exists c, is_number c /\ lw_inv_units_of a b = Ok c.
Proof. exact (guarded_div_numbers a b). Qed.

Lemma wos_of_numbers (a b : cell) :
  is_number a -> is_number b ->
  exists c, is_number c /\ wos_of a b = Ok c.
Proof. exact (guarded_div_numbers a b). Qed.

(** What a returned tuple is made of. *)
Lemma inv_units_and_wos_ok row lw_pos_qty lw_inv_retail lw_inv_units wos :
  inv_units_and_wos row = Ok (lw_pos_qty, lw_inv_retail, lw_inv_units, wos) ->
  lw_pos_qty = cell_or (get row "LW POS Qty" (CFloat (Fin 0))) (CFloat (Fin 0))
  /\ lw_inv_retail
     = cell_or (get row "Total LW Str Inv Retail" (CFloat (Fin 0))) (CFloat (Fin 0))
  /\ lw_inv_units_of lw_inv_retail
       (cell_or (get row "LW Avg Retail" (CFloat (Fin 0))) (CFloat (Fin 1)))
     = Ok lw_inv_units
  /\ wos_of lw_inv_units lw_pos_qty = Ok wos.
Proof.
  unfold inv_units_and_wos. intros H.
  destruct (lw_inv_units_of _ _) as [u|e] eqn:Eu; unfold_result; [|discriminate].
  destruct (wos_of u _) as [w|e] eqn:Ew; [|discriminate].
  injection H as <- <- <- <-. repeat split; assumption.
Qed.

(** C9, as the code has it.  The per-size inventory units and WOS of a
    velocity row never meet a division by zero, and are computed for
    every row whose three cells are numbers or missing.  When the average
    retail price is absent from the row, [None], empty or zero it is
    replaced by 1, and the inventory units equal the inventory retail
    dollars; when it is NaN (a blank cell) or negative the inventory
    units are 0; when the last-week sales quantity is not positive the
    WOS is 0. *)
Theorem inventory_units_and_wos_total (row : gmap string cell) :
  let qty := get row "LW POS Qty" (CFloat (Fin 0)) in
  let retail := get row "Total LW Str Inv Retail" (CFloat (Fin 0)) in
  let avg := get row "LW Avg Retail" (CFloat (Fin 0)) in
  (forall msg, inv_units_and_wos row <> Raise (ZeroDivisionError msg))
  /\ ((forall s, qty <> CStr s) -> (forall s, retail <> CStr s) ->
      (forall s, avg <> CStr s) ->
      exists lw_pos_qty lw_inv_retail lw_inv_units wos,
        inv_units_and_wos row = Ok (lw_pos_qty, lw_inv_retail, lw_inv_units, wos))
  /\ (forall lw_pos_qty lw_inv_retail lw_inv_units wos,
        inv_units_and_wos row = Ok (lw_pos_qty, lw_inv_retail, lw_inv_units, wos) ->
        (cell_truthy avg = false -> same_number lw_inv_units lw_inv_retail)
        /\ (avg = CFloat NaN \/ (exists q, avg = CFloat (Fin q) /\ q < 0) ->
            lw_inv_units = CFloat (Fin 0))
        /\ (gt_zero lw_pos_qty = Ok false -> wos = CFloat (Fin 0))).
Proof.
  intros qty retail avg. repeat apply conj.
  - intros msg. unfold inv_units_and_wos. fold qty retail avg.
    destruct (lw_inv_units_of_cases (cell_or retail (CFloat (Fin 0)))
                                    (cell_or avg (CFloat (Fin 1))))
      as [(u & _ & ->) | (m & ->)]; [|discriminate].
    unfold_result.
    destruct (wos_of_cases u (cell_or qty (CFloat (Fin 0))))
      as [(w & _ & ->) | (m & ->)]; discriminate.
  - intros Hq Hr Ha. unfold inv_units_and_wos. fold qty retail avg.
    destruct (lw_inv_units_of_numbers (cell_or retail (CFloat (Fin 0)))
                                      (cell_or avg (CFloat (Fin 1))))
      as (u & Hu & ->); [apply cell_or_number; [exact I | exact Hr]
                        | apply cell_or_number; [exact I | exact Ha] |].
    unfold_result.
    destruct (wos_of_numbers u (cell_or qty (CFloat (Fin 0))))
      as (w & _ & ->); [exact Hu | apply cell_or_number; [exact I | exact Hq] |].
    repeat eexists.
  - intros lw_pos_qty lw_inv_retail lw_inv_units wos H.
    apply inv_units_and_wos_ok in H as (Eq & Er & Hu & Hw).
    fold avg in Hu. repeat apply conj.
    + intros Hfalsy. unfold cell_or in Hu. rewrite Hfalsy in Hu.
      unfold lw_inv_units_of in Hu. unfold_result. cbn [gt_zero] in Hu.
      change (f_gt (Fin 1) (Fin 0)) with true in Hu. cbn iota in Hu.
      destruct lw_inv_retail as [[x|]| |]; cbn in Hu; try discriminate.
      * injection Hu as <-. simpl. field.
      * injection Hu as <-. exact I.
    + intros Hbad. unfold lw_inv_units_of in Hu. unfold_result.
      assert (E : gt_zero (cell_or avg (CFloat (Fin 1))) = Ok false).
      { destruct Hbad as [-> | (q & -> & Hq)]; [reflexivity|].
        unfold cell_or. cbn [cell_truthy f_truthy].
        assert (Hnz : Qeq_bool q 0 = false).
        { destruct (Qeq_bool q 0) eqn:Ez; [|reflexivity].
          apply Qeq_bool_iff in Ez. exfalso. lra. }
        rewrite Hnz. cbn [negb gt_zero f_gt f_lt]. f_equal.
        apply Qltb_ge. lra. }
      rewrite E in Hu. injection Hu as <-. reflexivity.
    + intros Hnp. unfold wos_of in Hw. unfold_result.
      rewrite Hnp in Hw. injection Hw as <-. reflexivity.
Qed.

Lemma inventory_units_and_wos_total_witness :
  cell_truthy (get row_no_avg_retail "LW Avg Retail" (CFloat (Fin 0))) = false
  /\ exists lw_pos_qty lw_inv_retail lw_inv_units wos,
       inv_units_and_wos row_no_avg_retail
       = Ok (lw_pos_qty, lw_inv_retail, lw_inv_units, wos)
       /\ lw_inv_retail = CFloat (Fin 100)
       /\ same_number lw_inv_units lw_inv_retail.
Proof.
  split; [reflexivity|].
  destruct (inventory_units_and_wos_total row_no_avg_retail) as (_ & Hret & Hval).
  destruct Hret as (q & r & u & w & E); try (intros s; discriminate).
  exists q, r, u, w. split; [exact E|].
  destruct (Hval q r u w E) as (Hsame & _ & _).
  split; [|apply Hsame; reflexivity].
  apply inv_units_and_wos_ok in E as (_ & -> & _). reflexivity.
Defined.

(** C9 as worded fails on the code: a blank (NaN) average retail price
    is not replaced by 1; with 100 dollars of inventory the inventory
    units come out as 0, not 100. *)
Lemma inventory_units_counterexample :
  pd_isna (get row_blank_avg_retail "LW Avg Retail" (CFloat (Fin 0))) = true
  /\ match inv_units_and_wos row_blank_avg_retail with
     | Ok (_, lw_inv_retail, lw_inv_units, _) =>
         lw_inv_retail = CFloat (Fin 100)
         /\ lw_inv_units = CFloat (Fin 0)
         /\ ~ same_number lw_inv_units lw_inv_retail
     | Raise _ => False
     end.
Proof.
  split; [reflexivity|]. vm_compute. repeat split. discriminate.
Qed.

End InventoryUnits.

(** ** Size recommendations *)

Section Recommendations.

Import Velocity Claims.

Lemma recommendations_loop_acc (sku_master : list sku_record)
    (acc : list recommendation) :
  recommendations_loop sku_master acc
  = acc ++ recommendations_loop sku_master [].
Proof.
  revert acc. induction sku_master as [|s rest IH]; intros acc; simpl.
  - rewrite app_nil_r. reflexivity.
  - destruct (sku_size_analysis s) as [a|]; [|apply IH].
    destruct ((0 <? dead_sizes a)%nat && Qltb (size_efficiency_pct a) 70)%bool;
      [|apply IH].
    rewrite (IH (acc ++ _)), (IH [_]), <- app_assoc. reflexivity.
Qed.

Lemma needs_recommendation_iff (s : sku_record) :
  needs_recommendation s = true
  <-> exists a, sku_size_analysis s = Some a
                /\ (0 < dead_sizes a)%nat
                /\ size_efficiency_pct a < 70.
Proof.
  unfold needs_recommendation. destruct (sku_size_analysis s) as [a|].
  - rewrite andb_true_iff, Nat.ltb_lt, Qltb_lt. split.
    + intros [? ?]. exists a. auto.
    + intros (a' & E & ? & ?). inversion E; subst. auto.
  - split; [discriminate | intros (a & E & _); discriminate].
Qed.

(** C10.  [generate_size_recommendations] emits one recommendation for
    each SKU that carries a size analysis with dead_sizes > 0 and
    size_efficiency_pct < 70, in the order of the SKU master, and none
    for any other SKU.  The recommendation of a SKU carries that SKU's
    key, fineline and tier and its analysis' total_prime_items,
    dead_sizes and size_efficiency_pct; its text names the two counts;
    its priority is "high" iff the dead_sizes of the SKU's analysis
    exceed 3 and "medium" otherwise. *)
Theorem recommendations_emitted (sku_master : list sku_record) :
  (forall s, needs_recommendation s = true
             <-> exists a, sku_size_analysis s = Some a
                           /\ (0 < dead_sizes a)%nat
                           /\ size_efficiency_pct a < 70)
  /\ Forall2 (fun s r =>
                exists a,
                  sku_size_analysis s = Some a
                  /\ (0 < dead_sizes a)%nat
                  /\ size_efficiency_pct a < 70
                  /\ rec_sku r = sku s
                  /\ rec_fineline r = sku_fineline s
                  /\ rec_tier r = tier s
                  /\ rec_total_sizes r = total_prime_items a
                  /\ rec_dead_sizes r = dead_sizes a
                  /\ rec_size_efficiency_pct r = size_efficiency_pct a
                  /\ rec_recommendation r
                     = "Optimize size curve - " +:+ pretty (dead_sizes a)
                       +:+ " dead sizes out of "
                       +:+ pretty (total_prime_items a)
                  /\ (rec_priority r = "high" <-> (3 < dead_sizes a)%nat)
                  /\ (rec_priority r = "medium" <-> ~ (3 < dead_sizes a)%nat)
                  /\ rec_expected_impact r
                     = "Reduce inventory bloat, improve WOS")
             (List.filter needs_recommendation sku_master)
             (generate_size_recommendations sku_master)
  /\ Forall (fun r =>
               (rec_priority r = "high" <-> (3 < rec_dead_sizes r)%nat)
               /\ (rec_priority r = "medium" <-> ~ (3 < rec_dead_sizes r)%nat))
            (generate_size_recommendations sku_master).
Proof.
  split; [exact needs_recommendation_iff|].
  unfold generate_size_recommendations.
  induction sku_master as [|s rest [IHmatch IHprio]]; [split; constructor|].
  cbn [recommendations_loop List.filter]. unfold needs_recommendation at 1.
  destruct (sku_size_analysis s) as [a|] eqn:Ea; [|split; assumption].
  destruct ((0 <? dead_sizes a)%nat && Qltb (size_efficiency_pct a) 70)%bool
    eqn:Eg; [|split; assumption].
  apply andb_true_iff in Eg. destruct Eg as [Hdead Heff].
  apply Nat.ltb_lt in Hdead. apply Qltb_lt in Heff.
  rewrite recommendations_loop_acc. cbn [app].
  assert (Hprio : (rec_priority (recommendation_of s a) = "high"
                   <-> (3 < dead_sizes a)%nat)
                  /\ (rec_priority (recommendation_of s a) = "medium"
                      <-> ~ (3 < dead_sizes a)%nat)).
  { cbn [recommendation_of rec_priority].
    destruct (3 <? dead_sizes a)%nat eqn:E.
    - apply Nat.ltb_lt in E. repeat split; try discriminate; auto.
      intros H. contradiction.
    - apply Nat.ltb_ge in E. repeat split; try discriminate; try lia; auto. }
  split.
  - constructor; [|exact IHmatch]. exists a.
    split; [exact Ea|]. split; [exact Hdead|]. split; [exact Heff|].
    do 7 (split; [reflexivity|]).
    split; [exact (proj1 Hprio)|]. split; [exact (proj2 Hprio)|]. reflexivity.
  - constructor; [|exact IHprio]. exact Hprio.
Qed.

End Recommendations.

(** ** Missing grouping keys *)

Section MissingKeys.

Import Etl Velocity Claims.

Variable show_float : Q -> string.
Variable float_of_str : string -> result pyfloat.
Variable int_of_str : string -> result Z.

Lemma insert_key_Forall (P : cell -> Prop) (k : cell) (ks : list cell) :
  P k -> Forall P ks -> Forall P (insert_key k ks).
Proof.
  intros Hk. induction 1 as [|h t Hh Ht IH]; simpl.
  - constructor; [exact Hk | constructor].
  - destruct (cell_eqb k h); [constructor; assumption|].
    destruct (cell_ltb k h); repeat (constructor; try assumption).
Qed.

(** No group of a group-by is keyed by a missing value. *)
Lemma group_keys_present {A : Type} (key : A -> cell) (rs : list A) :
  Forall (fun k => pd_isna k = false) (group_keys key rs).
Proof.
  unfold group_keys. induction rs as [|r rs IH]; simpl; [constructor|].
  destruct (pd_isna (key r)) eqn:E; simpl; [exact IH|].
  apply insert_key_Forall; assumption.
Qed.

Lemma cell_eqb_present (a b : cell) : cell_eqb a b = true -> pd_isna a = false.
Proof.
  destruct a as [[x|]|s|], b as [[y|]|t|]; simpl; congruence.
Qed.

(** A row whose key is missing can be dropped from the table without
    changing the groups. *)
Lemma groupby_with_key {A : Type} (key : A -> cell) (rs : list A) :
  groupby key (with_key key rs) = groupby key rs.
Proof.
  unfold groupby, with_key.
  assert (Hk : group_keys key (List.filter (fun r => negb (pd_isna (key r))) rs)
               = group_keys key rs).
  { unfold group_keys. f_equal.
    induction rs as [|r rs IH]; [reflexivity|]. cbn [List.filter map].
    destruct (pd_isna (key r)) eqn:E; cbn [negb map List.filter];
      rewrite ?E; cbn [negb]; rewrite IH; reflexivity. }
  rewrite Hk. clear Hk. apply map_ext. intros k. f_equal.
  induction rs as [|r rs IH]; [reflexivity|]. cbn [List.filter].
  destruct (pd_isna (key r)) eqn:E; cbn [negb List.filter].
  - destruct (cell_eqb (key r) k) eqn:Ek; [|exact IH].
    apply cell_eqb_present in Ek. congruence.
  - rewrite IH. reflexivity.
Qed.

(** C4.  In the fineline rollup no record is keyed by a missing
    Fineline, and the rows with a missing Fineline contribute nothing.
    In the velocity style map the same does not hold: the style/color
    cell is turned into a string before it is tested, so a row whose
    cell is blank (NaN) is filed under the key "nan", and one whose cell
    is [None] under "None". *)
Theorem missing_keys (df : pos_table) :
  (match fineline_rollup_of df with
   | Ok out => Forall (fun r => pd_isna (fl_fineline r) = false) out
   | Raise _ => True
   end
   /\ fineline_rollup_of {| columns := columns df;
                            rows := with_key p_fineline (rows df) |}
      = fineline_rollup_of df)
  /\ pd_isna (get row_blank_style "Vndr Category 2" (CStr "")) = true
  /\ (exists p,
        map_velocity_to_styles show_float float_of_str int_of_str [row_blank_style]
        = Ok {[ "nan" := [p] ]})
  /\ (exists p,
        map_velocity_to_styles show_float float_of_str int_of_str [row_none_style]
        = Ok {[ "None" := [p] ]}).
Proof.
  repeat apply conj.
  - unfold fineline_rollup_of.
    destruct (check_required _ _); [|exact I].
    unfold_result. unfold groupby. pose proof (group_keys_present p_fineline (rows df)) as H.
    induction H as [|k ks Hk _ IH]; simpl; constructor; assumption.
  - unfold fineline_rollup_of. cbn [columns rows].
    rewrite groupby_with_key. reflexivity.
  - reflexivity.
  - eexists. vm_compute. reflexivity.
  - eexists. vm_compute. reflexivity.
Qed.

End MissingKeys.

(** ** The run and its required columns *)

Section Run.

Import Etl Claims.

(** The check of the fineline rollup names the first required column the
    table lacks. *)
Lemma check_required_missing (cols required : list string) :
  (exists col, (col ∈ required) /\ (col ∉ cols)) ->
  exists col,
    (col ∈ required) /\ (col ∉ cols)
    /\ check_required cols required
       = Raise (ValueError ("Missing required fineline column: " +:+ col)).
Proof.
  induction required as [|c rest IH]; intros (col & Hin & Hnot).
  - apply elem_of_nil in Hin. contradiction.
  - cbn [check_required]. case_bool_decide as Hc.
    + destruct IH as (col' & Hin' & Hnot' & E).
      { apply elem_of_cons in Hin as [-> | Hin]; [contradiction|].
        exists col. split; assumption. }
      exists col'. split; [apply elem_of_cons; right; exact Hin'|].
      split; assumption.
    + exists c. split; [apply elem_of_cons; left; reflexivity|].
      split; [exact Hc | reflexivity].
Qed.

Lemma require_col_cases (cols : list string) (name : string) :
  require_col cols name = Ok tt
  \/ (require_col cols name = Raise (KeyError name) /\ (name ∉ cols)).
Proof.
  unfold require_col. case_bool_decide; [left | right]; auto.
Qed.

(** The joins return a frame or stop on a column one of their tables
    lacks. *)
Lemma sku_frame_cases (t : tiers) (lw ytd : pos_table) (lad : ladder_table) :
  (exists frame, sku_frame t lw ytd lad = Ok frame)
  \/ (exists col,
        sku_frame t lw ytd lad = Raise (KeyError col)
        /\ ((col ∉ columns ytd) \/ (col ∉ columns lw) \/ (col ∉ l_columns lad))).
Proof.
  unfold sku_frame. unfold_result.
  repeat match goal with
         | |- context [require_col ?c ?n] =>
             destruct (require_col_cases c n) as [-> | [-> Hn]];
             [| right; eexists; split; [reflexivity | tauto]]
         end.
  left. eexists. reflexivity.
Qed.

(** Had the tables been loaded, a run over a POS table that lacks a
    required column would stop on an error that names a missing column,
    and write nothing. *)
Lemma loaded_run_names_column sort_values (w : world) (s : etl)
    (lw ytd : pos_table) (lad : ladder_table) :
  pos_workbook w <> None ->
  pos_lw s = Some lw -> pos_ytd s = Some ytd -> ladder s = Some lad ->
  (exists col, (col ∈ required_cols) /\ (col ∉ map strip (columns lw))) ->
  files (run sort_values w s) = output_dir w
  /\ exists col,
       ((col ∉ columns ytd) \/ (col ∉ columns lw) \/ (col ∉ l_columns lad)
        \/ (col ∉ map strip (columns lw)))
       /\ (failure_line (run sort_values w s) = Some ("ETL FAILED: " +:+ col)
           \/ failure_line (run sort_values w s)
              = Some ("ETL FAILED: "
                      +:+ ("Missing required fineline column: " +:+ col))).
Proof.
  intros Hbook Hlw Hytd Hlad Hmissing.
  unfold run, stages, load_pos_data, load_ladder_data.
  destruct (pos_workbook w) as [df|]; [|congruence].
  unfold_result. unfold build_sku_master.
  cbn [pos_lw ladder pos_ytd tier_assignments set_velocity_raw set_pos_ytd_df].
  rewrite Hlw, Hlad, Hytd.
  destruct (sku_frame_cases (tier_assignments s) lw ytd lad)
    as [(frame & ->) | (col & -> & Hcol)].
  - unfold_result. unfold build_fineline_rollup.
    cbn [pos_lw set_sku_master set_velocity_raw set_pos_ytd_df].
    rewrite Hlw. unfold fineline_rollup_of.
    destruct (check_required_missing _ _ Hmissing) as (col & _ & Hnot & ->).
    unfold_result. cbn [files failure_line exn_message].
    split; [reflexivity|]. exists col. split; [tauto|]. right. reflexivity.
  - cbn [files failure_line exn_message].
    split; [reflexivity|]. exists col. split; [tauto|]. left. reflexivity.
Qed.

(** A run in which a stage raises returns [False] and leaves the output
    directory as it found it: the saves come after the last stage. *)
Lemma failed_run_writes_nothing sort_values (w : world) (s : etl) (e : exn) :
  stages sort_values w s = Raise e ->
  success (run sort_values w s) = false
  /\ files (run sort_values w s) = output_dir w.
Proof.
  intros E. unfold run. rewrite E. split; reflexivity.
Qed.

(** C3.  A run never assigns [pos_lw] or [ladder]: whatever table the
    workbook holds, [build_sku_master] stops it with its "must be loaded"
    error before the rollups read a column, so the run fails, writes no
    artifact, and the line it reports names no column.  This is so in
    particular for a table that lacks 'Sales Retail $ LW', although the
    fineline rollup, were it reached with that table, would raise an
    error that names the column.  Whatever the state of the object, a
    run in which a stage raises returns [False] and writes nothing. *)
Theorem run_stops_before_rollups (sort_values : list sku_row -> list sku_row)
    (w : world) :
  success (run sort_values w init) = false
  /\ files (run sort_values w init) = output_dir w
  /\ failure_line (run sort_values w init)
     = Some (match pos_workbook w with
             | Some _ =>
                 "ETL FAILED: POS LW and Ladder data must be loaded before building SKU master."
             | None =>
                 "ETL FAILED: Could not locate POS YTD table with both 'WD Style/Color' and 'Sales Retail $ 2025YTD' in any sheet."
             end)
  /\ run sort_values world_without_sales_lw init
     = {| success := false;
          failure_line :=
            Some "ETL FAILED: POS LW and Ladder data must be loaded before building SKU master.";
          files := ∅ |}
  /\ fineline_rollup_of pos_without_sales_lw
     = Raise (ValueError "Missing required fineline column: Sales Retail $ LW")
  /\ (forall df,
        (exists col, (col ∈ required_cols) /\ (col ∉ map strip (columns df))) ->
        exists col,
          (col ∈ required_cols) /\ (col ∉ map strip (columns df))
          /\ fineline_rollup_of df
             = Raise (ValueError ("Missing required fineline column: " +:+ col)))
  /\ (forall s e, stages sort_values w s = Raise e ->
                  success (run sort_values w s) = false
                  /\ files (run sort_values w s) = output_dir w).
Proof.
  repeat apply conj.
  - unfold run, stages, load_pos_data. destruct (pos_workbook w); reflexivity.
  - unfold run, stages, load_pos_data. destruct (pos_workbook w); reflexivity.
  - unfold run, stages, load_pos_data. destruct (pos_workbook w); reflexivity.
  - reflexivity.
  - reflexivity.
  - intros df Hmissing. unfold fineline_rollup_of.
    destruct (check_required_missing _ _ Hmissing) as (col & Hin & Hnot & E).
    exists col. rewrite E. repeat split; assumption.
  - intros s e. apply failed_run_writes_nothing.
Qed.

End Run.

(** * Further properties of the pipeline *)

(** ** Shares, totals and tiers of the SKU master *)

Section SkuMasterShares.

Import Etl Claims Notions Samples.

Lemma py_round_zero_six : py_round 0 6 == 0.
Proof. reflexivity. Qed.

Lemma py_round_one_six : py_round 1 6 == 1.
Proof. reflexivity. Qed.

Lemma py_round_nonneg (x : Q) (n : nat) : 0 <= x -> 0 <= py_round x n.
Proof.
  intros H. apply Qle_trans with (py_round 0 n); [|apply py_round_mono, H].
  unfold py_round.
  rewrite (round_half_even_comp (0 * inject_Z (10 ^ Z.of_nat n)) 0) by ring.
  change (round_half_even 0) with 0%Z.
  apply Qle_shift_div_l; [apply scale_pos | unfold Qle; simpl; lia].
Qed.

Lemma py_round_six_le_one (x : Q) : x <= 1 -> py_round x 6 <= 1.
Proof.
  intros H. apply Qle_trans with (py_round 1 6); [apply py_round_mono, H|].
  rewrite py_round_one_six. lra.
Qed.

Lemma col_sum_nonneg {A : Type} (f : A -> pyfloat) (l : list A) :
  Forall (fun r => 0 <= _safe_float (f r) 0) l -> 0 <= col_sum f l.
Proof.
  induction 1 as [|r l Hr _ IH]; simpl; [lra|]. lra.
Qed.

Lemma ratio_nonneg (a t : Q) : 0 < t -> 0 <= a -> 0 <= a / t.
Proof.
  intros Ht Ha. apply Qle_shift_div_l; [exact Ht | lra].
Qed.

Lemma ratio_le_one (a t : Q) : 0 < t -> a <= t -> a / t <= 1.
Proof.
  intros Ht Ha. apply Qle_shift_div_r; [exact Ht | lra].
Qed.

Lemma sales_pct_of_record t ti c row :
  sales_pct_of_total (sku_record_of t ti c row).1
  = py_round (if (Qltb 0 t && Qltb 0 (ytd_of row))%bool
              then ytd_of row / t else 0) 6.
Proof. reflexivity. Qed.

Lemma cumulative_of_record_any t ti c row :
  cumulative_sales_pct (sku_record_of t ti c row).1
  = py_round (if Qltb 0 t then (c + ytd_of row) / t else 0) 6.
Proof. reflexivity. Qed.

(** The bounds of the two sales shares along the loop. *)
Lemma sku_loop_shares t ti c frame :
  0 <= c ->
  Forall (fun r => 0 <= ytd_of r) frame ->
  (0 < t -> c + col_sum c_sales_dollars_ytd frame <= t) ->
  Forall (fun r => 0 <= sales_pct_of_total r
                   /\ sales_pct_of_total r <= cumulative_sales_pct r
                   /\ cumulative_sales_pct r <= 1)
         (sku_loop t ti c frame).
Proof.
  intros Hc Hall. revert c Hc.
  induction Hall as [|row rest Hrow Hrest IH]; intros c Hc Hsum; [constructor|].
  rewrite sku_loop_cons.
  assert (Hrest' : 0 <= col_sum c_sales_dollars_ytd rest)
    by (apply col_sum_nonneg; exact Hrest).
  constructor.
  - rewrite sales_pct_of_record, cumulative_of_record_any.
    destruct (Qltb 0 t) eqn:Ht; cbn [andb].
    + apply Qltb_lt in Ht. specialize (Hsum Ht).
      change (col_sum c_sales_dollars_ytd (row :: rest))
        with (ytd_of row + col_sum c_sales_dollars_ytd rest) in Hsum.
      assert (Hcum : 0 <= (c + ytd_of row) / t) by (apply ratio_nonneg; lra).
      assert (Hone : (c + ytd_of row) / t <= 1) by (apply ratio_le_one; lra).
      repeat apply conj.
      * apply py_round_nonneg.
        destruct (Qltb 0 (ytd_of row)); [apply ratio_nonneg; lra | lra].
      * apply py_round_mono.
        destruct (Qltb 0 (ytd_of row)); [apply share_mono; lra | exact Hcum].
      * apply py_round_six_le_one. exact Hone.
    + repeat apply conj.
      * rewrite py_round_zero_six. lra.
      * lra.
      * rewrite py_round_zero_six. lra.
  - apply IH; [lra|].
    intros Ht. specialize (Hsum Ht).
    change (col_sum c_sales_dollars_ytd (row :: rest))
      with (ytd_of row + col_sum c_sales_dollars_ytd rest) in Hsum.
    lra.
Qed.

(** X1.  When no SKU has negative YTD sales dollars, every record of the
    SKU master has a sales share between 0 and 1, a cumulative share
    between 0 and 1, and a cumulative share no smaller than its own
    share, whatever the total. *)
Theorem sales_shares_bounded (sort_values : list sku_row -> list sku_row)
    (sku_df : list sku_row) :
  (forall l, sort_values l ≡ₚ l) ->
  Forall (fun r => 0 <= ytd_of r) sku_df ->
  Forall (fun r => 0 <= sales_pct_of_total r
                   /\ sales_pct_of_total r <= cumulative_sales_pct r
                   /\ cumulative_sales_pct r <= 1)
         (sku_master_of sort_values sku_df).
Proof.
  intros Hperm Hpos. unfold sku_master_of.
  apply sku_loop_shares; [lra | rewrite (Hperm sku_df); exact Hpos |].
  intros _. unfold total_sales_ytd_of. rewrite total_or_zero_eq.
  rewrite (col_sum_perm _ _ _ (Hperm sku_df)). lra.
Qed.

Lemma sales_shares_bounded_witness :
  Forall (fun r => 0 <= ytd_of r) frame_with_missing
  /\ Forall (fun r => 0 <= sales_pct_of_total r
                      /\ sales_pct_of_total r <= cumulative_sales_pct r
                      /\ cumulative_sales_pct r <= 1)
            (sku_master_of sort_values_desc frame_with_missing).
Proof.
  assert (H : Forall (fun r => 0 <= ytd_of r) frame_with_missing).
  { repeat constructor; vm_compute; discriminate. }
  split; [exact H|].
  apply (sales_shares_bounded sort_values_desc frame_with_missing
           sort_values_desc_perm H).
Defined.

Lemma sku_loop_zero_total t ti c frame :
  Qltb 0 t = false ->
  Forall (fun r => sales_pct_of_total r == 0 /\ cumulative_sales_pct r == 0)
         (sku_loop t ti c frame).
Proof.
  intros Ht. revert c.
  induction frame as [|row rest IH]; intros c; [constructor|].
  rewrite sku_loop_cons. constructor; [|apply IH].
  rewrite sales_pct_of_record, cumulative_of_record_any, Ht. cbn [andb].
  split; apply py_round_zero_six.
Qed.

(** X2.  When the total of the YTD sales dollars is not positive, no
    division takes place: every record has a sales share and a
    cumulative share of 0.0. *)
Theorem shares_zero_without_sales (sort_values : list sku_row -> list sku_row)
    (sku_df : list sku_row) :
  ~ 0 < total_sales_ytd_of sku_df ->
  Forall (fun r => sales_pct_of_total r == 0 /\ cumulative_sales_pct r == 0)
         (sku_master_of sort_values sku_df).
Proof.
  intros Hzero. unfold sku_master_of.
  assert (Ht : Qltb 0 (total_sales_ytd_of sku_df) = false).
  { destruct (Qltb 0 (total_sales_ytd_of sku_df)) eqn:E; [|reflexivity].
    apply Qltb_lt in E. contradiction. }
  apply sku_loop_zero_total, Ht.
Qed.

Lemma shares_zero_without_sales_witness :
  ~ 0 < total_sales_ytd_of frame_without_sales
  /\ Forall (fun r => sales_pct_of_total r == 0 /\ cumulative_sales_pct r == 0)
            (sku_master_of sort_values_desc frame_without_sales).
Proof.
  assert (H : ~ 0 < total_sales_ytd_of frame_without_sales).
  { vm_compute. discriminate. }
  split; [exact H|].
  apply (shares_zero_without_sales sort_values_desc frame_without_sales H).
Defined.

Lemma col_sum_member {A : Type} (f : A -> pyfloat) (l : list A) (r : A) :
  Forall (fun x => 0 <= _safe_float (f x) 0) l ->
  r ∈ l -> _safe_float (f r) 0 <= col_sum f l.
Proof.
  intros Hall Hin. induction Hall as [|x l Hx Hl IH]; simpl.
  - apply elem_of_nil in Hin. contradiction.
  - pose proof (col_sum_nonneg f l Hl) as Hs.
    apply elem_of_cons in Hin as [-> | Hin]; [lra|].
    specialize (IH Hin). lra.
Qed.

Lemma inventory_pct_of_record t ti c row :
  inventory_pct_of_total (sku_record_of t ti c row).1
  = py_round (if (Qltb 0 ti && Qltb 0 (inventory_of row))%bool
              then inventory_of row / ti else 0) 6.
Proof. reflexivity. Qed.

Lemma sku_loop_inventory_share t ti c frame :
  Forall (fun r => 0 <= inventory_of r /\ (0 < ti -> inventory_of r <= ti)) frame ->
  Forall (fun r => 0 <= inventory_pct_of_total r
                   /\ inventory_pct_of_total r <= 1
                   /\ (~ 0 < ti -> inventory_pct_of_total r == 0))
         (sku_loop t ti c frame).
Proof.
  intros Hall. revert c.
  induction Hall as [|row rest [Hrow Hle] _ IH]; intros c; [constructor|].
  rewrite sku_loop_cons. constructor; [|apply IH].
  rewrite inventory_pct_of_record.
  destruct (Qltb 0 ti) eqn:Ht; cbn [andb].
  - apply Qltb_lt in Ht. specialize (Hle Ht).
    destruct (Qltb 0 (inventory_of row)).
    + split; [apply py_round_nonneg, ratio_nonneg; assumption|].
      split; [apply py_round_six_le_one, ratio_le_one; assumption|].
      intros Hz. contradiction.
    + rewrite py_round_zero_six. repeat split; first [lra | intros _; reflexivity].
  - rewrite py_round_zero_six. repeat split; first [lra | intros _; reflexivity].
Qed.

(** X3.  When no SKU has negative on-hand inventory dollars, every
    record of the SKU master has an inventory share between 0 and 1; the
    share is 0.0 for every record when the inventory total is not
    positive. *)
Theorem inventory_share_bounded (sort_values : list sku_row -> list sku_row)
    (sku_df : list sku_row) :
  (forall l, sort_values l ≡ₚ l) ->
  Forall (fun r => 0 <= inventory_of r) sku_df ->
  Forall (fun r => 0 <= inventory_pct_of_total r
                   /\ inventory_pct_of_total r <= 1
                   /\ (~ 0 < total_inventory_lw_of sku_df ->
                       inventory_pct_of_total r == 0))
         (sku_master_of sort_values sku_df).
Proof.
  intros Hperm Hpos. unfold sku_master_of.
  apply sku_loop_inventory_share.
  rewrite (Hperm sku_df). rewrite Forall_forall. intros r Hr.
  split; [rewrite Forall_forall in Hpos; apply Hpos, Hr|].
  intros _. unfold total_inventory_lw_of. rewrite total_or_zero_eq.
  apply (col_sum_member c_inventory_dollars_lw); assumption.
Qed.

Lemma inventory_share_bounded_witness :
  Forall (fun r => 0 <= inventory_of r) frame_with_missing
  /\ Forall (fun r => 0 <= inventory_pct_of_total r
                      /\ inventory_pct_of_total r <= 1)
            (sku_master_of sort_values_desc frame_with_missing).
Proof.
  assert (H : Forall (fun r => 0 <= inventory_of r) frame_with_missing).
  { repeat constructor; vm_compute; discriminate. }
  split; [exact H|].
  pose proof (inventory_share_bounded sort_values_desc frame_with_missing
                sort_values_desc_perm H) as Hb.
  eapply Forall_impl; [exact Hb|]. intros r (H0 & H1 & _). split; assumption.
Defined.

Lemma sum_of_map {A : Type} (f : A -> pyfloat) (l : list A) :
  foldr Qplus 0 (map (fun r => _safe_float (f r) 0) l) = col_sum f l.
Proof.
  induction l as [|r l IH]; simpl; [reflexivity|]. rewrite IH. reflexivity.
Qed.

Lemma sku_loop_inventory t ti c frame :
  map inventory_dollars_lw (sku_loop t ti c frame) = map inventory_of frame.
Proof.
  revert c. induction frame as [|row rest IH]; intros c; [reflexivity|].
  rewrite sku_loop_cons. cbn [map]. rewrite IH. reflexivity.
Qed.

(** X4.  The SKU master has one record per row of the joined frame, with
    the same style/color keys (rearranged), and it conserves the totals:
    the YTD sales dollars of the records add up to the total the shares
    are taken of, and so do the inventory dollars. *)
Theorem sku_master_conserves_totals (sort_values : list sku_row -> list sku_row)
    (sku_df : list sku_row) :
  (forall l, sort_values l ≡ₚ l) ->
  let out := sku_master_of sort_values sku_df in
  map sku out ≡ₚ map c_style_color sku_df
  /\ length out = length sku_df
  /\ foldr Qplus 0 (map sales_dollars_ytd out) == total_sales_ytd_of sku_df
  /\ foldr Qplus 0 (map inventory_dollars_lw out) == total_inventory_lw_of sku_df.
Proof.
  intros Hperm out. unfold out, sku_master_of.
  assert (Hkeys : map sku (sku_loop (total_sales_ytd_of sku_df)
                             (total_inventory_lw_of sku_df) 0 (sort_values sku_df))
                  ≡ₚ map c_style_color sku_df).
  { rewrite sku_loop_keys. apply Permutation_map, Hperm. }
  repeat apply conj.
  - exact Hkeys.
  - apply Permutation_length in Hkeys. rewrite !length_map in Hkeys. exact Hkeys.
  - rewrite sku_loop_sales. unfold total_sales_ytd_of. rewrite total_or_zero_eq.
    unfold ytd_of. rewrite (sum_of_map c_sales_dollars_ytd).
    apply col_sum_perm, Hperm.
  - rewrite sku_loop_inventory. unfold total_inventory_lw_of.
    rewrite total_or_zero_eq. unfold inventory_of.
    rewrite (sum_of_map c_inventory_dollars_lw). apply col_sum_perm, Hperm.
Qed.

Lemma sku_master_conserves_totals_witness :
  length (sku_master_of sort_values_desc frame_with_missing) = 3%nat
  /\ foldr Qplus 0 (map sales_dollars_ytd
                      (sku_master_of sort_values_desc frame_with_missing))
     == 10.
Proof.
  destruct (sku_master_conserves_totals sort_values_desc frame_with_missing
              sort_values_desc_perm) as (_ & Hlen & Hsum & _).
  split; [exact Hlen|]. rewrite Hsum. reflexivity.
Defined.

(** What holds of the record of every row holds of every record of the
    loop. *)
Lemma sku_loop_Forall (P : sku_record -> Prop) t ti c frame :
  (forall c row, row ∈ frame -> P (sku_record_of t ti c row).1) ->
  Forall P (sku_loop t ti c frame).
Proof.
  revert c. induction frame as [|row rest IH]; intros c Hall; [constructor|].
  rewrite sku_loop_cons. constructor.
  - apply Hall, elem_of_cons. left. reflexivity.
  - apply IH. intros c' row' Hin. apply Hall, elem_of_cons. right. exact Hin.
Qed.

(** The guard [max(sales, 0.0001)] bounds the quotient. *)
Lemma guarded_wos_bounds (i s : Q) :
  0 <= i ->
  0 <= (if Qltb 0 s then i / py_max s (1 # 10000) else 0)
  /\ (if Qltb 0 s then i / py_max s (1 # 10000) else 0) <= 10000 * i.
Proof.
  intros Hi. destruct (Qltb 0 s) eqn:Hs; [|lra].
  assert (Hm : (1 # 10000) <= py_max s (1 # 10000)).
  { rewrite py_max_Qmax. apply Q.le_max_r. }
  assert (Hpos : 0 < py_max s (1 # 10000)) by lra.
  split.
  - apply ratio_nonneg; assumption.
  - apply Qle_shift_div_r; [exact Hpos|].
    apply Qle_trans with ((1 # 10000) * (10000 * i)); [lra|].
    rewrite (Qmult_comm (10000 * i)).
    apply Qmult_le_compat_r; [exact Hm | lra].
Qed.

Lemma unsold_wos_zero (i s : Q) :
  ~ 0 < s -> (if Qltb 0 s then i / py_max s (1 # 10000) else 0) = 0.
Proof.
  intros Hs. destruct (Qltb 0 s) eqn:E; [|reflexivity].
  apply Qltb_lt in E. contradiction.
Qed.

(** X5.  Whatever the frame and the sort, every record of the SKU master
    whose inventory units are not negative has weeks of supply between 0
    and 10000 times its inventory units (rounded to one decimal), and a
    record without positive LW sales units has weeks of supply 0.0; the
    same holds of every record of the fineline rollup. *)
Theorem weeks_of_supply_bounded (sort_values : list sku_row -> list sku_row)
    (sku_df : list sku_row) (groups : list (cell * list pos_row)) :
  Forall (fun r =>
            (0 <= inventory_units_lw r ->
             0 <= sku_wos r
             /\ sku_wos r <= py_round (10000 * inventory_units_lw r) 1)
            /\ (~ 0 < sales_units_lw r -> sku_wos r == 0))
         (sku_master_of sort_values sku_df)
  /\ Forall (fun r =>
               (0 <= fl_inventory_units_lw r ->
                0 <= fl_wos r
                /\ fl_wos r <= py_round (10000 * fl_inventory_units_lw r) 1)
               /\ (~ 0 < fl_sales_units_lw r -> fl_wos r == 0))
            (map fineline_record_of groups).
Proof.
  split.
  - unfold sku_master_of. apply sku_loop_Forall. intros c row _.
    unfold sku_record_of, sku_wos_of.
    cbn [fst sku_wos inventory_units_lw sales_units_lw].
    split.
    + intros Hi. destruct (guarded_wos_bounds _ (_safe_float (c_sales_units_lw row) 0) Hi)
        as [H0 H1].
      split; [apply py_round_nonneg, H0 | apply py_round_mono, H1].
    + intros Hs. rewrite (unsold_wos_zero _ _ Hs). reflexivity.
  - apply Forall_forall. intros r Hr. apply list_elem_of_fmap in Hr as (g & -> & _).
    unfold fineline_record_of, fineline_wos.
    cbn [fl_wos fl_inventory_units_lw fl_sales_units_lw _safe_float].
    split.
    + intros Hi. destruct (guarded_wos_bounds _ (col_sum p_sales_units_lw g.2) Hi)
        as [H0 H1].
      split; [apply py_round_nonneg, H0 | apply py_round_mono, H1].
    + intros Hs. rewrite (unsold_wos_zero _ _ Hs). reflexivity.
Qed.

(** Every row of the joined frame carries the tier looked up for its
    key. *)
Lemma sku_frame_tiers (t : tiers) (lw ytd : pos_table) (lad : ladder_table)
    (frame : list sku_row) :
  sku_frame t lw ytd lad = Ok frame ->
  Forall (fun r => c_tier r = _lookup_tier t (c_style_color r)) frame.
Proof.
  unfold sku_frame. unfold_result.
  repeat match goal with
         | |- context [require_col ?c ?n] =>
             destruct (require_col_cases c n) as [-> | [-> _]];
             [| discriminate]
         end.
  intros [= <-]. apply Forall_forall. intros r Hr.
  apply list_elem_of_In, in_flat_map in Hr as (g & _ & Hr).
  destruct (List.filter _ (l_rows lad)) as [|l ls].
  - destruct Hr as [<- | []]. reflexivity.
  - change (In r (map (joined_row t (groupby p_style_color (rows ytd)) lad g)
                       (l :: ls))) in Hr.
    apply in_map_iff in Hr as (l' & <- & _). reflexivity.
Qed.

Lemma lookup_tier_values (t : tiers) (k : cell) :
  _lookup_tier t k ∈ ["A"; "B"; "C"]%string.
Proof.
  unfold _lookup_tier.
  destruct (cell_in k (tier_A t)); [set_solver|].
  destruct (cell_in k (tier_B t)); [set_solver|].
  destruct (cell_in k (tier_C t)); set_solver.
Qed.

Lemma lookup_tier_init (k : cell) :
  _lookup_tier (tier_assignments init) k = "C"%string.
Proof.
  unfold _lookup_tier, cell_in. cbn [tier_assignments init tier_A tier_B tier_C].
  destruct k as [x|str|]; reflexivity.
Qed.

(** X6.  When [build_sku_master] succeeds it leaves the tier sets as
    they were and gives every record the tier looked up for its key, one
    of "A", "B" and "C".  With the tier sets of [__init__], which are
    empty, every record is of tier "C" while the three tier counts of
    the summary metrics are 0. *)
Theorem tier_of_every_record (sort_values : list sku_row -> list sku_row)
    (s s' : etl) :
  (forall l, sort_values l ≡ₚ l) ->
  build_sku_master sort_values s = Ok s' ->
  tier_assignments s' = tier_assignments s
  /\ Forall (fun r => tier r = _lookup_tier (tier_assignments s) (sku r)
                      /\ (tier r ∈ ["A"; "B"; "C"]%string))
            (sku_master s')
  /\ (tier_assignments s = tier_assignments init ->
      Forall (fun r => tier r = "C"%string) (sku_master s')
      /\ tier_a_count (calculate_summary_metrics s') = 0%nat
      /\ tier_b_count (calculate_summary_metrics s') = 0%nat
      /\ tier_c_count (calculate_summary_metrics s') = 0%nat).
Proof.
  intros Hperm. unfold build_sku_master.
  destruct (pos_lw s) as [lw|]; [|discriminate].
  destruct (ladder s) as [lad|]; [|discriminate].
  destruct (pos_ytd s) as [ytd|]; [|discriminate].
  destruct (sku_frame (tier_assignments s) lw ytd lad) as [frame|e] eqn:Hframe;
    unfold_result; [|discriminate].
  intros [= <-]. cbn [tier_assignments sku_master set_sku_master].
  assert (Hall : Forall (fun r => tier r = _lookup_tier (tier_assignments s) (sku r))
                        (sku_master_of sort_values frame)).
  { unfold sku_master_of. apply sku_loop_Forall. intros c row Hin.
    cbn [sku_record_of fst tier sku].
    pose proof (sku_frame_tiers _ _ _ _ _ Hframe) as Ht.
    rewrite Forall_forall in Ht. apply Ht. rewrite <- (Hperm frame). exact Hin. }
  split; [reflexivity|]. split.
  - eapply Forall_impl; [exact Hall|]. intros r Hr. simpl in Hr.
    split; [exact Hr|]. rewrite Hr. apply lookup_tier_values.
  - intros Hinit. split.
    + eapply Forall_impl; [exact Hall|]. intros r Hr. simpl in Hr.
      rewrite Hr, Hinit. apply lookup_tier_init.
    + unfold calculate_summary_metrics.
      cbn [tier_a_count tier_b_count tier_c_count tier_assignments set_sku_master].
      rewrite Hinit. cbn [tier_assignments init tier_A tier_B tier_C].
      repeat split; apply size_empty.
Qed.

Lemma tier_of_every_record_witness :
  exists s',
    build_sku_master sort_values_desc loaded = Ok s'
    /\ Forall (fun r => tier r = "C"%string) (sku_master s')
    /\ length (sku_master s') = 3%nat.
Proof.
  destruct (build_sku_master sort_values_desc loaded) as [s'|e] eqn:E.
  - exists s'. split; [reflexivity|].
    destruct (tier_of_every_record sort_values_desc loaded s'
                sort_values_desc_perm E) as (_ & _ & Hinit).
    split; [apply Hinit; reflexivity|].
    vm_compute in E. injection E as <-. reflexivity.
  - vm_compute in E. discriminate E.
Defined.

End SkuMasterShares.

(** ** Group-by, fineline rollup and weekly summary *)

Section GroupBy.

Import Etl Claims Notions Samples.

Lemma cell_eqb_refl (a : cell) : pd_isna a = false -> cell_eqb a a = true.
Proof.
  destruct a as [[x|]|str|]; simpl; try discriminate; intros _.
  - apply Qeq_bool_iff. reflexivity.
  - apply String.eqb_refl.
Qed.

Lemma cell_eqb_sym (a b : cell) : cell_eqb a b = cell_eqb b a.
Proof.
  destruct a as [[x|]|str|], b as [[y|]|str'|]; simpl; try reflexivity.
  - destruct (Qeq_bool x y) eqn:E, (Qeq_bool y x) eqn:E'; try reflexivity.
    + apply Qeq_bool_iff in E. symmetry in E. apply Qeq_bool_iff in E. congruence.
    + apply Qeq_bool_iff in E'. symmetry in E'. apply Qeq_bool_iff in E'. congruence.
  - apply String.eqb_sym.
Qed.

Lemma cell_eqb_trans (a b c : cell) :
  cell_eqb a b = true -> cell_eqb b c = true -> cell_eqb a c = true.
Proof.
  destruct a as [[x|]|s1|], b as [[y|]|s2|], c as [[z|]|s3|]; simpl;
    try discriminate.
  - intros H1 H2. apply Qeq_bool_iff in H1, H2. apply Qeq_bool_iff.
    rewrite H1. exact H2.
  - intros H1 H2. apply String.eqb_eq in H1, H2. subst. apply String.eqb_refl.
Qed.

Lemma string_ltb_trans (a b c : string) :
  String.ltb a b = true -> String.ltb b c = true -> String.ltb a c = true.
Proof.
  unfold String.ltb.
  destruct (String.compare a b) eqn:E1; try discriminate.
  destruct (String.compare b c) eqn:E2; try discriminate.
  intros _ _.
  apply OrderedTypeEx.String_as_OT.cmp_lt in E1, E2.
  pose proof (OrderedTypeEx.String_as_OT.lt_trans _ _ _ E1 E2) as H.
  apply OrderedTypeEx.String_as_OT.cmp_lt in H.
  unfold OrderedTypeEx.String_as_OT.cmp in H. rewrite H. reflexivity.
Qed.

Lemma cell_ltb_trans (a b c : cell) :
  key_lt a b -> key_lt b c -> key_lt a c.
Proof.
  unfold key_lt.
  destruct a as [[x|]|s1|], b as [[y|]|s2|], c as [[z|]|s3|]; simpl;
    try discriminate; try (intros; reflexivity).
  - intros H1 H2. apply Qltb_lt in H1, H2. apply Qltb_lt. lra.
  - apply string_ltb_trans.
Qed.

Lemma cell_ltb_not_eqb (a b : cell) : key_lt a b -> cell_eqb a b = false.
Proof.
  unfold key_lt.
  destruct a as [[x|]|s1|], b as [[y|]|s2|]; simpl; try discriminate;
    try (intros; reflexivity).
  - intros H. apply Qltb_lt in H.
    destruct (Qeq_bool x y) eqn:E; [|reflexivity].
    apply Qeq_bool_iff in E. lra.
  - unfold String.ltb. intros H.
    destruct (String.eqb s1 s2) eqn:E; [|reflexivity].
    apply String.eqb_eq in E. subst s2.
    pose proof (String.compare_antisym s1 s1) as Ha.
    destruct (String.compare s1 s1); simpl in *; discriminate.
Qed.

(** Two keys that are present are equal or ordered. *)
Lemma cell_ltb_total (a b : cell) :
  pd_isna a = false -> pd_isna b = false ->
  cell_eqb a b = false -> cell_ltb a b = false -> key_lt b a.
Proof.
  unfold key_lt.
  destruct a as [[x|]|s1|], b as [[y|]|s2|]; simpl; try discriminate;
    try (intros; reflexivity).
  - intros _ _ He Hl. apply Qltb_lt.
    destruct (Qltb x y) eqn:E; [discriminate|]. apply Qltb_ge in E.
    destruct (Qeq_dec x y) as [Heq | Hne].
    + apply Qeq_bool_iff in Heq. congruence.
    + destruct (Qlt_le_dec y x) as [Hlt | Hle]; [exact Hlt|].
      exfalso. apply Hne. lra.
  - intros _ _ He Hl. unfold String.ltb in *.
    rewrite String.compare_antisym.
    destruct (String.compare s1 s2) eqn:E; try discriminate.
    + apply String.compare_eq_iff in E. subst s2.
      rewrite String.eqb_refl in He. discriminate.
    + reflexivity.
Qed.

(** The keys of a group-by come out in ascending order, so no two of
    them are equal. *)
Lemma insert_key_sorted (k : cell) (ks : list cell) :
  pd_isna k = false ->
  Forall (fun x => pd_isna x = false) ks ->
  StronglySorted key_lt ks ->
  StronglySorted key_lt (insert_key k ks).
Proof.
  intros Hk Hall Hs. induction Hs as [|h t Hs IH Hlt]; simpl.
  - constructor; constructor.
  - apply Forall_cons in Hall as [Hh Ht].
    destruct (cell_eqb k h) eqn:He; [constructor; assumption|].
    destruct (cell_ltb k h) eqn:Hl.
    + constructor; [constructor; assumption|].
      constructor; [exact Hl|].
      eapply Forall_impl; [exact Hlt|]. intros x Hx. simpl in Hx.
      apply (cell_ltb_trans k h x); assumption.
    + constructor; [apply IH, Ht|].
      apply insert_key_Forall; [|exact Hlt].
      apply cell_ltb_total; assumption.
Qed.

Lemma group_keys_sorted {A : Type} (key : A -> cell) (rs : list A) :
  StronglySorted key_lt (group_keys key rs).
Proof.
  pose proof (group_keys_present key rs) as Hp. revert Hp.
  unfold group_keys. induction rs as [|r rs IH]; simpl; [constructor|].
  destruct (pd_isna (key r)) eqn:E; simpl; [exact IH|].
  intros _. apply insert_key_sorted; [exact E | | apply IH];
    apply (group_keys_present key rs).
Qed.

(** Inserting a key extends the keys that are covered by that key. *)
Lemma insert_key_covered (k : cell) (ks : list cell) (x : cell) :
  covered (insert_key k ks) x = (cell_eqb x k || covered ks x)%bool.
Proof.
  induction ks as [|h t IH]; simpl; [reflexivity|].
  unfold covered in *. cbn [existsb insert_key].
  destruct (cell_eqb k h) eqn:He.
  - cbn [existsb]. destruct (cell_eqb x k) eqn:Hx; [|reflexivity].
    rewrite (cell_eqb_trans x k h Hx He). reflexivity.
  - destruct (cell_ltb k h); cbn [existsb]; [reflexivity|].
    rewrite IH. destruct (cell_eqb x h), (cell_eqb x k); reflexivity.
Qed.

Lemma filter_none {A : Type} (rs : list A) : List.filter (fun _ => false) rs = [].
Proof. induction rs as [|r rs IH]; [reflexivity | exact IH]. Qed.

(** The sums over two disjoint selections of rows add up to the sum
    over their union. *)
Lemma col_sum_split {A : Type} (f : A -> pyfloat) (p q : A -> bool) (rs : list A) :
  (forall r, p r = true -> q r = true -> False) ->
  col_sum f (List.filter p rs) + col_sum f (List.filter q rs)
  == col_sum f (List.filter (fun r => (p r || q r)%bool) rs).
Proof.
  intros Hdisj. induction rs as [|r rs IH]; simpl; [lra|].
  destruct (p r) eqn:Hp, (q r) eqn:Hq; simpl; try lra.
  exfalso. exact (Hdisj r Hp Hq).
Qed.

Lemma covered_elem (ks : list cell) (x : cell) :
  covered ks x = true -> exists k, In k ks /\ cell_eqb x k = true.
Proof. unfold covered. intros H. apply existsb_exists in H. exact H. Qed.

(** The groups of ascending keys split the rows the keys cover. *)
Lemma groups_sum {A : Type} (f : A -> pyfloat) (key : A -> cell)
    (ks : list cell) (rs : list A) :
  StronglySorted key_lt ks ->
  total (fun k => col_sum f (List.filter (fun r => cell_eqb (key r) k) rs)) ks
  == col_sum f (List.filter (fun r => covered ks (key r)) rs).
Proof.
  induction 1 as [|h t Hs IH Hlt]; unfold total in *; cbn [map foldr].
  - unfold covered. cbn [existsb]. rewrite filter_none. reflexivity.
  - rewrite IH. unfold covered at 2. cbn [existsb].
    apply col_sum_split. intros r Hh Ht.
    apply covered_elem in Ht as (k & Hin & Hk).
    rewrite Forall_forall in Hlt. apply list_elem_of_In in Hin.
    pose proof (cell_ltb_not_eqb h k (Hlt k Hin)) as Hne.
    rewrite cell_eqb_sym in Hh.
    rewrite (cell_eqb_trans h (key r) k Hh Hk) in Hne. discriminate.
Qed.

(** The keys of a group-by cover the keys of the rows that have one. *)
Lemma group_keys_covered {A : Type} (key : A -> cell) (rs : list A) (x : cell) :
  covered (group_keys key rs) x = existsb (fun r => cell_eqb x (key r)) rs.
Proof.
  unfold group_keys. induction rs as [|r rs IH]; [reflexivity|].
  cbn [map List.filter existsb].
  destruct (pd_isna (key r)) eqn:E; cbn [negb foldr].
  - rewrite IH. destruct (cell_eqb x (key r)) eqn:Hx; [|reflexivity].
    rewrite cell_eqb_sym in Hx. apply cell_eqb_present in Hx. congruence.
  - rewrite insert_key_covered, IH. reflexivity.
Qed.

Lemma group_keys_cover_rows {A : Type} (key : A -> cell) (rs : list A) (r : A) :
  In r rs -> covered (group_keys key rs) (key r) = negb (pd_isna (key r)).
Proof.
  intros Hin. rewrite group_keys_covered.
  destruct (pd_isna (key r)) eqn:E; cbn [negb].
  - apply not_true_is_false. intros H. apply existsb_exists in H as (r' & _ & H).
    apply cell_eqb_present in H. congruence.
  - apply existsb_exists. exists r. split; [exact Hin|].
    apply cell_eqb_refl, E.
Qed.

(** The sums of the groups add up to the sum over the rows that have a
    key. *)
Lemma groupby_total {A : Type} (f : A -> pyfloat) (key : A -> cell) (rs : list A) :
  total (fun g => col_sum f g.2) (groupby key rs) == col_sum f (with_key key rs).
Proof.
  unfold groupby, total. rewrite map_map. cbn [snd].
  pose proof (groups_sum f key (group_keys key rs) rs (group_keys_sorted key rs)) as H.
  unfold total in H. rewrite H. unfold with_key.
  rewrite (filter_ext_in (fun r => covered (group_keys key rs) (key r))
                         (fun r => negb (pd_isna (key r)))); [reflexivity|].
  intros r Hr. apply group_keys_cover_rows, Hr.
Qed.

(** Every key of a group-by is the key of a row. *)
Lemma group_keys_from_rows {A : Type} (key : A -> cell) (rs : list A) :
  Forall (fun k => exists r, In r rs /\ key r = k) (group_keys key rs).
Proof.
  unfold group_keys. induction rs as [|r rs IH]; simpl; [constructor|].
  assert (IH' : Forall (fun k => exists r', In r' (r :: rs) /\ key r' = k)
                       (foldr insert_key []
                          (List.filter (fun k => negb (pd_isna k)) (map key rs)))).
  { eapply Forall_impl; [exact IH|]. intros k (r' & Hin & Hk).
    exists r'. split; [right; exact Hin | exact Hk]. }
  destruct (pd_isna (key r)); simpl; [exact IH'|].
  apply insert_key_Forall; [|exact IH'].
  exists r. split; [left; reflexivity | reflexivity].
Qed.

Lemma total_fineline (f : pos_row -> pyfloat) (field : fineline_record -> Q)
    (groups : list (cell * list pos_row)) :
  (forall g, field (fineline_record_of g) = col_sum f g.2) ->
  total field (map fineline_record_of groups)
  = total (fun g => col_sum f g.2) groups.
Proof.
  intros H. unfold total. rewrite map_map. f_equal. apply map_ext. exact H.
Qed.

(** X7.  A fineline rollup that succeeds has its records in strictly
    ascending order of fineline, hence no two for one fineline; every
    record is keyed by the fineline of a store row and every store row
    that has a fineline is covered by a record; and each of the eight
    measures adds up, over the records, to the column total over the
    store rows that have a fineline. *)
Theorem fineline_rollup_partitions (df : pos_table) (out : list fineline_record) :
  fineline_rollup_of df = Ok out ->
  StronglySorted (fun a b => key_lt (fl_fineline a) (fl_fineline b)) out
  /\ Forall (fun rec => exists r, In r (rows df) /\ p_fineline r = fl_fineline rec) out
  /\ (forall r, In r (rows df) -> pd_isna (p_fineline r) = false ->
       exists rec, In rec out /\ cell_eqb (p_fineline r) (fl_fineline rec) = true)
  /\ (let present := with_key p_fineline (rows df) in
      total fl_sales_units_lw out == col_sum p_sales_units_lw present
      /\ total fl_sales_units_lwly out == col_sum p_sales_units_lwly present
      /\ total fl_sales_dollars_lw out == col_sum p_sales_dollars_lw present
      /\ total fl_sales_dollars_lwly out == col_sum p_sales_dollars_lwly present
      /\ total fl_inventory_units_lw out == col_sum p_inventory_units_lw present
      /\ total fl_inventory_dollars_lw out == col_sum p_inventory_dollars_lw present
      /\ total fl_sales_units_ytd out == col_sum p_sales_units_ytd present
      /\ total fl_sales_dollars_ytd out == col_sum p_sales_dollars_ytd present).
Proof.
  unfold fineline_rollup_of.
  destruct (check_required _ _); unfold_result; [|discriminate].
  intros [= <-].
  assert (Hkeys : map fl_fineline (map fineline_record_of (groupby p_fineline (rows df)))
                  = group_keys p_fineline (rows df)).
  { unfold groupby. rewrite !map_map. cbn [fineline_record_of fl_fineline fst].
    apply map_id. }
  repeat apply conj.
  - apply StronglySorted_of_rel_map with (f := fl_fineline) (R := key_lt).
    rewrite Hkeys. apply group_keys_sorted.
  - pose proof (group_keys_from_rows p_fineline (rows df)) as H.
    rewrite <- Hkeys in H. rewrite Forall_forall in H. rewrite Forall_forall.
    intros rec Hrec. destruct (H (fl_fineline rec)) as (r & Hin & Hr).
    + apply list_elem_of_fmap. exists rec. split; [reflexivity | exact Hrec].
    + exists r. split; assumption.
  - intros r Hin Hp.
    pose proof (group_keys_cover_rows p_fineline (rows df) r Hin) as Hc.
    rewrite Hp in Hc. apply covered_elem in Hc as (k & Hk & He).
    rewrite <- Hkeys in Hk. apply in_map_iff in Hk as (rec & <- & Hrec).
    exists rec. split; assumption.
  - rewrite (total_fineline p_sales_units_lw); [apply groupby_total | reflexivity].
  - rewrite (total_fineline p_sales_units_lwly); [apply groupby_total | reflexivity].
  - rewrite (total_fineline p_sales_dollars_lw); [apply groupby_total | reflexivity].
  - rewrite (total_fineline p_sales_dollars_lwly); [apply groupby_total | reflexivity].
  - rewrite (total_fineline p_inventory_units_lw); [apply groupby_total | reflexivity].
  - rewrite (total_fineline p_inventory_dollars_lw); [apply groupby_total | reflexivity].
  - rewrite (total_fineline p_sales_units_ytd); [apply groupby_total | reflexivity].
  - rewrite (total_fineline p_sales_dollars_ytd); [apply groupby_total | reflexivity].
Qed.

Lemma fineline_rollup_partitions_witness :
  exists out,
    fineline_rollup_of pos_complete = Ok out
    /\ length out = 1%nat
    /\ total fl_sales_units_lw out == 50
    /\ total fl_sales_dollars_lw out == 600.
Proof.
  destruct (fineline_rollup_of pos_complete) as [out|e] eqn:E.
  - exists out. split; [reflexivity|].
    destruct (fineline_rollup_partitions pos_complete out E)
      as (_ & _ & _ & Hu & _ & Hd & _).
    split; [vm_compute in E; injection E as <-; reflexivity|].
    split; [rewrite Hu | rewrite Hd]; reflexivity.
  - vm_compute in E. discriminate E.
Defined.

Lemma col_sum_map {A : Type} (f : A -> pyfloat) (rs : list A) :
  col_sum id (map f rs) = col_sum f rs.
Proof.
  induction rs as [|r rs IH]; simpl; [reflexivity|]. rewrite IH. reflexivity.
Qed.

Lemma col_sum_by_key {A : Type} (f : A -> pyfloat) (key : A -> cell) (rs : list A) :
  col_sum f rs == col_sum f (with_key key rs) + col_sum f (without_key key rs).
Proof.
  unfold with_key, without_key.
  induction rs as [|r rs IH]; simpl; [lra|].
  destruct (pd_isna (key r)); simpl; lra.
Qed.

Lemma get_col_cases (df : pos_table) (name : string) (col : pos_row -> pyfloat) :
  (get_col df name col = Ok (map col (rows df)) /\ (name ∈ columns df))
  \/ (get_col df name col = Raise (KeyError name) /\ (name ∉ columns df)).
Proof.
  unfold get_col. case_bool_decide; [left | right]; auto.
Qed.

(** The summary raises on the first column it reads that the table
    lacks, and otherwise carries the column totals of the table. *)
Lemma weekly_summary_cases (df : pos_table) :
  match first_absent (columns df) weekly_cols with
  | Some c => weekly_summary_of df = Raise (KeyError c)
  | None =>
      exists w,
        weekly_summary_of df = Ok w
        /\ ws_sales_units_lw w = col_sum p_sales_units_lw (rows df)
        /\ ws_sales_units_lwly w = col_sum p_sales_units_lwly (rows df)
        /\ ws_sales_dollars_lw w = col_sum p_sales_dollars_lw (rows df)
        /\ ws_sales_dollars_lwly w = col_sum p_sales_dollars_lwly (rows df)
        /\ ws_inventory_units_lw w = col_sum p_inventory_units_lw (rows df)
        /\ ws_inventory_dollars_lw w = col_sum p_inventory_dollars_lw (rows df)
  end.
Proof.
  unfold weekly_summary_of, first_absent, weekly_cols, get_col. cbn [List.find].
  unfold_result.
  repeat (case_bool_decide; cbn [negb]; [|reflexivity]).
  eexists. split; [reflexivity|].
  cbn [ws_sales_units_lw ws_sales_units_lwly ws_sales_dollars_lw
       ws_sales_dollars_lwly ws_inventory_units_lw ws_inventory_dollars_lw
       _safe_float].
  rewrite !col_sum_map. repeat split.
Qed.

(** X8.  [build_weekly_sales_summary] raises a KeyError for the first of
    the six columns it reads that the table lacks, in the order it reads
    them; when the table has all six it succeeds, and each of its six
    totals is the column total over all store rows, a missing value
    counting for 0.0. *)
Theorem weekly_summary_reads_columns (df : pos_table) :
  match first_absent (columns df) weekly_cols with
  | Some c =>
      weekly_summary_of df = Raise (KeyError c)
      /\ (c ∈ weekly_cols) /\ (c ∉ columns df)
  | None =>
      (forall c, c ∈ weekly_cols -> c ∈ columns df)
      /\ exists w,
           weekly_summary_of df = Ok w
           /\ ws_sales_units_lw w = col_sum p_sales_units_lw (rows df)
           /\ ws_sales_units_lwly w = col_sum p_sales_units_lwly (rows df)
           /\ ws_sales_dollars_lw w = col_sum p_sales_dollars_lw (rows df)
           /\ ws_sales_dollars_lwly w = col_sum p_sales_dollars_lwly (rows df)
           /\ ws_inventory_units_lw w = col_sum p_inventory_units_lw (rows df)
           /\ ws_inventory_dollars_lw w = col_sum p_inventory_dollars_lw (rows df)
  end.
Proof.
  pose proof (weekly_summary_cases df) as H.
  destruct (first_absent (columns df) weekly_cols) as [c|] eqn:E.
  - split; [exact H|]. unfold first_absent in E.
    apply find_some in E as [Hin Hc]. split; [apply list_elem_of_In, Hin|].
    apply negb_true_iff in Hc. apply bool_decide_eq_false in Hc. exact Hc.
  - split; [|exact H]. intros c Hc. unfold first_absent in E.
    apply list_elem_of_In in Hc.
    pose proof (find_none _ _ E c Hc) as Hn. cbn beta in Hn.
    apply negb_false_iff, bool_decide_eq_true in Hn. exact Hn.
Qed.

(** X9.  Over one and the same table the weekly summary and the
    fineline rollup agree: each total of the summary is the sum of that
    measure over the records of the rollup plus the column total over the
    store rows without a fineline, which the rollup leaves out; when
    every store row has a fineline the two are equal. *)
Theorem weekly_summary_matches_rollup (df : pos_table)
    (out : list fineline_record) (w : weekly_summary_record) :
  fineline_rollup_of df = Ok out ->
  weekly_summary_of df = Ok w ->
  let rest := without_key p_fineline (rows df) in
  (ws_sales_units_lw w == total fl_sales_units_lw out + col_sum p_sales_units_lw rest
   /\ ws_sales_units_lwly w
      == total fl_sales_units_lwly out + col_sum p_sales_units_lwly rest
   /\ ws_sales_dollars_lw w
      == total fl_sales_dollars_lw out + col_sum p_sales_dollars_lw rest
   /\ ws_sales_dollars_lwly w
      == total fl_sales_dollars_lwly out + col_sum p_sales_dollars_lwly rest
   /\ ws_inventory_units_lw w
      == total fl_inventory_units_lw out + col_sum p_inventory_units_lw rest
   /\ ws_inventory_dollars_lw w
      == total fl_inventory_dollars_lw out + col_sum p_inventory_dollars_lw rest)
  /\ (rest = [] ->
      ws_sales_units_lw w == total fl_sales_units_lw out
      /\ ws_sales_dollars_lw w == total fl_sales_dollars_lw out
      /\ ws_inventory_units_lw w == total fl_inventory_units_lw out
      /\ ws_inventory_dollars_lw w == total fl_inventory_dollars_lw out).
Proof.
  intros Hroll Hweek rest.
  pose proof (weekly_summary_cases df) as Hw.
  destruct (first_absent (columns df) weekly_cols); [congruence|].
  destruct Hw as (w' & Ew & H1 & H2 & H3 & H4 & H5 & H6).
  rewrite Hweek in Ew. injection Ew as <-.
  unfold fineline_rollup_of in Hroll.
  destruct (check_required _ _); unfold_result; [|discriminate].
  injection Hroll as <-.
  assert (Hsum : forall (f : pos_row -> pyfloat) (field : fineline_record -> Q),
             (forall g, field (fineline_record_of g) = col_sum f g.2) ->
             col_sum f (rows df)
             == total field (map fineline_record_of (groupby p_fineline (rows df)))
                + col_sum f rest).
  { intros f field Hf. rewrite (total_fineline f field _ Hf), groupby_total.
    apply col_sum_by_key. }
  assert (A1 := Hsum p_sales_units_lw fl_sales_units_lw (fun _ => eq_refl)).
  assert (A2 := Hsum p_sales_units_lwly fl_sales_units_lwly (fun _ => eq_refl)).
  assert (A3 := Hsum p_sales_dollars_lw fl_sales_dollars_lw (fun _ => eq_refl)).
  assert (A4 := Hsum p_sales_dollars_lwly fl_sales_dollars_lwly (fun _ => eq_refl)).
  assert (A5 := Hsum p_inventory_units_lw fl_inventory_units_lw (fun _ => eq_refl)).
  assert (A6 := Hsum p_inventory_dollars_lw fl_inventory_dollars_lw (fun _ => eq_refl)).
  rewrite H1, H2, H3, H4, H5, H6.
  split; [repeat split; assumption|].
  intros Hrest. rewrite Hrest in A1, A3, A5, A6. cbn [col_sum foldr] in A1, A3, A5, A6.
  repeat split; [rewrite A1 | rewrite A3 | rewrite A5 | rewrite A6]; ring.
Qed.

Lemma weekly_summary_matches_rollup_witness :
  exists out w,
    fineline_rollup_of pos_complete = Ok out
    /\ weekly_summary_of pos_complete = Ok w
    /\ ws_sales_units_lw w == total fl_sales_units_lw out + 5
    /\ ws_sales_units_lw w == 55.
Proof.
  destruct (fineline_rollup_of pos_complete) as [out|e] eqn:E;
    [|vm_compute in E; discriminate E].
  destruct (weekly_summary_of pos_complete) as [w|e] eqn:E';
    [|vm_compute in E'; discriminate E'].
  exists out, w. split; [reflexivity|]. split; [reflexivity|].
  destruct (weekly_summary_matches_rollup pos_complete out w E E')
    as ((Hu & _) & _).
  split; [exact Hu|].
  vm_compute in E'. injection E' as <-. reflexivity.
Defined.

Lemma check_required_present (cols required : list string) :
  (forall c, c ∈ required -> c ∈ cols) -> check_required cols required = Ok tt.
Proof.
  induction required as [|c rest IH]; intros Hall; [reflexivity|].
  cbn [check_required]. rewrite bool_decide_eq_true_2.
  - apply IH. intros c' Hc'. apply Hall, elem_of_cons. right. exact Hc'.
  - apply Hall, elem_of_cons. left. reflexivity.
Qed.

(** X10.  The fineline rollup strips the blanks around the headers of
    its copy of the table before it looks for its columns, the weekly
    summary does not: over a table that has the required columns only
    under padded headers the rollup succeeds and the summary raises a
    KeyError for the first column it reads. *)
Theorem padded_headers_split_rollups (df : pos_table) :
  (forall c, c ∈ required_cols -> c ∈ map strip (columns df)) ->
  (forall c, c ∈ weekly_cols -> c ∉ columns df) ->
  fineline_rollup_of df = Ok (map fineline_record_of (groupby p_fineline (rows df)))
  /\ weekly_summary_of df = Raise (KeyError "Sales Units LW").
Proof.
  intros Hreq Hweek. split.
  - unfold fineline_rollup_of. rewrite (check_required_present _ _ Hreq).
    reflexivity.
  - pose proof (weekly_summary_cases df) as H.
    unfold first_absent, weekly_cols in H. cbn [List.find] in H.
    rewrite bool_decide_eq_false_2 in H; [exact H|].
    apply Hweek. unfold weekly_cols. set_solver.
Qed.

Lemma padded_headers_split_rollups_witness :
  (exists out, fineline_rollup_of pos_padded = Ok out /\ length out = 1%nat)
  /\ weekly_summary_of pos_padded = Raise (KeyError "Sales Units LW").
Proof.
  assert (Hreq : forall c, c ∈ required_cols -> c ∈ map strip (columns pos_padded)).
  { intros c Hc. apply list_elem_of_In. apply list_elem_of_In in Hc.
    vm_compute in Hc. vm_compute. tauto. }
  assert (Hweek : forall c, c ∈ weekly_cols -> c ∉ columns pos_padded).
  { intros c Hc Hin. apply list_elem_of_In in Hc, Hin.
    vm_compute in Hc, Hin.
    repeat (destruct Hc as [<- | Hc];
            [repeat (destruct Hin as [Hin | Hin]; [discriminate Hin|]);
             exact Hin|]).
    exact Hc. }
  destruct (padded_headers_split_rollups pos_padded Hreq Hweek) as [Hroll Hw].
  split; [|exact Hw].
  eexists. split; [exact Hroll | reflexivity].
Defined.

End GroupBy.

(** ** The artifacts of a run *)

Section Artifacts.

Import Etl Claims Notions Samples.

(** X11.  A run that returns [True] has gone through every stage: the
    three tables were set, the joins, the rollup and the summary
    succeeded, and the output directory holds exactly what they built
    under the six artifact names: the SKU master, the fineline rollup,
    the weekly summary, the seasonal-risk and action-item files as they
    were found (or the object's own lists when there were none) and the
    meta with the time of the build, the names of the source files and
    the metrics, among them the average of the SKU weeks of supply;
    every other file of the directory is left as it was. *)
Theorem successful_run_artifacts (sort_values : list sku_row -> list sku_row)
    (w : world) (s : etl) :
  success (run sort_values w s) = true ->
  let out := files (run sort_values w s) in
  failure_line (run sort_values w s) = None
  /\ pos_workbook w <> None
  /\ (exists lw ytd lad frame rollup summary m,
        pos_lw s = Some lw /\ pos_ytd s = Some ytd /\ ladder s = Some lad
        /\ sku_frame (tier_assignments s) lw ytd lad = Ok frame
        /\ fineline_rollup_of lw = Ok rollup
        /\ weekly_summary_of lw = Ok summary
        /\ out !! "sku_master.json"
           = Some (ASkuMaster (sku_master_of sort_values frame))
        /\ out !! "fineline_rollup.json" = Some (AFinelineRollup rollup)
        /\ out !! "weekly_sales_summary.json"
           = Some (AWeeklySummary (Some summary))
        /\ out !! "meta.json"
           = Some (AMeta (Some {| generated_at := utcnow w +:+ "Z";
                                  source_files := source_names w;
                                  meta_metrics := Some m |}))
        /\ (sku_master_of sort_values frame <> [] ->
            metrics_avg_wos m
            = total sku_wos (sku_master_of sort_values frame)
              / inject_Z (Z.of_nat (length (sku_master_of sort_values frame)))))
  /\ out !! "seasonal_risk.json"
     = Some (default (seasonal_risk s) (output_dir w !! "seasonal_risk.json"))
  /\ out !! "action_items.json"
     = Some (default (action_items s) (output_dir w !! "action_items.json"))
  /\ (forall name, name ∉ artifact_names -> out !! name = output_dir w !! name).
Proof.
  intros Hs out. unfold out. clear out. revert Hs. unfold run.
  destruct (stages sort_values w s) as [s'|e] eqn:E; [|discriminate].
  intros _. cbn [files failure_line].
  unfold stages, load_pos_data, load_ladder_data in E.
  destruct (pos_workbook w) as [df|] eqn:Hbook; [|discriminate].
  unfold_result. unfold build_sku_master in E.
  cbn [pos_lw ladder pos_ytd tier_assignments set_velocity_raw set_pos_ytd_df] in E.
  destruct (pos_lw s) as [lw|] eqn:Hlw; [|discriminate].
  destruct (ladder s) as [lad|] eqn:Hlad; [|discriminate].
  destruct (pos_ytd s) as [ytd|] eqn:Hytd; [|discriminate].
  destruct (sku_frame (tier_assignments s) lw ytd lad) as [frame|] eqn:Hframe;
    unfold_result; [|discriminate].
  unfold build_fineline_rollup in E.
  cbn [pos_lw set_sku_master set_velocity_raw set_pos_ytd_df] in E.
  rewrite Hlw in E.
  destruct (fineline_rollup_of lw) as [rollup|] eqn:Hroll;
    unfold_result; [|discriminate].
  unfold build_weekly_sales_summary in E.
  cbn [pos_lw set_fineline_rollup set_sku_master set_velocity_raw set_pos_ytd_df] in E.
  rewrite Hlw in E.
  destruct (weekly_summary_of lw) as [summary|] eqn:Hweek;
    unfold_result; [|discriminate].
  unfold load_seasonal_risk_and_actions, build_meta in E.
  injection E as <-.
  cbn [meta metrics action_items seasonal_risk weekly_summary fineline_rollup
       sku_master set_meta set_metrics set_risk_and_actions set_weekly_summary
       set_fineline_rollup set_sku_master set_velocity_raw set_pos_ytd_df].
  unfold _save_json.
  split; [reflexivity|]. split; [discriminate|]. split.
  - exists lw, ytd, lad, frame, rollup, summary. eexists.
    do 6 (split; [first [reflexivity | assumption]|]).
    split; [simplify_map_eq; reflexivity|].
    split; [simplify_map_eq; reflexivity|].
    split; [simplify_map_eq; reflexivity|].
    split; [simplify_map_eq; reflexivity|].
    intros Hne. unfold calculate_summary_metrics.
    cbn [metrics_avg_wos sku_master set_risk_and_actions set_weekly_summary
         set_fineline_rollup set_sku_master].
    unfold total. rewrite length_map.
    destruct (sku_master_of sort_values frame); [congruence | reflexivity].
  - split; [simplify_map_eq; reflexivity|].
    split; [simplify_map_eq; reflexivity|].
    intros name Hname. unfold artifact_names in Hname.
    rewrite !lookup_insert_ne; [reflexivity|..]; intros <-; apply Hname; set_solver.
Qed.

Lemma successful_run_artifacts_witness :
  success (run sort_values_desc world_complete loaded) = true
  /\ files (run sort_values_desc world_complete loaded) !! "seasonal_risk.json"
     = Some (AOpaque "[1]")
  /\ files (run sort_values_desc world_complete loaded) !! "index.html"
     = Some (AOpaque "<html>").
Proof.
  assert (H : success (run sort_values_desc world_complete loaded) = true).
  { vm_compute. reflexivity. }
  split; [exact H|].
  destruct (successful_run_artifacts sort_values_desc world_complete loaded H)
    as (_ & _ & _ & Hrisk & _ & Hother).
  split.
  - rewrite Hrisk. reflexivity.
  - rewrite Hother; [reflexivity|]. unfold artifact_names.
    intros Hin. apply list_elem_of_In in Hin. vm_compute in Hin.
    repeat (destruct Hin as [Hin | Hin]; [discriminate Hin|]). exact Hin.
Defined.

End Artifacts.

(** ** The style map of the velocity file *)

Section StyleMap.

Import Etl Velocity Claims Notions Samples.

Variable show_float : Q -> string.
Variable float_of_str : string -> result pyfloat.
Variable int_of_str : string -> result Z.

(** A record is filed under the key of its row, which is not empty. *)
Lemma map_row_key (row : gmap string cell) (k : string) (p : prime_item) :
  map_row show_float float_of_str int_of_str row = Ok (Some (k, p)) -> k = style_key show_float row /\ k <> ""%string.
Proof.
  unfold Velocity.map_row. fold (style_key show_float row).
  destruct (String.eqb (style_key show_float row) "") eqn:Hk; cbn [orb pd_isna];
    [discriminate|].
  apply String.eqb_neq in Hk. unfold_result.
  destruct (inv_units_and_wos row) as [[[[a b] c] d]|e]; [|discriminate].
  repeat match goal with
         | |- context [match ?x with Ok _ => _ | Raise _ => _ end] =>
             destruct x as [?|?]; [|discriminate]
         end.
  intros [= <- _]. split; [reflexivity | exact Hk].
Qed.

Lemma items_of_cons_some (k k' : string) (p : prime_item) rs :
  items_of k (Some (k', p) :: rs)
  = (if String.eqb k' k then [p] else []) ++ items_of k rs.
Proof. reflexivity. Qed.

(** What the loop adds to the map it starts from. *)
Lemma map_velocity_loop_ok (df : list (gmap string cell))
    (acc m : gmap string (list prime_item)) :
  map_velocity_loop show_float float_of_str int_of_str df acc = Ok m ->
  exists rs,
    Forall2 (fun row r => map_row show_float float_of_str int_of_str row = Ok r) df rs
    /\ forall k, m !! k = match items_of k rs with
                          | [] => acc !! k
                          | l => Some (default [] (acc !! k) ++ l)
                          end.
Proof.
  revert acc. induction df as [|row rest IH]; intros acc; cbn [Velocity.map_velocity_loop].
  - intros [= <-]. exists []. split; [constructor | reflexivity].
  - destruct (map_row show_float float_of_str int_of_str row) as [r|e] eqn:Hrow; unfold_result; [|discriminate].
    destruct r as [[sc p]|].
    + intros H. apply IH in H as (rs & Hall & Hm).
      exists (Some (sc, p) :: rs). split; [constructor; assumption|].
      intros k. rewrite Hm, items_of_cons_some.
      destruct (String.eqb sc k) eqn:Hk.
      * apply String.eqb_eq in Hk. subst k. rewrite lookup_insert_eq. cbn [default].
        destruct (items_of sc rs); cbn [app]; [reflexivity|].
        unfold id. rewrite <- app_assoc. reflexivity.
      * apply String.eqb_neq in Hk. rewrite lookup_insert_ne by exact Hk.
        reflexivity.
    + intros H. apply IH in H as (rs & Hall & Hm).
      exists (None :: rs). split; [constructor; assumption | exact Hm].
Qed.

(** The loop returns when the body returns on every row. *)
Lemma map_velocity_loop_total (df : list (gmap string cell))
    (rs : list (option (string * prime_item))) :
  Forall2 (fun row r => map_row show_float float_of_str int_of_str row = Ok r) df rs ->
  forall acc, exists m, map_velocity_loop show_float float_of_str int_of_str df acc = Ok m.
Proof.
  induction 1 as [|row r df rs Hrow _ IH]; intros acc;
    cbn [Velocity.map_velocity_loop].
  - eexists. reflexivity.
  - rewrite Hrow. unfold_result. destruct r as [[sc p]|]; apply IH.
Qed.

Lemma items_of_elem (k : string) rs (p : prime_item) :
  In p (items_of k rs) -> In (Some (k, p)) rs.
Proof.
  unfold items_of. intros H. apply in_flat_map in H as ([[k' q]|] & Hin & Hp);
    [|contradiction].
  destruct (String.eqb k' k) eqn:E; [|contradiction].
  apply String.eqb_eq in E. subst k'. destruct Hp as [<- | []]. exact Hin.
Qed.

(** X12.  [map_velocity_to_styles] returns a map exactly when the loop
    body returns on every row.  Under each key the map then holds the
    records of the rows that carry that key, in the order of the rows;
    no key is the empty string and no list is empty. *)
Theorem style_map_groups_rows (df : list (gmap string cell)) :
  (forall rs, Forall2 (fun row r => map_row show_float float_of_str int_of_str row = Ok r) df rs ->
              exists m, map_velocity_to_styles show_float float_of_str int_of_str df = Ok m)
  /\ (forall m, map_velocity_to_styles show_float float_of_str int_of_str df = Ok m ->
       exists rs,
         Forall2 (fun row r => map_row show_float float_of_str int_of_str row = Ok r) df rs
         /\ (forall k, m !! k = match items_of k rs with
                                | [] => None
                                | l => Some l
                                end)
         /\ (forall k items, m !! k = Some items ->
                             items <> [] /\ k <> ""%string
                             /\ exists row, In row df /\ style_key show_float row = k)).
Proof.
  split.
  - intros rs Hall. apply (map_velocity_loop_total df rs Hall).
  - intros m Hm. unfold Velocity.map_velocity_to_styles in Hm.
    apply map_velocity_loop_ok in Hm as (rs & Hall & Hlook).
    assert (Hlook' : forall k, m !! k = match items_of k rs with
                                        | [] => None
                                        | l => Some l
                                        end).
    { intros k. rewrite Hlook, lookup_empty. reflexivity. }
    exists rs. split; [exact Hall|]. split; [exact Hlook'|].
    intros k items Hk. rewrite Hlook' in Hk.
    destruct (items_of k rs) as [|p l] eqn:Hitems; [discriminate|].
    injection Hk as <-. split; [discriminate|].
    assert (Hin : In (Some (k, p)) rs).
    { apply items_of_elem. rewrite Hitems. left. reflexivity. }
    clear - Hall Hin. induction Hall as [|row r df rs Hrow _ IH]; [contradiction|].
    destruct Hin as [-> | Hin].
    + apply map_row_key in Hrow as [Hk Hne]. split; [exact Hne|].
      exists row. split; [left; reflexivity | symmetry; exact Hk].
    + destruct (IH Hin) as (Hne & row' & Hrow' & Hk).
      split; [exact Hne|]. exists row'. split; [right; exact Hrow' | exact Hk].
Qed.

(** A row with a key and a blank store count makes the body raise. *)
Lemma map_row_blank_stores (row : gmap string cell) :
  style_key show_float row <> ""%string ->
  get row "Curr Valid Stores" (CFloat (Fin 0)) = CFloat NaN ->
  (exists e, map_row show_float float_of_str int_of_str row = Raise e)
  /\ ((forall str, get row "LW POS Qty" (CFloat (Fin 0)) <> CStr str) ->
      (forall str, get row "Total LW Str Inv Retail" (CFloat (Fin 0)) <> CStr str) ->
      (forall str, get row "LW Avg Retail" (CFloat (Fin 0)) <> CStr str) ->
      map_row show_float float_of_str int_of_str row = Raise (ValueError "cannot convert float NaN to integer")).
Proof.
  intros Hk Hstores. apply String.eqb_neq in Hk.
  unfold Velocity.map_row. fold (style_key show_float row).
  rewrite Hk, Hstores. cbn [orb pd_isna cell_or cell_truthy f_truthy].
  split.
  - unfold_result.
    destruct (inv_units_and_wos row) as [[[[a b] c] d]|e]; [|eexists; reflexivity].
    destruct (py_float float_of_str a); [|eexists; reflexivity].
    destruct (py_float float_of_str c); [|eexists; reflexivity].
    destruct (py_float float_of_str b); [|eexists; reflexivity].
    destruct (py_float float_of_str d); [|eexists; reflexivity].
    eexists. reflexivity.
  - intros Hq Hr Ha. unfold inv_units_and_wos.
    set (qty := cell_or (get row "LW POS Qty" (CFloat (Fin 0))) (CFloat (Fin 0))).
    set (retail := cell_or (get row "Total LW Str Inv Retail" (CFloat (Fin 0)))
                           (CFloat (Fin 0))).
    set (avg := cell_or (get row "LW Avg Retail" (CFloat (Fin 0))) (CFloat (Fin 1))).
    assert (Nq : is_number qty) by (apply cell_or_number; [exact I | exact Hq]).
    assert (Nr : is_number retail) by (apply cell_or_number; [exact I | exact Hr]).
    assert (Na : is_number avg) by (apply cell_or_number; [exact I | exact Ha]).
    destruct (lw_inv_units_of_numbers retail avg Nr Na) as (u & Nu & ->).
    unfold_result.
    destruct (wos_of_numbers u qty Nu Nq) as (v & Nv & ->).
    destruct qty as [x1| |], retail as [x2| |], u as [x3| |], v as [x4| |];
      try contradiction.
    reflexivity.
Qed.

(** X13.  A row that has a style/color key and a blank 'Curr Valid
    Stores' cell stops the mapping: NaN is truthy, so [or 0] keeps it and
    [int] raises.  Whatever the other rows hold, no map is returned for a
    frame with such a row; when the three sales and inventory cells of
    the row are numbers or missing, the body raises the ValueError
    "cannot convert float NaN to integer". *)
Theorem blank_store_count_aborts (df : list (gmap string cell))
    (row : gmap string cell) :
  In row df ->
  style_key show_float row <> ""%string ->
  get row "Curr Valid Stores" (CFloat (Fin 0)) = CFloat NaN ->
  (exists e, map_velocity_to_styles show_float float_of_str int_of_str df = Raise e)
  /\ ((forall str, get row "LW POS Qty" (CFloat (Fin 0)) <> CStr str) ->
      (forall str, get row "Total LW Str Inv Retail" (CFloat (Fin 0)) <> CStr str) ->
      (forall str, get row "LW Avg Retail" (CFloat (Fin 0)) <> CStr str) ->
      map_row show_float float_of_str int_of_str row = Raise (ValueError "cannot convert float NaN to integer")
      /\ map_velocity_to_styles show_float float_of_str int_of_str [row]
         = Raise (ValueError "cannot convert float NaN to integer")).
Proof.
  intros Hin Hk Hstores.
  destruct (map_row_blank_stores row Hk Hstores) as [(e & He) Hexact].
  split.
  - destruct (map_velocity_to_styles show_float float_of_str int_of_str df) as [m|e'] eqn:Hm; [|eexists; reflexivity].
    exfalso. unfold Velocity.map_velocity_to_styles in Hm.
    apply map_velocity_loop_ok in Hm as (rs & Hall & _).
    clear - Hall Hin He. induction Hall as [|row' r df rs Hrow _ IH]; [contradiction|].
    destruct Hin as [-> | Hin]; [congruence | exact (IH Hin)].
  - intros Hq Hr Ha. specialize (Hexact Hq Hr Ha). split; [exact Hexact|].
    unfold Velocity.map_velocity_to_styles. cbn [Velocity.map_velocity_loop].
    rewrite Hexact. reflexivity.
Qed.

End StyleMap.

Section StyleMapSamples.

Import Etl Velocity Claims Notions Samples.

Lemma blank_store_count_aborts_witness :
  exists e,
    map_velocity_to_styles (fun _ => "0"%string)
      (fun _ => Raise (ValueError "could not convert string to float"))
      (fun _ => Raise (ValueError "invalid literal for int()"))
      [row_complete; row_blank_stores]
    = Raise e.
Proof.
  apply (blank_store_count_aborts (fun _ => "0"%string)
           (fun _ => Raise (ValueError "could not convert string to float"))
           (fun _ => Raise (ValueError "invalid literal for int()"))
           [row_complete; row_blank_stores] row_blank_stores).
  - right. left. reflexivity.
  - vm_compute. discriminate.
  - reflexivity.
Defined.

End StyleMapSamples.

(** ** The size analysis and what follows from it *)

Section SizeAnalysis.

Import Etl Velocity Claims Notions Samples.

(** The fields of the aggregate, the average spelled out. *)
Lemma size_analysis_of_fields (ps : list prime_item) :
  exists a,
    size_analysis_of ps = Ok a
    /\ total_prime_items a = length ps
    /\ active_items a
       = length (List.filter (fun p => String.eqb (item_status p) "A") ps)
    /\ productive_sizes a = length (List.filter is_productive ps)
    /\ dead_sizes a = length (List.filter is_dead ps)
    /\ size_efficiency_pct a
       = (if (0 <? length ps)%nat
          then py_round (nat_Q (length (List.filter is_productive ps))
                         / nat_Q (length ps) * 100) 1
          else 0)
    /\ avg_wos a
       = py_round (match wos_values_of ps with
                   | [] => 0
                   | w :: ws => foldr Qplus 0 (w :: ws) / nat_Q (length (w :: ws))
                   end) 1
    /\ max_wos a
       = py_round (match wos_values_of ps with
                   | [] => 0 | x :: xs => max_of x xs end) 1
    /\ min_wos a
       = py_round (match wos_values_of ps with
                   | [] => 0 | x :: xs => min_of x xs end) 1.
Proof.
  unfold size_analysis_of. unfold_result.
  destruct (wos_values_of ps) as [|w ws] eqn:Ew.
  - destruct (0 <? length ps)%nat eqn:El.
    + unfold q_div. rewrite nat_Q_nonzero; [|apply Nat.ltb_lt in El; lia].
      eexists. split; [reflexivity|]. repeat split.
    + eexists. split; [reflexivity|]. repeat split.
  - unfold q_div at 1. rewrite nat_Q_nonzero; [|discriminate].
    destruct (0 <? length ps)%nat eqn:El.
    + unfold q_div. rewrite nat_Q_nonzero; [|apply Nat.ltb_lt in El; lia].
      eexists. split; [reflexivity|]. repeat split.
    + eexists. split; [reflexivity|]. repeat split.
Qed.

Lemma productive_not_dead (p : prime_item) :
  is_productive p = true -> is_dead p = false.
Proof.
  unfold is_productive, is_dead, f_gt, f_lt, f_eq.
  destruct (lw_pos_qty p) as [q|], (wos p) as [w|]; cbn [andb];
    try discriminate; try (rewrite andb_false_r; discriminate).
  intros H. apply andb_true_iff in H as [Hq Hw].
  apply Qltb_lt in Hq, Hw.
  assert (E1 : Qltb 30 w = false).
  { destruct (Qltb 30 w) eqn:E; [|reflexivity]. apply Qltb_lt in E. lra. }
  assert (E2 : Qeq_bool q 0 = false).
  { destruct (Qeq_bool q 0) eqn:E; [|reflexivity]. apply Qeq_bool_iff in E. lra. }
  rewrite E1, E2. reflexivity.
Qed.

Lemma count_le {A : Type} (a : A -> bool) (l : list A) :
  (length (List.filter a l) <= length l)%nat.
Proof.
  induction l as [|x l IH]; [reflexivity|]. cbn [List.filter].
  destruct (a x); cbn [length]; lia.
Qed.

Lemma count_disjoint {A : Type} (a b : A -> bool) (l : list A) :
  (forall x, a x = true -> b x = false) ->
  (length (List.filter a l) + length (List.filter b l) <= length l)%nat.
Proof.
  intros Hab. induction l as [|x l IH]; [reflexivity|]. cbn [List.filter].
  destruct (a x) eqn:Ha.
  - rewrite (Hab x Ha). cbn [length]. lia.
  - destruct (b x); cbn [length]; lia.
Qed.

Lemma nat_Q_le (n m : nat) : (n <= m)%nat -> nat_Q n <= nat_Q m.
Proof. intros H. unfold nat_Q, Qle. simpl. lia. Qed.

Lemma nat_Q_pos (n : nat) : (0 < n)%nat -> 0 < nat_Q n.
Proof. intros H. unfold nat_Q, Qlt. simpl. lia. Qed.

(** The efficiency of [p] productive sizes out of [t]. *)
Lemma efficiency_bounds (p t : nat) :
  (p <= t)%nat -> (0 < t)%nat ->
  0 <= py_round (nat_Q p / nat_Q t * 100) 1
  /\ py_round (nat_Q p / nat_Q t * 100) 1 <= 100
  /\ (p = 0%nat -> py_round (nat_Q p / nat_Q t * 100) 1 == 0)
  /\ (p = t -> py_round (nat_Q p / nat_Q t * 100) 1 == 100).
Proof.
  intros Hpt Ht.
  pose proof (nat_Q_pos t Ht) as Htq.
  pose proof (nat_Q_le 0 p ltac:(lia)) as Hp0.
  pose proof (nat_Q_le p t Hpt) as Hpq.
  change (nat_Q 0) with 0 in Hp0.
  assert (H0 : 0 <= nat_Q p / nat_Q t) by (apply ratio_nonneg; assumption).
  assert (H1 : nat_Q p / nat_Q t <= 1) by (apply ratio_le_one; assumption).
  repeat apply conj.
  - apply py_round_nonneg. lra.
  - apply Qle_trans with (py_round 100 1); [apply py_round_mono; lra|].
    vm_compute. discriminate.
  - intros ->. rewrite (py_round_comp (nat_Q 0 / nat_Q t * 100) 0).
    + reflexivity.
    + change (nat_Q 0) with 0. unfold Qdiv. ring.
  - intros ->. rewrite (py_round_comp (nat_Q t / nat_Q t * 100) 100).
    + reflexivity.
    + field. lra.
Qed.

(** X14.  Whatever the sizes of a SKU, the size analysis is produced and
    its counts are consistent: no size is counted both productive and
    dead, so productive and dead sizes together do not exceed the total,
    nor do the active ones; the efficiency lies between 0 and 100, is 0.0
    when no size is productive and 100.0 when every size is. *)
Theorem size_analysis_invariants (ps : list prime_item) :
  exists a,
    size_analysis_of ps = Ok a
    /\ (productive_sizes a + dead_sizes a <= total_prime_items a)%nat
    /\ (active_items a <= total_prime_items a)%nat
    /\ 0 <= size_efficiency_pct a
    /\ size_efficiency_pct a <= 100
    /\ (productive_sizes a = 0%nat -> size_efficiency_pct a == 0)
    /\ (ps <> [] -> productive_sizes a = total_prime_items a ->
        size_efficiency_pct a == 100)
    /\ (ps <> [] -> dead_sizes a = total_prime_items a ->
        size_efficiency_pct a == 0).
Proof.
  destruct (size_analysis_of_fields ps)
    as (a & Ha & Ht & Hact & Hp & Hd & He & _).
  exists a. split; [exact Ha|].
  pose proof (count_disjoint is_productive is_dead ps productive_not_dead) as Hpd.
  pose proof (count_le is_productive ps) as Hple.
  rewrite Ht, Hact, Hp, Hd, He.
  split; [exact Hpd|]. split; [apply count_le|].
  destruct (0 <? length ps)%nat eqn:El.
  - apply Nat.ltb_lt in El.
    destruct (efficiency_bounds _ _ Hple El) as (B0 & B1 & Bz & Bf).
    repeat split; try assumption.
    + intros _. exact Bf.
    + intros _ Hdead. apply Bz. lia.
  - apply Nat.ltb_ge in El.
    repeat split; try lra; try reflexivity.
    intros Hne. destruct ps; [congruence | simpl in El; lia].
Qed.

Lemma max_of_spec (x : Q) (xs : list Q) :
  x <= max_of x xs /\ Forall (fun y => y <= max_of x xs) xs.
Proof.
  unfold max_of. revert x. induction xs as [|z zs IH]; intros x; simpl.
  - split; [lra | constructor].
  - destruct (IH (if Qltb x z then z else x)) as [Hm Hall].
    destruct (Qltb x z) eqn:E.
    + apply Qltb_lt in E. split; [lra|]. constructor; assumption.
    + apply Qltb_ge in E. split; [exact Hm|]. constructor; [lra | exact Hall].
Qed.

Lemma min_of_spec (x : Q) (xs : list Q) :
  min_of x xs <= x /\ Forall (fun y => min_of x xs <= y) xs.
Proof.
  unfold min_of. revert x. induction xs as [|z zs IH]; intros x; simpl.
  - split; [lra | constructor].
  - destruct (IH (if Qltb z x then z else x)) as [Hm Hall].
    destruct (Qltb z x) eqn:E.
    + apply Qltb_lt in E. split; [lra|]. constructor; assumption.
    + apply Qltb_ge in E. split; [exact Hm|]. constructor; [lra | exact Hall].
Qed.

(** The minimum of positive values is positive. *)
Lemma min_of_pos (x : Q) (xs : list Q) :
  0 < x -> Forall (fun y => 0 < y) xs -> 0 < min_of x xs.
Proof.
  unfold min_of. intros Hx Hall. revert x Hx.
  induction Hall as [|z zs Hz _ IH]; intros x Hx; simpl; [exact Hx|].
  apply IH. destruct (Qltb z x); assumption.
Qed.

Lemma nat_Q_S (n : nat) : nat_Q (S n) == nat_Q n + 1.
Proof. unfold nat_Q. rewrite Nat2Z.inj_succ, <- Z.add_1_r, inject_Z_plus. reflexivity. Qed.

Lemma sum_bounds (lo hi : Q) (l : list Q) :
  Forall (fun y => lo <= y /\ y <= hi) l ->
  lo * nat_Q (length l) <= foldr Qplus 0 l
  /\ foldr Qplus 0 l <= hi * nat_Q (length l).
Proof.
  induction 1 as [|y l [Hlo Hhi] _ [IHlo IHhi]]; cbn [length foldr].
  - change (nat_Q 0) with 0. lra.
  - rewrite nat_Q_S. lra.
Qed.

(** The mean of a non-empty list lies between its bounds. *)
Lemma mean_bounds (lo hi : Q) (l : list Q) :
  l <> [] ->
  Forall (fun y => lo <= y /\ y <= hi) l ->
  lo <= foldr Qplus 0 l / nat_Q (length l)
  /\ foldr Qplus 0 l / nat_Q (length l) <= hi.
Proof.
  intros Hne Hall. destruct (sum_bounds lo hi l Hall) as [Hlo Hhi].
  assert (Hn : 0 < nat_Q (length l)).
  { apply nat_Q_pos. destruct l; [congruence | simpl; lia]. }
  split.
  - apply Qle_shift_div_l; assumption.
  - apply Qle_shift_div_r; assumption.
Qed.

Lemma wos_values_pos (ps : list prime_item) :
  Forall (fun q => 0 < q) (wos_values_of ps).
Proof.
  induction ps as [|p ps IH]; simpl; [constructor|].
  destruct (wos p) as [q|]; [|exact IH].
  destruct (Qltb 0 q) eqn:E; [|exact IH].
  apply Qltb_lt in E. constructor; assumption.
Qed.

Lemma wos_values_elem (ps : list prime_item) (p : prime_item) (q : Q) :
  In p ps -> wos p = Fin q -> 0 < q -> In q (wos_values_of ps).
Proof.
  intros Hin Hw Hq. induction ps as [|p' ps IH]; [contradiction|].
  cbn [wos_values_of]. destruct Hin as [-> | Hin].
  - rewrite Hw. apply Qltb_lt in Hq. rewrite Hq. left. reflexivity.
  - specialize (IH Hin). destruct (wos p') as [q'|]; [|exact IH].
    destruct (Qltb 0 q'); [right; exact IH | exact IH].
Qed.

(** X15.  The three WOS statistics of a size analysis are in order: 0 <=
    min_wos <= avg_wos <= max_wos; every size with a positive WOS lies
    between min_wos and max_wos once rounded to one decimal; and all
    three are 0.0 when no size has a positive WOS. *)
Theorem wos_statistics_ordered (ps : list prime_item) :
  exists a,
    size_analysis_of ps = Ok a
    /\ 0 <= min_wos a
    /\ min_wos a <= avg_wos a
    /\ avg_wos a <= max_wos a
    /\ (forall p q, In p ps -> wos p = Fin q -> 0 < q ->
                    min_wos a <= py_round q 1 /\ py_round q 1 <= max_wos a)
    /\ ((forall p q, In p ps -> wos p = Fin q -> ~ 0 < q) ->
        min_wos a == 0 /\ avg_wos a == 0 /\ max_wos a == 0).
Proof.
  destruct (size_analysis_of_fields ps)
    as (a & Ha & _ & _ & _ & _ & _ & Havg & Hmax & Hmin).
  exists a. split; [exact Ha|].
  rewrite Havg, Hmax, Hmin.
  pose proof (wos_values_pos ps) as Hpos.
  pose proof (wos_values_elem ps) as Helem.
  destruct (wos_values_of ps) as [|w ws] eqn:Ew.
  - repeat split; try (vm_compute; discriminate); try reflexivity.
    + exfalso. exact (Helem p q H H0 H1).
    + exfalso. exact (Helem p q H H0 H1).
  - apply Forall_cons in Hpos as [Hw Hws].
    destruct (max_of_spec w ws) as [Hmw Hmws].
    destruct (min_of_spec w ws) as [Hnw Hnws].
    assert (Hall : Forall (fun y => min_of w ws <= y /\ y <= max_of w ws) (w :: ws)).
    { constructor; [split; assumption|].
      rewrite Forall_forall in Hmws, Hnws. apply Forall_forall.
      intros y Hy. split; [apply Hnws, Hy | apply Hmws, Hy]. }
    destruct (mean_bounds _ _ (w :: ws) ltac:(discriminate) Hall) as [Hlo Hhi].
    repeat apply conj.
    + apply py_round_nonneg, Qlt_le_weak, min_of_pos; assumption.
    + apply py_round_mono, Hlo.
    + apply py_round_mono, Hhi.
    + intros p q Hin Hq Hqpos. specialize (Helem p q Hin Hq Hqpos).
      rewrite Forall_forall in Hall. apply list_elem_of_In in Helem.
      destruct (Hall q Helem) as [H1 H2].
      split; apply py_round_mono; assumption.
    + intros Hnone. exfalso.
      assert (Hin : In w (wos_values_of ps)) by (rewrite Ew; left; reflexivity).
      clear - Hin Hnone. induction ps as [|p ps IH]; [contradiction|].
      cbn [wos_values_of] in Hin.
      destruct (wos p) as [q|] eqn:Hq.
      * destruct (Qltb 0 q) eqn:E.
        -- apply Qltb_lt in E. exact (Hnone p q (or_introl eq_refl) Hq E).
        -- apply IH; [|exact Hin]. intros p' q' Hp'. apply Hnone. right. exact Hp'.
      * apply IH; [|exact Hin]. intros p' q' Hp'. apply Hnone. right. exact Hp'.
Qed.

(** The enrichment of a record: the record itself but for the three
    keys, and a fixed point of the enrichment. *)
Lemma enrich_sku_again (style_map : gmap string (list prime_item))
    (s s' : sku_record) :
  enrich_sku style_map s = Ok s' ->
  enrich_sku style_map s' = Ok s'
  /\ with_size_fields (store_count s') (sku_size_analysis s') (prime_items s') s = s'
  /\ store_count s' <> None.
Proof.
  intros H. destruct (lookup_code style_map (sku s)) as [ps|] eqn:Hl.
  - destruct (enrich_sku_some style_map s ps Hl) as (a & Ha & E).
    rewrite E in H. injection H as <-.
    split; [|split; [reflexivity | discriminate]].
    unfold enrich_sku. cbn [sku with_size_fields]. rewrite Hl, Ha. reflexivity.
  - rewrite (enrich_sku_none style_map s Hl) in H. injection H as <-.
    split; [|split; [reflexivity | discriminate]].
    unfold enrich_sku. cbn [sku with_size_fields]. rewrite Hl. reflexivity.
Qed.

Lemma enrich_master_of (style_map : gmap string (list prime_item))
    (l out : list sku_record) :
  Forall2 (fun s s' => enrich_sku style_map s = Ok s') l out ->
  enrich_sku_master_with_size_analysis l style_map = Ok out.
Proof.
  induction 1 as [|s s' l out Hs _ IH]; [reflexivity|].
  cbn [enrich_sku_master_with_size_analysis]. rewrite Hs. unfold_result.
  rewrite IH. reflexivity.
Qed.

Lemma enrich_master_inv (style_map : gmap string (list prime_item))
    (l out : list sku_record) :
  enrich_sku_master_with_size_analysis l style_map = Ok out ->
  Forall2 (fun s s' => enrich_sku style_map s = Ok s') l out.
Proof.
  intros H. destruct (enrich_total l style_map) as (out' & Hout & Hall).
  rewrite H in Hout. injection Hout as <-.
  eapply Forall2_impl; [exact Hall|]. intros s s' [Hs _]. exact Hs.
Qed.

(** X16.  The enrichment always returns, with one record per SKU in the
    order of the master; it changes nothing of a record but the three
    keys store_count, size_analysis and prime_items, always sets
    store_count, and is idempotent: enriching the enriched master again
    with the same map returns it unchanged. *)
Theorem enrichment_idempotent (sku_master : list sku_record)
    (style_map : gmap string (list prime_item)) :
  exists out,
    enrich_sku_master_with_size_analysis sku_master style_map = Ok out
    /\ enrich_sku_master_with_size_analysis out style_map = Ok out
    /\ length out = length sku_master
    /\ Forall2 (fun s s' =>
                  with_size_fields (store_count s') (sku_size_analysis s')
                                   (prime_items s') s = s'
                  /\ store_count s' <> None)
               sku_master out.
Proof.
  destruct (enrich_total sku_master style_map) as (out & Hout & Hall).
  exists out. split; [exact Hout|].
  assert (Hagain : Forall2 (fun s s' => enrich_sku style_map s = Ok s') out out
                   /\ Forall2 (fun s s' =>
                                 with_size_fields (store_count s') (sku_size_analysis s')
                                                  (prime_items s') s = s'
                                 /\ store_count s' <> None)
                              sku_master out).
  { clear Hout. induction Hall as [|s s' l out' [Hs _] _ [IH1 IH2]];
      [split; constructor|].
    destruct (enrich_sku_again style_map s s' Hs) as (H1 & H2 & H3).
    split; constructor; try assumption. split; assumption. }
  destruct Hagain as [H1 H2].
  split; [apply enrich_master_of, H1|].
  split; [symmetry; eapply Forall2_length; exact H2 | exact H2].
Qed.

(** The recommendations come from SKUs of the master that call for
    one. *)
Lemma recommendations_from (l : list sku_record) :
  Forall (fun r => exists s a,
                     In s l /\ sku_size_analysis s = Some a
                     /\ (0 < dead_sizes a)%nat /\ size_efficiency_pct a < 70
                     /\ r = recommendation_of s a)
         (generate_size_recommendations l)
  /\ (length (generate_size_recommendations l) <= length l)%nat.
Proof.
  unfold generate_size_recommendations.
  induction l as [|s l [IH1 IH2]]; cbn [recommendations_loop];
    [split; [constructor | reflexivity]|].
  assert (IH1' : Forall (fun r => exists s' a,
                           In s' (s :: l) /\ sku_size_analysis s' = Some a
                           /\ (0 < dead_sizes a)%nat /\ size_efficiency_pct a < 70
                           /\ r = recommendation_of s' a)
                        (recommendations_loop l [])).
  { eapply Forall_impl; [exact IH1|]. intros r (s' & a & Hin & H).
    exists s', a. split; [right; exact Hin | exact H]. }
  destruct (sku_size_analysis s) as [a|] eqn:Ha;
    [|split; [exact IH1' | cbn [length]; lia]].
  destruct ((0 <? dead_sizes a)%nat && Qltb (size_efficiency_pct a) 70)%bool eqn:E;
    [|split; [exact IH1' | cbn [length]; lia]].
  apply andb_true_iff in E as [Hd He].
  apply Nat.ltb_lt in Hd. apply Qltb_lt in He.
  rewrite recommendations_loop_acc. cbn [app]. split.
  - constructor; [|exact IH1'].
    exists s, a. split; [left; reflexivity|]. repeat split; assumption.
  - cbn [length]. lia.
Qed.

(** A master fresh out of [build_sku_master] carries no size analysis. *)
Lemma fresh_master (sort_values : list sku_row -> list sku_row)
    (sku_df : list sku_row) :
  Forall (fun s => sku_size_analysis s = None) (sku_master_of sort_values sku_df).
Proof.
  unfold sku_master_of. apply sku_loop_Forall. intros c row _. reflexivity.
Qed.

Lemma Forall2_In_r {A B : Type} (R : A -> B -> Prop) (l : list A) (l' : list B)
    (y : B) :
  Forall2 R l l' -> In y l' -> exists x, In x l /\ R x y.
Proof.
  induction 1 as [|a b l l' Hab _ IH]; [contradiction|].
  intros [<- | Hin].
  - exists a. split; [left; reflexivity | exact Hab].
  - destruct (IH Hin) as (x & Hx & Hxy). exists x. split; [right|]; assumption.
Qed.

(** A size analysis on a record enriched from a fresh one comes from the
    sizes the map holds for its key. *)
Lemma enriched_analysis (style_map : gmap string (list prime_item))
    (s s' : sku_record) (a : size_analysis) :
  sku_size_analysis s = None ->
  enrich_sku style_map s = Ok s' ->
  sku_size_analysis s' = Some a ->
  exists code ps,
    sku s' = CStr code /\ sku s = CStr code
    /\ style_map !! code = Some ps /\ size_analysis_of ps = Ok a.
Proof.
  intros Hnone Hs Ha.
  destruct (lookup_code style_map (sku s)) as [ps|] eqn:Hl.
  - destruct (enrich_sku_some style_map s ps Hl) as (a' & Ha' & E).
    rewrite E in Hs. injection Hs as <-.
    cbn [sku_size_analysis with_size_fields] in Ha. injection Ha as <-.
    unfold lookup_code in Hl. cbn [sku with_size_fields].
    destruct (sku s) as [x|code|]; try discriminate.
    exists code, ps. repeat split; assumption.
  - rewrite (enrich_sku_none style_map s Hl) in Hs. injection Hs as <-.
    cbn [sku_size_analysis with_size_fields] in Ha. congruence.
Qed.

(** X17.  Enrichment followed by recommendation, on a master fresh out
    of [build_sku_master]: every recommendation is for a SKU of the
    master whose key has sizes in the map; its total is the number of
    those sizes, its dead sizes are at least 1 and at most the total and
    number the sizes the dead rule selects, at least one of the sizes is
    not productive, and its efficiency lies in [0, 70).  There are no
    more recommendations than SKUs, and none when the map is empty. *)
Theorem recommendations_after_enrichment
    (sort_values : list sku_row -> list sku_row) (sku_df : list sku_row)
    (style_map : gmap string (list prime_item)) (out : list sku_record) :
  enrich_sku_master_with_size_analysis (sku_master_of sort_values sku_df) style_map
  = Ok out ->
  Forall (fun r => exists code ps,
                     rec_sku r = CStr code
                     /\ style_map !! code = Some ps
                     /\ In (rec_sku r) (map sku (sku_master_of sort_values sku_df))
                     /\ rec_total_sizes r = length ps
                     /\ rec_dead_sizes r = length (List.filter is_dead ps)
                     /\ (1 <= rec_dead_sizes r <= rec_total_sizes r)%nat
                     /\ (length (List.filter is_productive ps) < length ps)%nat
                     /\ 0 <= rec_size_efficiency_pct r
                     /\ rec_size_efficiency_pct r < 70)
         (generate_size_recommendations out)
  /\ (length (generate_size_recommendations out)
      <= length (sku_master_of sort_values sku_df))%nat
  /\ (style_map = ∅ -> generate_size_recommendations out = []).
Proof.
  intros Hout. apply enrich_master_inv in Hout.
  pose proof (fresh_master sort_values sku_df) as Hfresh.
  destruct (recommendations_from out) as [Hrecs Hlen].
  assert (Hmain : Forall (fun r => exists code ps,
                     rec_sku r = CStr code
                     /\ style_map !! code = Some ps
                     /\ In (rec_sku r) (map sku (sku_master_of sort_values sku_df))
                     /\ rec_total_sizes r = length ps
                     /\ rec_dead_sizes r = length (List.filter is_dead ps)
                     /\ (1 <= rec_dead_sizes r <= rec_total_sizes r)%nat
                     /\ (length (List.filter is_productive ps) < length ps)%nat
                     /\ 0 <= rec_size_efficiency_pct r
                     /\ rec_size_efficiency_pct r < 70)
         (generate_size_recommendations out)).
  { eapply Forall_impl; [exact Hrecs|].
    intros r (s' & a & Hin & Ha & Hdead & Heff & ->).
    destruct (Forall2_In_r _ _ _ _ Hout Hin) as (s0 & Hs0 & Henrich).
    rewrite Forall_forall in Hfresh.
    pose proof (Hfresh s0 (proj2 (list_elem_of_In _ _) Hs0)) as Hnone.
    destruct (enriched_analysis style_map s0 s' a Hnone Henrich Ha)
      as (code & ps & Hcode' & Hcode & Hps & Hana).
    destruct (size_analysis_of_fields ps)
      as (a' & Ha' & Ht & _ & Hp & Hd & He & _).
    rewrite Hana in Ha'. injection Ha' as <-.
    pose proof (count_disjoint is_productive is_dead ps productive_not_dead) as Hpd.
    pose proof (count_le is_dead ps) as Hdle.
    pose proof (count_le is_productive ps) as Hple.
    exists code, ps. cbn [recommendation_of rec_sku rec_total_sizes rec_dead_sizes
                         rec_size_efficiency_pct].
    split; [exact Hcode'|]. split; [exact Hps|].
    split; [rewrite Hcode', <- Hcode; apply in_map; exact Hs0|].
    split; [exact Ht|]. split; [exact Hd|].
    split; [rewrite Hd, Ht in *; lia|].
    split; [rewrite Hd in Hdead; lia|].
    split; [|exact Heff].
    rewrite He. destruct (0 <? length ps)%nat eqn:El; [|lra].
    apply Nat.ltb_lt in El.
    apply (efficiency_bounds _ _ Hple El). }
  split; [exact Hmain|]. split.
  - rewrite (Forall2_length _ _ _ Hout). exact Hlen.
  - intros ->. destruct (generate_size_recommendations out) as [|r rs];
      [reflexivity|].
    apply Forall_cons in Hmain as [(code & ps & _ & Hps & _) _].
    rewrite lookup_empty in Hps. discriminate.
Qed.

Lemma recommendations_after_enrichment_witness :
  exists out,
    enrich_sku_master_with_size_analysis
      (sku_master_of sort_values_desc frame_with_returns)
      (style_map_of "A1" sizes_two_over_30)
    = Ok out
    /\ (length (generate_size_recommendations out)
        <= length (sku_master_of sort_values_desc frame_with_returns))%nat
    /\ map rec_dead_sizes (generate_size_recommendations out) = [4%nat].
Proof.
  destruct (enrich_sku_master_with_size_analysis
              (sku_master_of sort_values_desc frame_with_returns)
              (style_map_of "A1" sizes_two_over_30)) as [out|e] eqn:E.
  - exists out. split; [reflexivity|].
    destruct (recommendations_after_enrichment sort_values_desc
                frame_with_returns (style_map_of "A1" sizes_two_over_30) out E)
      as (_ & Hlen & _).
    split; [exact Hlen|].
    vm_compute in E. injection E as <-. reflexivity.
  - vm_compute in E. discriminate E.
Defined.

End SizeAnalysis.

(** ** From the velocity rows to the size analysis *)

Section MappedSizes.

Import Etl Velocity Claims Notions Samples.

Variable show_float : Q -> string.
Variable float_of_str : string -> result pyfloat.
Variable int_of_str : string -> result Z.

(** The body skips a row only when its key is empty. *)
Lemma map_row_none (row : gmap string cell) :
  map_row show_float float_of_str int_of_str row = Ok None ->
  style_key show_float row = ""%string.
Proof.
  unfold Velocity.map_row. fold (style_key show_float row).
  destruct (String.eqb (style_key show_float row) "") eqn:Hk; cbn [orb pd_isna].
  - intros _. apply String.eqb_eq, Hk.
  - unfold_result.
    destruct (inv_units_and_wos row) as [[[[a b] c] d]|e]; [|discriminate].
    repeat match goal with
           | |- context [match ?x with Ok _ => _ | Raise _ => _ end] =>
               destruct x as [?|?]; [|discriminate]
           end.
    discriminate.
Qed.

(** The records filed under a key are as many as the rows that carry
    it. *)
Lemma items_of_count (df : list (gmap string cell))
    (rs : list (option (string * prime_item))) (k : string) :
  k <> ""%string ->
  Forall2 (fun row r => map_row show_float float_of_str int_of_str row = Ok r) df rs ->
  length (items_of k rs)
  = length (List.filter (fun row => String.eqb (style_key show_float row) k) df).
Proof.
  intros Hk. induction 1 as [|row r df rs Hrow _ IH]; [reflexivity|].
  cbn [List.filter]. destruct r as [[k' p]|].
  - rewrite items_of_cons_some.
    apply map_row_key in Hrow as [-> _].
    destruct (String.eqb (style_key show_float row) k); cbn [app length];
      rewrite IH; reflexivity.
  - apply map_row_none in Hrow. rewrite Hrow.
    assert (E : String.eqb "" k = false).
    { apply String.eqb_neq. intros <-. apply Hk. reflexivity. }
    rewrite E. exact IH.
Qed.

(** X18.  Mapping followed by enrichment: for a SKU whose key has an
    entry in the map built from the velocity frame, the size analysis
    counts exactly the rows of the frame that carry that key (after
    [str] and [strip]), at least one; the sizes are attached to the
    record; and store_count is the store count of one of these sizes and
    no smaller than that of any of them. *)
Theorem mapped_sizes_enrich (df : list (gmap string cell))
    (m : gmap string (list prime_item)) (s : sku_record)
    (code : string) (ps : list prime_item) :
  map_velocity_to_styles show_float float_of_str int_of_str df = Ok m ->
  sku s = CStr code ->
  m !! code = Some ps ->
  exists s' a n,
    enrich_sku m s = Ok s'
    /\ sku_size_analysis s' = Some a
    /\ prime_items s' = Some ps
    /\ store_count s' = Some n
    /\ total_prime_items a
       = length (List.filter
                   (fun row => String.eqb (style_key show_float row) code) df)
    /\ (1 <= total_prime_items a)%nat
    /\ (exists p, In p ps /\ curr_valid_stores p = n)
    /\ (forall p, In p ps -> (curr_valid_stores p <= n)%Z).
Proof.
  intros Hm Hsku Hps. unfold Velocity.map_velocity_to_styles in Hm.
  apply map_velocity_loop_ok in Hm as (rs & Hall & Hlook).
  specialize (Hlook code). rewrite Hps, lookup_empty in Hlook.
  destruct (items_of code rs) as [|p0 l0] eqn:Hitems; [discriminate|].
  cbn [default app] in Hlook. injection Hlook as ->.
  assert (Hcode : code <> ""%string).
  { assert (Hin : In (Some (code, p0)) rs).
    { apply items_of_elem. rewrite Hitems. left. reflexivity. }
    clear - Hall Hin. induction Hall as [|row r df rs Hrow _ IH]; [contradiction|].
    destruct Hin as [-> | Hin]; [|exact (IH Hin)].
    apply map_row_key in Hrow as [_ Hne]. exact Hne. }
  pose proof (items_of_count df rs code Hcode Hall) as Hcount.
  rewrite Hitems in Hcount.
  assert (Hl : lookup_code m (sku s) = Some (p0 :: l0)).
  { rewrite Hsku. exact Hps. }
  destruct (enrich_sku_some m s (p0 :: l0) Hl) as (a & Ha & E).
  destruct (size_analysis_of_fields (p0 :: l0)) as (a' & Ha' & Ht & _).
  rewrite Ha in Ha'. injection Ha' as <-.
  destruct (size_analysis_of_ok (p0 :: l0)) as (avg & Hok).
  rewrite Ha in Hok. injection Hok as Hok.
  assert (Hstores : total_stores a
                    = max_stores (curr_valid_stores p0) (map curr_valid_stores l0)).
  { rewrite Hok. reflexivity. }
  destruct (max_stores_spec (curr_valid_stores p0) (map curr_valid_stores l0))
    as [Hmax Hub].
  exists (with_size_fields (Some (total_stores a)) (Some a) (Some (p0 :: l0))
            (with_size_fields (Some 0%Z) (sku_size_analysis s) (prime_items s) s)),
         a, (total_stores a).
  split; [exact E|]. split; [reflexivity|]. split; [reflexivity|].
  split; [reflexivity|]. split; [rewrite Ht; exact Hcount|].
  split; [rewrite Ht; cbn [length]; lia|].
  rewrite Hstores. split.
  - change (curr_valid_stores p0 :: map curr_valid_stores l0)
      with (map curr_valid_stores (p0 :: l0)) in Hmax.
    apply list_elem_of_In, in_map_iff in Hmax as (p & Hp & Hin).
    exists p. split; assumption.
  - intros p Hin. apply Hub.
    change (curr_valid_stores p0 :: map curr_valid_stores l0)
      with (map curr_valid_stores (p0 :: l0)).
    apply list_elem_of_In, in_map, Hin.
Qed.

End MappedSizes.

Section MappedSizesSamples.

Import Etl Velocity Claims Notions Samples.

Lemma mapped_sizes_enrich_witness :
  exists s' a,
    enrich_sku
      (match map_velocity_to_styles (fun _ => "0"%string)
               (fun _ => Raise (ValueError "could not convert string to float"))
               (fun _ => Raise (ValueError "invalid literal for int()"))
               velocity_sample with
       | Ok m => m
       | Raise _ => ∅
       end)
      (sku_of_key "EU1939BK")
    = Ok s'
    /\ sku_size_analysis s' = Some a
    /\ total_prime_items a = 2%nat
    /\ store_count s' = Some 55%Z.
Proof.
  destruct (map_velocity_to_styles (fun _ => "0"%string)
              (fun _ => Raise (ValueError "could not convert string to float"))
              (fun _ => Raise (ValueError "invalid literal for int()"))
              velocity_sample) as [m|e] eqn:Hm;
    [|vm_compute in Hm; discriminate Hm].
  destruct (m !! "EU1939BK"%string) as [ps|] eqn:Hps;
    [|vm_compute in Hm; injection Hm as <-; vm_compute in Hps; discriminate Hps].
  destruct (mapped_sizes_enrich _ _ _ velocity_sample m (sku_of_key "EU1939BK")
              "EU1939BK" ps Hm eq_refl Hps)
    as (s' & a & n & E & Ha & _ & Hn & Ht & _).
  exists s', a. split; [exact E|]. split; [exact Ha|].
  split; [rewrite Ht; reflexivity|].
  rewrite Hn. vm_compute in Hm. injection Hm as <-.
  vm_compute in Hps. injection Hps as <-.
  vm_compute in E. injection E as <-. vm_compute in Hn. symmetry. exact Hn.
Defined.

End MappedSizesSamples.

(** ** The dashboard updater *)

Section Dashboard.

Import Etl Velocity Html Claims Notions Samples.

Variable show_float : Q -> string.

Lemma or_zero_eq (x : Q) : or_zero x == x.
Proof.
  unfold or_zero. destruct (Qeq_bool x 0) eqn:E; [|reflexivity].
  apply Qeq_bool_iff in E. symmetry. exact E.
Qed.

Lemma fold_left_plus (l : list Q) (a : Q) :
  fold_left Qplus l a == a + foldr Qplus 0 l.
Proof.
  revert a. induction l as [|x l IH]; intros a; simpl; [lra|].
  rewrite IH. lra.
Qed.

Lemma py_sum_total {A : Type} (f : A -> Q) (l : list A) :
  py_sum (map (fun s => or_zero (f s)) l) == total f l.
Proof.
  unfold py_sum, total. rewrite fold_left_plus.
  induction l as [|x l IH]; simpl; [lra|].
  rewrite or_zero_eq. simpl in IH. lra.
Qed.

Lemma total_nonneg {A : Type} (f : A -> Q) (l : list A) :
  Forall (fun s => 0 <= f s) l -> 0 <= total f l.
Proof.
  unfold total. induction 1 as [|x l Hx _ IH]; simpl; lra.
Qed.

Lemma total_member {A : Type} (f : A -> Q) (l : list A) :
  Forall (fun s => 0 <= f s) l -> Forall (fun s => f s <= total f l) l.
Proof.
  unfold total. induction 1 as [|x l Hx Hl IH]; [constructor|].
  pose proof (total_nonneg f l Hl) as Hs. unfold total in Hs.
  cbn [map foldr]. constructor; [lra|].
  eapply Forall_impl; [exact IH|]. intros y Hy. simpl in Hy. lra.
Qed.

(** A total that [compute_totals] returns is never zero; with figures
    that are not negative it is positive and bounds each of them. *)
Lemma guarded_total (f : sku_record -> Q) (skus : list sku_record) :
  let x := py_sum (map (fun s => or_zero (f s)) skus) in
  let t := if Qeq_bool x 0 then 1 else x in
  Qeq_bool t 0 = false
  /\ (Forall (fun s => 0 <= f s) skus ->
      0 < t /\ Forall (fun s => 0 <= f s /\ f s <= t) skus).
Proof.
  intros x t. subst t.
  pose proof (py_sum_total f skus) as Hx. fold x in Hx.
  destruct (Qeq_bool x 0) eqn:E.
  - split; [reflexivity|]. intros Hpos. apply Qeq_bool_iff in E.
    split; [lra|].
    pose proof (total_member f skus Hpos) as Hm.
    rewrite Forall_forall in Hm, Hpos. apply Forall_forall. intros s Hs.
    specialize (Hm s Hs). specialize (Hpos s Hs). simpl in Hm, Hpos.
    rewrite <- Hx, E in Hm. lra.
  - split; [exact E|]. intros Hpos.
    pose proof (total_nonneg f skus Hpos) as Hn. rewrite <- Hx in Hn.
    assert (Hne : ~ x == 0).
    { intros H. apply Qeq_bool_iff in H. congruence. }
    split; [lra|].
    pose proof (total_member f skus Hpos) as Hm.
    rewrite Forall_forall in Hm, Hpos. apply Forall_forall. intros s Hs.
    specialize (Hm s Hs). specialize (Hpos s Hs). simpl in Hm, Hpos.
    rewrite <- Hx in Hm. lra.
Qed.

(** A share of a positive total, in percent and rounded. *)
Lemma pct_bounds (a t : Q) (n : nat) :
  0 < t -> 0 <= a -> a <= t ->
  0 <= py_round (a / t * 100) n /\ py_round (a / t * 100) n <= 100.
Proof.
  intros Ht Ha Hat.
  assert (H0 : 0 <= a / t) by (apply ratio_nonneg; assumption).
  assert (H1 : a / t <= 1) by (apply ratio_le_one; assumption).
  split.
  - apply py_round_nonneg. lra.
  - apply Qle_trans with (py_round 100 n); [apply py_round_mono; lra|].
    unfold py_round.
    rewrite (round_half_even_comp _ (inject_Z (100 * 10 ^ Z.of_nat n))).
    + pose proof (scale_pos n) as Hs.
      assert (E : round_half_even (inject_Z (100 * 10 ^ Z.of_nat n))
                  = (100 * 10 ^ Z.of_nat n)%Z).
      { unfold round_half_even. rewrite Qfloor_Z.
        assert (Hz : inject_Z (100 * 10 ^ Z.of_nat n)
                     - inject_Z (100 * 10 ^ Z.of_nat n) == 0) by ring.
        assert (Hc : Qcompare (inject_Z (100 * 10 ^ Z.of_nat n)
                               - inject_Z (100 * 10 ^ Z.of_nat n)) (1 # 2) = Lt).
        { apply Qlt_alt. rewrite Hz. reflexivity. }
        rewrite Hc. reflexivity. }
      rewrite E, inject_Z_mult. apply Qle_shift_div_r; [exact Hs|].
      change (inject_Z 100) with 100. apply Qle_refl.
    + rewrite inject_Z_mult. reflexivity.
Qed.

(** The description of a record can be escaped, or the call of
    [replace] raises. *)
Lemma escaped_description_cases (s : sku_record) :
  (describable s = true
   /\ exists d, cell_or (description s) (CStr "") = CStr d
                /\ escaped_description s = Ok (escape_quotes d))
  \/ (describable s = false
      /\ escaped_description s
         = Raise (AttributeError "'float' object has no attribute 'replace'")).
Proof.
  unfold describable, escaped_description, cell_or.
  destruct (description s) as [x|str|]; cbn [cell_truthy].
  - destruct (f_truthy x).
    + right. split; reflexivity.
    + left. split; [reflexivity|]. exists ""%string. split; reflexivity.
  - destruct (negb (String.eqb str "")); left; split; try reflexivity;
      eexists; split; reflexivity.
  - left. split; [reflexivity|]. exists ""%string. split; reflexivity.
Qed.

Lemma describable_cases (skus : list sku_record) :
  Forall (fun s => describable s = true) skus
  \/ Exists (fun s => describable s = false) skus.
Proof.
  induction skus as [|s rest [IH | IH]].
  - left. constructor.
  - destruct (describable s) eqn:E.
    + left. constructor; assumption.
    + right. apply Exists_cons_hd. exact E.
  - right. apply Exists_cons_tl. exact IH.
Qed.

(** The rows of the loop, field by field. *)
Lemma js_rows_loop_ok (ts ti : Q) (skus : list sku_record) :
  Qeq_bool ts 0 = false -> Qeq_bool ti 0 = false ->
  Forall (fun s => describable s = true) skus ->
  exists rows,
    js_rows_loop show_float ts ti skus = Ok rows
    /\ Forall2 (fun s r =>
                  exists d,
                    cell_or (description s) (CStr "") = CStr d
                    /\ r = {| Item_Key := sku s;
                              Item_Description := escape_quotes d;
                              Fineline :=
                                py_str show_float (cell_or (sku_fineline s) (CStr ""));
                              Size := "";
                              ABC := tier s;
                              Sales_13W_Retail :=
                                py_round (or_zero (sales_dollars_ytd s)) 2;
                              Total_Inv_Retail :=
                                py_round (or_zero (inventory_dollars_lw s)) 2;
                              Pct_of_Sales :=
                                py_round (or_zero (sales_dollars_ytd s) / ts * 100) 1;
                              Pct_of_Inventory :=
                                py_round (or_zero (inventory_dollars_lw s) / ti * 100) 1;
                              WOS_Per_SKU := or_zero (sku_wos s);
                              Store_Count := 0%Z;
                              Style_Action := "Monitor" |})
               skus rows.
Proof.
  intros Hts Hti. induction 1 as [|s rest Hs _ (rows & Hrows & Hall)].
  - exists []. split; [reflexivity | constructor].
  - destruct (escaped_description_cases s) as [(_ & d & Hd & Hesc) | [E _]];
      [|congruence].
    cbn [js_rows_loop]. unfold js_row_of, q_div. rewrite Hts, Hti. unfold_result.
    rewrite Hesc, Hrows. eexists. split; [reflexivity|].
    constructor; [|exact Hall]. exists d. split; [exact Hd | reflexivity].
Qed.

(** The loop over a master that holds a record whose description cannot
    be escaped. *)
Lemma js_rows_loop_raise (ts ti : Q) (skus : list sku_record) :
  Qeq_bool ts 0 = false -> Qeq_bool ti 0 = false ->
  Exists (fun s => describable s = false) skus ->
  js_rows_loop show_float ts ti skus
  = Raise (AttributeError "'float' object has no attribute 'replace'").
Proof.
  intros Hts Hti. induction 1 as [s rest Hs | s rest _ IH].
  - destruct (escaped_description_cases s) as [[E _] | [_ Hesc]]; [congruence|].
    cbn [js_rows_loop]. unfold js_row_of, q_div. rewrite Hts, Hti. unfold_result.
    rewrite Hesc. reflexivity.
  - cbn [js_rows_loop]. unfold js_row_of, q_div. rewrite Hts, Hti. unfold_result.
    destruct (escaped_description_cases s) as [(_ & d & _ & Hesc) | [_ Hesc]];
      rewrite Hesc; [rewrite IH|]; reflexivity.
Qed.

(** X19.  [build_sku_js_array] never divides by zero, and the one way
    it fails is the call of [replace] on a description that is not a
    string.  Over SKU records whose descriptions are strings (or values
    that [or ""] replaces) it builds one row per SKU, in order, with the
    key and tier of the SKU, its description with the quotes escaped,
    the text of its fineline, its sales rounded to cents, its WOS, a
    Store_Count of 0 whatever store count the record carries, an empty
    Size and the Style_Action "Monitor"; when no SKU has negative sales
    (inventory) dollars every Pct_of_Sales (Pct_of_Inventory) then lies
    between 0 and 100.  As soon as one record carries another
    description, such as the NaN of a style the ladder does not list, it
    raises an AttributeError and builds nothing. *)
Theorem dashboard_rows (skus : list sku_record) :
  (Forall (fun s => describable s = true) skus ->
   exists rows,
     js_rows show_float skus = Ok rows
     /\ Forall2 (fun s r =>
                   Item_Key r = sku s /\ ABC r = tier s /\ Store_Count r = 0%Z
                   /\ Size r = ""%string /\ Style_Action r = "Monitor"%string
                   /\ Fineline r
                      = py_str show_float (cell_or (sku_fineline s) (CStr ""))
                   /\ (exists d, cell_or (description s) (CStr "") = CStr d
                                 /\ Item_Description r = escape_quotes d)
                   /\ WOS_Per_SKU r == sku_wos s
                   /\ Sales_13W_Retail r == py_round (sales_dollars_ytd s) 2
                   /\ Total_Inv_Retail r == py_round (inventory_dollars_lw s) 2)
                skus rows
     /\ (Forall (fun s => 0 <= sales_dollars_ytd s) skus ->
         Forall (fun r => 0 <= Pct_of_Sales r /\ Pct_of_Sales r <= 100) rows)
     /\ (Forall (fun s => 0 <= inventory_dollars_lw s) skus ->
         Forall (fun r => 0 <= Pct_of_Inventory r /\ Pct_of_Inventory r <= 100)
                rows))
  /\ (Exists (fun s => describable s = false) skus ->
      js_rows show_float skus
      = Raise (AttributeError "'float' object has no attribute 'replace'"))
  /\ (forall e, js_rows show_float skus = Raise e ->
                e = AttributeError "'float' object has no attribute 'replace'"
                /\ Exists (fun s => describable s = false) skus).
Proof.
  unfold js_rows, compute_totals.
  destruct (guarded_total sales_dollars_ytd skus) as [Hts Hsales].
  destruct (guarded_total inventory_dollars_lw skus) as [Hti Hinv].
  cbv zeta in Hts, Hsales, Hti, Hinv.
  set (ts := if Qeq_bool (py_sum (map (fun s => or_zero (sales_dollars_ytd s)) skus)) 0
             then 1 else py_sum (map (fun s => or_zero (sales_dollars_ytd s)) skus)) in *.
  set (ti := if Qeq_bool (py_sum (map (fun s => or_zero (inventory_dollars_lw s)) skus)) 0
             then 1 else py_sum (map (fun s => or_zero (inventory_dollars_lw s)) skus)) in *.
  clearbody ts ti.
  assert (Hok : Forall (fun s => describable s = true) skus ->
                exists rows,
                  js_rows_loop show_float ts ti skus = Ok rows
                  /\ Forall2 (fun s r =>
                    Item_Key r = sku s /\ ABC r = tier s /\ Store_Count r = 0%Z
                    /\ Size r = ""%string /\ Style_Action r = "Monitor"%string
                    /\ Fineline r
                       = py_str show_float (cell_or (sku_fineline s) (CStr ""))
                    /\ (exists d, cell_or (description s) (CStr "") = CStr d
                                  /\ Item_Description r = escape_quotes d)
                    /\ WOS_Per_SKU r == sku_wos s
                    /\ Sales_13W_Retail r == py_round (sales_dollars_ytd s) 2
                    /\ Total_Inv_Retail r == py_round (inventory_dollars_lw s) 2)
                     skus rows
                  /\ (Forall (fun s => 0 <= sales_dollars_ytd s) skus ->
                      Forall (fun r => 0 <= Pct_of_Sales r /\ Pct_of_Sales r <= 100)
                             rows)
                  /\ (Forall (fun s => 0 <= inventory_dollars_lw s) skus ->
                      Forall (fun r => 0 <= Pct_of_Inventory r
                                       /\ Pct_of_Inventory r <= 100) rows)).
  { intros Hdesc.
    destruct (js_rows_loop_ok ts ti skus Hts Hti Hdesc) as (rows & Hrows & Hall).
    exists rows. split; [exact Hrows|]. split; [|split].
    - eapply Forall2_impl; [exact Hall|]. intros s r (d & Hd & ->).
      cbn [Item_Key ABC Store_Count Size Style_Action Fineline Item_Description
           WOS_Per_SKU Sales_13W_Retail Total_Inv_Retail].
      do 6 (split; [reflexivity|]).
      split; [exists d; split; [exact Hd | reflexivity]|].
      split; [apply or_zero_eq|].
      split; apply py_round_comp, or_zero_eq.
    - intros Hpos. destruct (Hsales Hpos) as [Ht Hb]. clear - Hall Ht Hb.
      induction Hall as [|s r skus' rows' (d & _ & ->) _ IH]; [constructor|].
      apply Forall_cons in Hb as [[Hs0 Hs1] Hb].
      constructor; [|exact (IH Hb)]. cbn [Pct_of_Sales].
      pose proof (or_zero_eq (sales_dollars_ytd s)) as E.
      rewrite (py_round_comp _ (sales_dollars_ytd s / ts * 100));
        [apply pct_bounds; assumption | rewrite E; reflexivity].
    - intros Hpos. destruct (Hinv Hpos) as [Ht Hb]. clear - Hall Ht Hb.
      induction Hall as [|s r skus' rows' (d & _ & ->) _ IH]; [constructor|].
      apply Forall_cons in Hb as [[Hs0 Hs1] Hb].
      constructor; [|exact (IH Hb)]. cbn [Pct_of_Inventory].
      pose proof (or_zero_eq (inventory_dollars_lw s)) as E.
      rewrite (py_round_comp _ (inventory_dollars_lw s / ti * 100));
        [apply pct_bounds; assumption | rewrite E; reflexivity]. }
  split; [exact Hok|]. split.
  - apply js_rows_loop_raise; assumption.
  - intros e He. destruct (describable_cases skus) as [Hdesc | Hbad].
    + destruct (Hok Hdesc) as (rows & Hrows & _). congruence.
    + rewrite (js_rows_loop_raise ts ti skus Hts Hti Hbad) in He.
      injection He as <-. split; [reflexivity | exact Hbad].
Qed.

(** What the loop of [calculate_tier_stats] adds to its three
    accumulators. *)
Lemma tier_loop_spec (skus : list sku_record) (counts : gmap string nat)
    (sales : gmap string Q) (t : Q) :
  let r := tier_loop skus (counts, sales, t) in
  (forall k, default 0%nat (r.1.1 !! k)
             = (default 0%nat (counts !! k)
                + length (List.filter (in_tier k) skus))%nat)
  /\ (forall k, is_Some (counts !! k) -> is_Some (r.1.1 !! k))
  /\ (forall k, default 0 (r.1.2 !! k)
                == default 0 (sales !! k)
                   + total sales_dollars_ytd (List.filter (in_tier k) skus))
  /\ (forall k, is_Some (sales !! k) -> is_Some (r.1.2 !! k))
  /\ r.2 == t + total sales_dollars_ytd skus.
Proof.
  revert counts sales t. induction skus as [|s rest IH]; intros counts sales t.
  - cbn. unfold total. cbn. repeat split; intros; first [lia | ring | assumption].
  - cbn [tier_loop].
    set (counts' := <[tier s := (default 0%nat (counts !! tier s) + 1)%nat]> counts).
    set (sales' := <[tier s := default 0 (sales !! tier s)
                               + or_zero (sales_dollars_ytd s)]> sales).
    destruct (IH counts' sales' (t + or_zero (sales_dollars_ytd s)))
      as (Hc & Hcs & Hs & Hss & Ht).
    cbv zeta. repeat apply conj.
    + intros k. rewrite Hc. cbn [List.filter]. unfold in_tier at 2.
      subst counts'. destruct (String.eqb (tier s) k) eqn:E.
      * apply String.eqb_eq in E. subst k. rewrite lookup_insert_eq.
        cbn [from_option id length]. lia.
      * apply String.eqb_neq in E. rewrite lookup_insert_ne by exact E. lia.
    + intros k Hk. apply Hcs. subst counts'.
      destruct (decide (tier s = k)) as [<- | Hne].
      * rewrite lookup_insert_eq. eexists. reflexivity.
      * rewrite lookup_insert_ne by exact Hne. exact Hk.
    + intros k. rewrite Hs. cbn [List.filter]. unfold in_tier at 2.
      subst sales'. destruct (String.eqb (tier s) k) eqn:E.
      * apply String.eqb_eq in E. subst k. rewrite lookup_insert_eq.
        cbn [from_option id]. unfold total. cbn [map foldr].
        rewrite or_zero_eq. lra.
      * apply String.eqb_neq in E. rewrite lookup_insert_ne by exact E. lra.
    + intros k Hk. apply Hss. subst sales'.
      destruct (decide (tier s = k)) as [<- | Hne].
      * rewrite lookup_insert_eq. eexists. reflexivity.
      * rewrite lookup_insert_ne by exact Hne. exact Hk.
    + rewrite Ht. unfold total. cbn [map foldr]. rewrite or_zero_eq. lra.
Qed.

Lemma getitem_some {A : Type} (d : gmap string A) (key : string) (dflt : A) :
  is_Some (d !! key) -> getitem d key = Ok (default dflt (d !! key)).
Proof.
  intros [v Hv]. unfold getitem. rewrite Hv. reflexivity.
Qed.

Lemma total_filter_nonneg {A : Type} (f : A -> Q) (p : A -> bool) (l : list A) :
  Forall (fun s => 0 <= f s) l -> 0 <= total f (List.filter p l).
Proof.
  intros H. apply total_nonneg. rewrite Forall_forall in H |- *.
  intros x Hx. apply H. apply list_elem_of_In in Hx. apply list_elem_of_In.
  apply filter_In in Hx as [Hx _]. exact Hx.
Qed.

Lemma total_filter_two {A : Type} (f : A -> Q) (p q : A -> bool) (l : list A) :
  (forall x, p x = true -> q x = false) ->
  Forall (fun s => 0 <= f s) l ->
  total f (List.filter p l) + total f (List.filter q l) <= total f l.
Proof.
  intros Hpq. unfold total. induction 1 as [|x l Hx _ IH]; cbn; [lra|].
  destruct (p x) eqn:Hp.
  - rewrite (Hpq x Hp). cbn. lra.
  - destruct (q x); cbn; lra.
Qed.

Lemma count_cons {A : Type} (p : A -> bool) (x : A) (l : list A) :
  length (List.filter p (x :: l))
  = ((if p x then 1 else 0) + length (List.filter p l))%nat.
Proof. cbn [List.filter]. destruct (p x); reflexivity. Qed.

Lemma tier_counts_partition (skus : list sku_record) :
  Forall (fun s => tier s ∈ ["A"; "B"; "C"]%string) skus ->
  (length (List.filter (in_tier "A") skus)
   + length (List.filter (in_tier "B") skus)
   + length (List.filter (in_tier "C") skus))%nat
  = length skus.
Proof.
  induction 1 as [|s l Hs _ IH]; [reflexivity|].
  rewrite !count_cons. cbn [length]. unfold in_tier at 1 3 5.
  assert (Ht : tier s = "A"%string \/ tier s = "B"%string \/ tier s = "C"%string).
  { apply elem_of_cons in Hs as [Hs | Hs]; [left; exact Hs|].
    apply elem_of_cons in Hs as [Hs | Hs]; [right; left; exact Hs|].
    apply elem_of_cons in Hs as [Hs | Hs]; [right; right; exact Hs|].
    apply elem_of_nil in Hs. contradiction. }
  destruct Ht as [-> | [-> | ->]];
    change (String.eqb "A" "A") with true;
    change (String.eqb "A" "B") with false;
    change (String.eqb "A" "C") with false;
    change (String.eqb "B" "A") with false;
    change (String.eqb "B" "B") with true;
    change (String.eqb "B" "C") with false;
    change (String.eqb "C" "A") with false;
    change (String.eqb "C" "B") with false;
    change (String.eqb "C" "C") with true;
    cbv iota; lia.
Qed.

Lemma Qltb_proper (a b : Q) : a == b -> Qltb 0 a = Qltb 0 b.
Proof.
  intros H. destruct (Qltb 0 a) eqn:Ea, (Qltb 0 b) eqn:Eb; try reflexivity.
  - apply Qltb_lt in Ea. apply Qltb_ge in Eb. lra.
  - apply Qltb_lt in Eb. apply Qltb_ge in Ea. lra.
Qed.

(** The statistics, field by field. *)
Lemma calculate_tier_stats_fields (skus : list sku_record) :
  exists st,
    calculate_tier_stats skus = Ok st
    /\ ts_tier_a_count st = length (List.filter (in_tier "A") skus)
    /\ ts_tier_b_count st = length (List.filter (in_tier "B") skus)
    /\ ts_tier_c_count st = length (List.filter (in_tier "C") skus)
    /\ ts_tier_ab_count st = (ts_tier_a_count st + ts_tier_b_count st)%nat
    /\ ts_tier_ab_sales_pct st = ts_tier_a_sales_pct st + ts_tier_b_sales_pct st
    /\ ts_tier_a_sales_pct st
       == (if Qltb 0 (total sales_dollars_ytd skus)
           then total sales_dollars_ytd (List.filter (in_tier "A") skus)
                / total sales_dollars_ytd skus * 100
           else 0)
    /\ ts_tier_b_sales_pct st
       == (if Qltb 0 (total sales_dollars_ytd skus)
           then total sales_dollars_ytd (List.filter (in_tier "B") skus)
                / total sales_dollars_ytd skus * 100
           else 0).
Proof.
  unfold calculate_tier_stats.
  pose proof (tier_loop_spec skus {[ "A" := 0%nat; "B" := 0%nat; "C" := 0%nat ]}
                {[ "A" := 0; "B" := 0; "C" := 0 ]} 0) as Hspec.
  cbv zeta in Hspec.
  destruct (tier_loop skus _) as [[counts sales] t].
  cbn [fst snd] in Hspec. destruct Hspec as (Hc & Hcs & Hs & Hss & Ht).
  assert (Ca : getitem counts "A" = Ok (length (List.filter (in_tier "A") skus))).
  { rewrite (getitem_some counts "A" 0%nat); [|apply Hcs; vm_compute; eauto].
    rewrite Hc. reflexivity. }
  assert (Cb : getitem counts "B" = Ok (length (List.filter (in_tier "B") skus))).
  { rewrite (getitem_some counts "B" 0%nat); [|apply Hcs; vm_compute; eauto].
    rewrite Hc. reflexivity. }
  assert (Cc : getitem counts "C" = Ok (length (List.filter (in_tier "C") skus))).
  { rewrite (getitem_some counts "C" 0%nat); [|apply Hcs; vm_compute; eauto].
    rewrite Hc. reflexivity. }
  assert (Sa : getitem sales "A" = Ok (default 0 (sales !! "A"%string)))
    by (apply getitem_some, Hss; vm_compute; eauto).
  assert (Sb : getitem sales "B" = Ok (default 0 (sales !! "B"%string)))
    by (apply getitem_some, Hss; vm_compute; eauto).
  pose proof (Hs "A"%string) as Ha. pose proof (Hs "B"%string) as Hb.
  change (default 0 ({[ "A" := 0; "B" := 0; "C" := 0 ]} !! "A"%string)) with 0 in Ha.
  change (default 0 ({[ "A" := 0; "B" := 0; "C" := 0 ]} !! "B"%string)) with 0 in Hb.
  set (sa := default 0 (sales !! "A"%string)) in *.
  set (sb := default 0 (sales !! "B"%string)) in *.
  clearbody sa sb.
  assert (Ht' : t == total sales_dollars_ytd skus) by (rewrite Ht; lra).
  rewrite <- (Qltb_proper _ _ Ht').
  unfold_result. rewrite Ca, Cb, Cc.
  destruct (Qltb 0 t) eqn:Hpos.
  - apply Qltb_lt in Hpos.
    assert (Hnz : Qeq_bool t 0 = false).
    { destruct (Qeq_bool t 0) eqn:E; [|reflexivity].
      apply Qeq_bool_iff in E. lra. }
    rewrite Sa, Sb. unfold q_div. rewrite Hnz.
    eexists. split; [reflexivity|].
    cbn [ts_tier_a_count ts_tier_b_count ts_tier_c_count ts_tier_ab_count
         ts_tier_a_sales_pct ts_tier_b_sales_pct ts_tier_ab_sales_pct].
    do 5 (split; [reflexivity|]).
    split; [rewrite Ha, Ht'; field; lra | rewrite Hb, Ht'; field; lra].
  - eexists. split; [reflexivity|].
    cbn [ts_tier_a_count ts_tier_b_count ts_tier_c_count ts_tier_ab_count
         ts_tier_a_sales_pct ts_tier_b_sales_pct ts_tier_ab_sales_pct].
    do 5 (split; [reflexivity|]). split; reflexivity.
Qed.

(** X20.  [calculate_tier_stats] always returns (its three keys exist
    from the start and the divisor is positive when it divides).  The
    three counts are the numbers of SKUs of tier 'A', 'B' and 'C', so
    they add up to the number of SKUs when no record has another tier;
    tier_ab_count and tier_ab_sales_pct are the sums of the A and B
    figures; when no SKU has negative sales the two percentages are not
    negative and their sum is at most 100; both are 0 when the sales
    total is not positive. *)
Theorem tier_stats_partition (skus : list sku_record) :
  exists st,
    calculate_tier_stats skus = Ok st
    /\ ts_tier_a_count st = length (List.filter (in_tier "A") skus)
    /\ ts_tier_b_count st = length (List.filter (in_tier "B") skus)
    /\ ts_tier_c_count st = length (List.filter (in_tier "C") skus)
    /\ ts_tier_ab_count st = (ts_tier_a_count st + ts_tier_b_count st)%nat
    /\ ts_tier_ab_sales_pct st = ts_tier_a_sales_pct st + ts_tier_b_sales_pct st
    /\ (Forall (fun s => tier s ∈ ["A"; "B"; "C"]%string) skus ->
        (ts_tier_a_count st + ts_tier_b_count st + ts_tier_c_count st)%nat
        = length skus)
    /\ (Forall (fun s => 0 <= sales_dollars_ytd s) skus ->
        0 <= ts_tier_a_sales_pct st /\ 0 <= ts_tier_b_sales_pct st
        /\ ts_tier_ab_sales_pct st <= 100)
    /\ (~ 0 < total sales_dollars_ytd skus ->
        ts_tier_a_sales_pct st == 0 /\ ts_tier_b_sales_pct st == 0).
Proof.
  destruct (calculate_tier_stats_fields skus)
    as (st & Hst & Ca & Cb & Cc & Cab & Pab & Pa & Pb).
  exists st. split; [exact Hst|].
  do 5 (split; [assumption|]).
  split; [intros Hall; rewrite Ca, Cb, Cc; apply tier_counts_partition, Hall|].
  split.
  - intros Hnn. rewrite Pab, Pa, Pb.
    destruct (Qltb 0 (total sales_dollars_ytd skus)) eqn:Hpos; [|lra].
    apply Qltb_lt in Hpos.
    pose proof (total_filter_nonneg sales_dollars_ytd (in_tier "A") skus Hnn) as Na.
    pose proof (total_filter_nonneg sales_dollars_ytd (in_tier "B") skus Hnn) as Nb.
    assert (Hab : total sales_dollars_ytd (List.filter (in_tier "A") skus)
                  + total sales_dollars_ytd (List.filter (in_tier "B") skus)
                  <= total sales_dollars_ytd skus).
    { apply total_filter_two; [|exact Hnn].
      intros x Hx. unfold in_tier in *. apply String.eqb_eq in Hx.
      rewrite Hx. reflexivity. }
    set (sa := total sales_dollars_ytd (List.filter (in_tier "A") skus)) in *.
    set (sb := total sales_dollars_ytd (List.filter (in_tier "B") skus)) in *.
    set (t := total sales_dollars_ytd skus) in *.
    assert (Qa : 0 <= sa / t) by (apply ratio_nonneg; lra).
    assert (Qb : 0 <= sb / t) by (apply ratio_nonneg; lra).
    assert (Qab : (sa + sb) / t <= 1) by (apply ratio_le_one; lra).
    assert (Eab : sa / t * 100 + sb / t * 100 == (sa + sb) / t * 100)
      by (field; lra).
    split; [lra|]. split; [lra|]. rewrite Eab. lra.
  - intros Hzero. rewrite Pa, Pb.
    destruct (Qltb 0 (total sales_dollars_ytd skus)) eqn:Hpos.
    + apply Qltb_lt in Hpos. contradiction.
    + split; reflexivity.
Qed.

Lemma filter_none_of {A : Type} (p : A -> bool) (l : list A) :
  Forall (fun x => p x = false) l -> List.filter p l = [].
Proof.
  induction 1 as [|x l Hx _ IH]; [reflexivity|]. cbn [List.filter].
  rewrite Hx. exact IH.
Qed.

Lemma filter_all_of {A : Type} (p : A -> bool) (l : list A) :
  Forall (fun x => p x = true) l -> List.filter p l = l.
Proof.
  induction 1 as [|x l Hx _ IH]; [reflexivity|]. cbn [List.filter].
  rewrite Hx, IH. reflexivity.
Qed.

(** The tiers of a master that has been built. *)
Lemma built_master_tiers (sort_values : list sku_row -> list sku_row) (s s' : etl) :
  (forall l, sort_values l ≡ₚ l) ->
  build_sku_master sort_values s = Ok s' ->
  tier_assignments s' = tier_assignments s
  /\ Forall (fun r => tier r = _lookup_tier (tier_assignments s) (sku r))
            (sku_master s').
Proof.
  intros Hperm. unfold build_sku_master.
  destruct (pos_lw s) as [lw|]; [|discriminate].
  destruct (ladder s) as [lad|]; [|discriminate].
  destruct (pos_ytd s) as [ytd|]; [|discriminate].
  destruct (sku_frame (tier_assignments s) lw ytd lad) as [frame|e] eqn:Hframe;
    unfold_result; [|discriminate].
  intros [= <-]. cbn [tier_assignments sku_master set_sku_master].
  split; [reflexivity|].
  unfold sku_master_of. apply sku_loop_Forall. intros c row Hin.
  cbn [sku_record_of fst tier sku].
  pose proof (sku_frame_tiers _ _ _ _ _ Hframe) as Ht.
  rewrite Forall_forall in Ht. apply Ht. rewrite <- (Hperm frame). exact Hin.
Qed.

(** X21.  The tier tiles of the dashboard after a build with the tier
    sets of [__init__]: [calculate_tier_stats] over the SKU master counts
    every SKU in tier C and none in A or B, and reports a tier A+B sales
    share of 0, while the summary metrics of the same object count 0
    SKUs in tier C. *)
Theorem dashboard_tiers_after_build (sort_values : list sku_row -> list sku_row)
    (s s' : etl) :
  (forall l, sort_values l ≡ₚ l) ->
  tier_assignments s = tier_assignments init ->
  build_sku_master sort_values s = Ok s' ->
  exists st,
    calculate_tier_stats (sku_master s') = Ok st
    /\ ts_tier_a_count st = 0%nat
    /\ ts_tier_b_count st = 0%nat
    /\ ts_tier_ab_count st = 0%nat
    /\ ts_tier_c_count st = length (sku_master s')
    /\ ts_tier_ab_sales_pct st == 0
    /\ tier_c_count (calculate_summary_metrics s') = 0%nat.
Proof.
  intros Hperm Hinit Hbuild.
  destruct (built_master_tiers sort_values s s' Hperm Hbuild) as [Hsame Htiers].
  assert (HC : Forall (fun r => tier r = "C"%string) (sku_master s')).
  { eapply Forall_impl; [exact Htiers|]. intros r Hr. simpl in Hr.
    rewrite Hr, Hinit. apply lookup_tier_init. }
  assert (FA : List.filter (in_tier "A") (sku_master s') = []).
  { apply filter_none_of. eapply Forall_impl; [exact HC|].
    intros r Hr. simpl in Hr. unfold in_tier. rewrite Hr. reflexivity. }
  assert (FB : List.filter (in_tier "B") (sku_master s') = []).
  { apply filter_none_of. eapply Forall_impl; [exact HC|].
    intros r Hr. simpl in Hr. unfold in_tier. rewrite Hr. reflexivity. }
  assert (FC : List.filter (in_tier "C") (sku_master s') = sku_master s').
  { apply filter_all_of. eapply Forall_impl; [exact HC|].
    intros r Hr. simpl in Hr. unfold in_tier. rewrite Hr. reflexivity. }
  destruct (calculate_tier_stats_fields (sku_master s'))
    as (st & Hst & Ca & Cb & Cc & Cab & Pab & Pa & Pb).
  exists st. split; [exact Hst|].
  rewrite FA in Ca, Pa. rewrite FB in Cb, Pb. rewrite FC in Cc.
  split; [exact Ca|]. split; [exact Cb|].
  split; [rewrite Cab, Ca, Cb; reflexivity|]. split; [exact Cc|].
  split.
  - rewrite Pab, Pa, Pb.
    destruct (Qltb 0 (total sales_dollars_ytd (sku_master s'))); [|reflexivity].
    unfold total. cbn [map foldr]. unfold Qdiv. ring.
  - unfold calculate_summary_metrics. cbn [tier_c_count].
    rewrite Hsame, Hinit. reflexivity.
Qed.

Lemma dashboard_tiers_after_build_witness :
  exists s' st,
    build_sku_master sort_values_desc loaded = Ok s'
    /\ calculate_tier_stats (sku_master s') = Ok st
    /\ ts_tier_c_count st = 3%nat
    /\ tier_c_count (calculate_summary_metrics s') = 0%nat.
Proof.
  destruct (build_sku_master sort_values_desc loaded) as [s'|e] eqn:E;
    [|vm_compute in E; discriminate E].
  destruct (dashboard_tiers_after_build sort_values_desc loaded s'
              sort_values_desc_perm eq_refl E)
    as (st & Hst & _ & _ & _ & Hc & _ & Hm).
  exists s', st. split; [reflexivity|]. split; [exact Hst|].
  split; [|exact Hm].
  rewrite Hc. vm_compute in E. injection E as <-. reflexivity.
Defined.

(** The sign of the percent delta of the weekly summary. *)
Lemma pct_delta_sign (c p : Q) :
  0 <= pct_delta (c - p) p <-> (~ 0 < p \/ p <= c).
Proof.
  unfold pct_delta. destruct (Qltb 0 p) eqn:E.
  - apply Qltb_lt in E. split.
    + intros H. right.
      destruct (Qlt_le_dec c p) as [Hlt | Hle]; [|exact Hle].
      exfalso.
      assert (Hneg : (c - p) / p * 100 < 0).
      { assert (Hq : (c - p) / p < 0).
        { apply Qlt_shift_div_r; [exact E | lra]. }
        lra. }
      lra.
    + intros [H | H]; [contradiction|].
      assert (Hq : 0 <= (c - p) / p) by (apply ratio_nonneg; lra).
      lra.
  - apply Qltb_ge in E. split; [intros _; left; lra | intros _; lra].
Qed.

(** X22.  What the dashboard shows of the weekly summary.  The
    sell-through is sales units over sales plus inventory units, in
    percent, and 0.0 when that sum is not positive; it lies between 0 and
    100 when neither figure is negative.  The change class is "positive"
    iff the dollar percent delta is not negative; on a summary the ETL
    built that is iff last year's sales dollars are not positive or this
    year's are no smaller, so a week without last-year sales always reads
    "positive".  A summary without keys gives zeros and "positive". *)
Theorem weekly_metrics_of_summary (summary : option weekly_summary_record) :
  let m := load_weekly_metrics summary in
  (0 <= wm_sales_units m -> 0 <= wm_inv_units m ->
   0 <= wm_sell_thru_pct m /\ wm_sell_thru_pct m <= 100)
  /\ (~ 0 < wm_sales_units m + wm_inv_units m -> wm_sell_thru_pct m = 0)
  /\ (wm_change_class m = "positive"%string <-> 0 <= wm_dollars_pct_delta m)
  /\ (wm_change_class m = "negative"%string <-> wm_dollars_pct_delta m < 0)
  /\ (forall df w, summary = Some w -> weekly_summary_of df = Ok w ->
        (wm_change_class m = "positive"%string
         <-> (~ 0 < ws_sales_dollars_lwly w
              \/ ws_sales_dollars_lwly w <= ws_sales_dollars_lw w)))
  /\ (summary = None ->
      wm_sell_thru_pct m = 0 /\ wm_wos m = 0
      /\ wm_change_class m = "positive"%string).
Proof.
  intros m. subst m. unfold load_weekly_metrics.
  cbn [wm_sales_units wm_inv_units wm_sell_thru_pct wm_change_class
       wm_dollars_pct_delta wm_wos].
  set (u := summary_get summary ws_sales_units_lw).
  set (i := summary_get summary ws_inventory_units_lw).
  set (d := summary_get summary ws_dollars_pct_delta).
  assert (Hclass : (if Qle_bool 0 d then "positive"%string else "negative"%string)
                   = "positive"%string <-> 0 <= d).
  { destruct (Qle_bool 0 d) eqn:E.
    - apply Qle_bool_iff in E. split; [intros _; exact E | reflexivity].
    - split; [discriminate|]. intros H. apply Qle_bool_iff in H. congruence. }
  split; [|split; [|split; [|split; [|split]]]].
  - intros Hu Hi. destruct (Qltb 0 (u + i)) eqn:E; [|lra].
    apply Qltb_lt in E.
    assert (H0 : 0 <= u / (u + i)) by (apply ratio_nonneg; assumption).
    assert (H1 : u / (u + i) <= 1) by (apply ratio_le_one; lra).
    lra.
  - intros Hz. destruct (Qltb 0 (u + i)) eqn:E; [|reflexivity].
    apply Qltb_lt in E. contradiction.
  - apply Hclass.
  - clear Hclass. destruct (Qle_bool 0 d) eqn:E.
    + apply Qle_bool_iff in E. split; [discriminate | intros H; exfalso; lra].
    + split; [intros _|reflexivity].
      destruct (Qlt_le_dec d 0) as [H | H]; [exact H|].
      apply Qle_bool_iff in H. congruence.
  - intros df w -> Hw. rewrite Hclass. subst d. cbn [summary_get].
    pose proof (weekly_summary_fields df) as Hf. rewrite Hw in Hf.
    destruct Hf as (_ & _ & Hd & _ & Hdp). rewrite Hdp, Hd.
    apply pct_delta_sign.
  - intros ->. repeat split.
Qed.

End Dashboard.

Section DashboardSamples.

Import Etl Velocity Html Claims Notions Samples.

Lemma dashboard_rows_witness :
  match build_sku_master sort_values_desc loaded_described with
  | Ok s' =>
      map sku (sku_master s') = [CStr "A1"; CStr "A2"; CStr "A3"]
      /\ map description (sku_master s')
         = [CStr "Men's 874 Work Pant"; CFloat NaN; CFloat NaN]
      /\ js_rows (fun _ => "0"%string) (sku_master s')
         = Raise (AttributeError "'float' object has no attribute 'replace'")
  | Raise _ => False
  end
  /\ match build_sku_master sort_values_desc loaded with
     | Ok s' =>
         exists rows,
           js_rows (fun _ => "0"%string) (sku_master s') = Ok rows
           /\ map Item_Key rows = [CStr "A1"; CStr "A2"; CStr "A3"]
           /\ map Item_Description rows = [""; ""; ""]%string
     | Raise _ => False
     end.
Proof.
  split.
  - destruct (build_sku_master sort_values_desc loaded_described) as [s'|e] eqn:E;
      [|vm_compute in E; discriminate E].
    vm_compute in E. injection E as <-.
    split; [reflexivity|]. split; [reflexivity|].
    apply (dashboard_rows (fun _ => "0"%string)).
    apply Exists_cons_tl, Exists_cons_hd. reflexivity.
  - destruct (build_sku_master sort_values_desc loaded) as [s'|e] eqn:E;
      [|vm_compute in E; discriminate E].
    vm_compute in E. injection E as <-.
    match goal with
    | |- exists rows, js_rows _ ?m = Ok rows /\ _ =>
        destruct (dashboard_rows (fun _ => "0"%string) m) as [Hok _]
    end.
    destruct Hok as (rows & Hrows & _); [repeat constructor|].
    exists rows. split; [exact Hrows|].
    vm_compute in Hrows. injection Hrows as <-. split; reflexivity.
Defined.

End DashboardSamples.

(** ** Year-over-year changes *)

Section YearOverYear.

Import Etl Insights.

Lemma yoy_of_positive (c p : Q) :
  0 < p -> _yoy_pct c p == (c - p) / p * 100.
Proof.
  intros Hp. unfold _yoy_pct.
  destruct (Qeq_bool p 0) eqn:E; [|reflexivity].
  apply Qeq_bool_iff in E. lra.
Qed.

(** A threshold on the change is a threshold on the current value. *)
Lemma yoy_threshold (c p k : Q) :
  0 < p -> (k < (c - p) / p * 100 <-> (1 + k / 100) * p < c).
Proof.
  intros Hp.
  assert (E : (c - p) / p * 100 == (c / p - 1) * 100) by (field; lra).
  assert (K : k / 100 == k * (1 # 100)) by reflexivity.
  rewrite E, K. split; intros H.
  - assert (Hq : 1 + k * (1 # 100) < c / p) by lra.
    pose proof (Qmult_lt_compat_r _ _ p Hp Hq) as Hm.
    assert (E' : c / p * p == c) by (field; lra).
    rewrite E' in Hm. exact Hm.
  - assert (Hq : 1 + k * (1 # 100) < c / p).
    { apply Qlt_shift_div_l; [exact Hp | lra]. }
    lra.
Qed.

(** X23.  The year-over-year percent change of the narrative helpers.
    [_yoy_pct] and the local [yoy_pct] agree everywhere; the change of a
    value against itself is 0.0.  Against a positive last-year value the
    change exceeds a threshold k iff the current value exceeds
    (1 + k/100) times last year's, so it is positive iff the value grew,
    above 5 iff it grew by more than 5 percent, below -20 iff it fell
    below 80 percent; it is -100 for a current value of 0 and no smaller
    for any current value that is not negative.  Against a negative
    last-year value the sign is reversed: growth reads as a negative
    change, where the percent delta of the weekly summary reads 0.0. *)
Theorem yoy_pct_thresholds (c p : Q) :
  _yoy_pct c p = yoy_pct c p
  /\ _yoy_pct c c == 0
  /\ (0 < p ->
      (forall k, k < _yoy_pct c p <-> (1 + k / 100) * p < c)
      /\ (0 < _yoy_pct c p <-> p < c)
      /\ (5 < _yoy_pct c p <-> (105 # 100) * p < c)
      /\ (_yoy_pct c p < -20 <-> c < (80 # 100) * p)
      /\ _yoy_pct 0 p == -100
      /\ (0 <= c -> -100 <= _yoy_pct c p))
  /\ (p < 0 -> p < c -> _yoy_pct c p < 0 /\ pct_delta (c - p) p == 0).
Proof.
  split; [reflexivity|]. split.
  - unfold _yoy_pct. destruct (Qeq_bool c 0) eqn:E; [reflexivity|].
    assert (Hc : ~ c == 0) by (intros H; apply Qeq_bool_iff in H; congruence).
    field. exact Hc.
  - split.
    + intros Hp. pose proof (yoy_of_positive c p Hp) as E.
      assert (Hk : forall k, k < _yoy_pct c p <-> (1 + k / 100) * p < c).
      { intros k. rewrite E. apply yoy_threshold, Hp. }
      split; [exact Hk|]. split; [|split; [|split; [|split]]].
      * rewrite (Hk 0). assert (Z0 : 0 / 100 == 0) by reflexivity.
        rewrite Z0. split; intros H; lra.
      * rewrite (Hk 5). assert (Z5 : 5 / 100 == 5 # 100) by reflexivity.
        rewrite Z5. split; intros H; lra.
      * rewrite E. assert (E' : (c - p) / p * 100 == (c / p - 1) * 100)
          by (field; lra).
        rewrite E'. split; intros H.
        -- assert (Hq : c / p < 80 # 100) by lra.
           pose proof (Qmult_lt_compat_r _ _ p Hp Hq) as Hm.
           assert (E'' : c / p * p == c) by (field; lra).
           rewrite E'' in Hm. exact Hm.
        -- assert (Hq : c / p < 80 # 100).
           { apply Qlt_shift_div_r; [exact Hp | lra]. }
           lra.
      * rewrite (yoy_of_positive 0 p Hp). field. lra.
      * intros Hc. rewrite E.
        assert (Hq : 0 <= c / p) by (apply ratio_nonneg; assumption).
        assert (E' : (c - p) / p * 100 == (c / p - 1) * 100) by (field; lra).
        rewrite E'. lra.
    + intros Hp Hc. split.
      * unfold _yoy_pct. destruct (Qeq_bool p 0) eqn:E.
        -- apply Qeq_bool_iff in E. lra.
        -- assert (Hq : 0 < (c - p) / (- p)).
           { apply Qlt_shift_div_l; lra. }
           assert (E' : (c - p) / p == - ((c - p) / (- p))) by (field; lra).
           rewrite E'. lra.
      * unfold pct_delta. destruct (Qltb 0 p) eqn:E; [|reflexivity].
        apply Qltb_lt in E. lra.
Qed.

End YearOverYear.

(** ** The joins of the SKU frame *)

Section Joins.

Import Etl Claims Notions Samples.

(** The rows the joins make of one last-week group. *)
Lemma sku_frame_rows (t : tiers) (lw ytd : pos_table) (lad : ladder_table)
    (frame : list sku_row) :
  sku_frame t lw ytd lad = Ok frame ->
  frame
  = flat_map
      (fun g =>
         match ladder_matches lad g.1 with
         | [] => [joined_row t (groupby p_style_color (rows ytd)) lad g no_ladder_row]
         | ls => map (joined_row t (groupby p_style_color (rows ytd)) lad g) ls
         end)
      (groupby p_style_color (rows lw)).
Proof.
  unfold sku_frame. unfold_result.
  repeat match goal with
         | |- context [require_col ?c ?n] =>
             destruct (require_col_cases c n) as [-> | [-> _]];
             [| discriminate]
         end.
  intros [= <-]. reflexivity.
Qed.

Lemma joined_rows_keys (t : tiers) (yg : list (cell * list pos_row))
    (lad : ladder_table) (g : cell * list pos_row) :
  Forall (fun r => c_style_color r = g.1)
         (match ladder_matches lad g.1 with
          | [] => [joined_row t yg lad g no_ladder_row]
          | ls => map (joined_row t yg lad g) ls
          end).
Proof.
  destruct (ladder_matches lad g.1) as [|l ls].
  - constructor; [reflexivity | constructor].
  - change (Forall (fun r => c_style_color r = g.1)
              (map (joined_row t yg lad g) (l :: ls))).
    apply Forall_forall. intros r Hr.
    apply list_elem_of_In, in_map_iff in Hr as (l' & <- & _). reflexivity.
Qed.

Lemma joined_rows_length (t : tiers) (yg : list (cell * list pos_row))
    (lad : ladder_table) (g : cell * list pos_row) :
  length (match ladder_matches lad g.1 with
          | [] => [joined_row t yg lad g no_ladder_row]
          | ls => map (joined_row t yg lad g) ls
          end)
  = Nat.max 1 (length (ladder_matches lad g.1)).
Proof.
  destruct (ladder_matches lad g.1) as [|l ls]; [reflexivity|].
  rewrite length_map. cbn [length]. lia.
Qed.

Lemma rows_of_key_all (k : cell) (rows : list sku_row) :
  pd_isna k = false ->
  Forall (fun r => c_style_color r = k) rows -> rows_of_key k rows = rows.
Proof.
  intros Hk H. unfold rows_of_key. apply filter_all_of.
  eapply Forall_impl; [exact H|]. intros r Hr. simpl in Hr. rewrite Hr.
  apply cell_eqb_refl, Hk.
Qed.

Lemma rows_of_key_none (k k' : cell) (rows : list sku_row) :
  cell_eqb k' k = false ->
  Forall (fun r => c_style_color r = k') rows -> rows_of_key k rows = [].
Proof.
  intros Hk H. unfold rows_of_key. apply filter_none_of.
  eapply Forall_impl; [exact H|]. intros r Hr. simpl in Hr. rewrite Hr. exact Hk.
Qed.

(** Among groups of ascending keys, the rows that carry the key of a
    group are the rows made of that group. *)
Lemma rows_of_group (F : cell * list pos_row -> list sku_row)
    (gs : list (cell * list pos_row)) (g0 : cell * list pos_row) :
  (forall g, Forall (fun r => c_style_color r = g.1) (F g)) ->
  StronglySorted key_lt (map fst gs) ->
  Forall (fun g => pd_isna g.1 = false) gs ->
  In g0 gs ->
  rows_of_key g0.1 (flat_map F gs) = F g0.
Proof.
  intros HF Hs Hp Hin. unfold rows_of_key in *.
  induction gs as [|g rest IH]; [contradiction|].
  cbn [map] in Hs. apply StronglySorted_cons in Hs as [Hlt Hs].
  apply Forall_cons in Hp as [Hg Hp].
  cbn [flat_map]. rewrite List.filter_app.
  destruct Hin as [-> | Hin].
  - fold (rows_of_key g0.1 (F g0)). rewrite (rows_of_key_all _ _ Hg (HF g0)).
    assert (Hrest : List.filter (fun r => cell_eqb (c_style_color r) g0.1)
                                (flat_map F rest) = []).
    { apply filter_none_of. apply Forall_forall. intros r Hr.
      apply list_elem_of_In, in_flat_map in Hr as (g' & Hg' & Hr).
      pose proof (HF g') as Hk. rewrite Forall_forall in Hk.
      rewrite (Hk r (proj2 (list_elem_of_In _ _) Hr)).
      rewrite Forall_forall in Hlt.
      rewrite cell_eqb_sym. apply cell_ltb_not_eqb, Hlt.
      apply list_elem_of_In, in_map, Hg'. }
    rewrite Hrest. apply app_nil_r.
  - fold (rows_of_key g0.1 (F g)).
    rewrite (rows_of_key_none g0.1 g.1 (F g)); [apply IH; assumption | | apply HF].
    apply cell_ltb_not_eqb. rewrite Forall_forall in Hlt. apply Hlt.
    apply list_elem_of_In, in_map, Hin.
Qed.

Lemma groupby_keys {A : Type} (key : A -> cell) (rs : list A) :
  map fst (groupby key rs) = group_keys key rs.
Proof. unfold groupby. rewrite map_map. apply map_id. Qed.

Lemma groupby_present {A : Type} (key : A -> cell) (rs : list A) :
  Forall (fun g => pd_isna g.1 = false) (groupby key rs).
Proof.
  pose proof (group_keys_present key rs) as H. rewrite <- groupby_keys in H.
  rewrite Forall_forall in H. rewrite Forall_forall. intros g Hg. apply H.
  apply list_elem_of_fmap. exists g. split; [reflexivity | exact Hg].
Qed.

Lemma existsb_ext {A : Type} (f g : A -> bool) (l : list A) :
  (forall x, f x = g x) -> existsb f l = existsb g l.
Proof.
  intros H. induction l as [|x l IH]; [reflexivity|]. cbn [existsb].
  rewrite H, IH. reflexivity.
Qed.

(** The year-to-date figure a left join brings for a key. *)
Lemma joined_sum_missing (ytd_rows : list pos_row) (k : cell)
    (col : pos_row -> pyfloat) :
  isnan (joined_sum (groupby p_style_color ytd_rows) k col)
  = negb (existsb (fun y => cell_eqb (p_style_color y) k) ytd_rows).
Proof.
  unfold joined_sum.
  pose proof (group_keys_covered p_style_color ytd_rows k) as Hc.
  rewrite <- groupby_keys in Hc. unfold covered in Hc.
  assert (Hex : existsb (fun y => cell_eqb (p_style_color y) k) ytd_rows
                = existsb (fun g => cell_eqb g.1 k) (groupby p_style_color ytd_rows)).
  { rewrite (existsb_ext _ (fun y => cell_eqb k (p_style_color y)) ytd_rows)
      by (intros y; apply cell_eqb_sym).
    rewrite <- Hc. clear Hc.
    induction (groupby p_style_color ytd_rows) as [|g gs IH]; [reflexivity|].
    cbn [map existsb]. rewrite IH, (cell_eqb_sym k g.1). reflexivity. }
  rewrite Hex. clear Hex Hc.
  induction (groupby p_style_color ytd_rows) as [|g gs IH]; [reflexivity|].
  cbn [List.find existsb]. destruct (cell_eqb g.1 k); [reflexivity | exact IH].
Qed.

(** With a ladder that lists no style twice the frame has one row per
    last-week group. *)
Lemma unique_ladder_frame (t : tiers) (lw ytd : pos_table) (lad : ladder_table)
    (frame : list sku_row) :
  sku_frame t lw ytd lad = Ok frame ->
  (forall g, In g (groupby p_style_color (rows lw)) ->
             (length (ladder_matches lad g.1) <= 1)%nat) ->
  map c_style_color frame = group_keys p_style_color (rows lw)
  /\ forall (f : sku_row -> pyfloat) (col : pos_row -> pyfloat),
       (forall g l, f (joined_row t (groupby p_style_color (rows ytd)) lad g l)
                    = Fin (col_sum col g.2)) ->
       col_sum f frame == col_sum col (with_key p_style_color (rows lw)).
Proof.
  intros Hframe Hunique. apply sku_frame_rows in Hframe.
  set (yg := groupby p_style_color (rows ytd)) in *.
  set (F := fun g : cell * list pos_row =>
              match ladder_matches lad g.1 with
              | [] => [joined_row t yg lad g no_ladder_row]
              | ls => map (joined_row t yg lad g) ls
              end) in *.
  assert (Hmap : frame
                 = map (fun g => joined_row t yg lad g
                                   (hd no_ladder_row (ladder_matches lad g.1)))
                       (groupby p_style_color (rows lw))).
  { rewrite Hframe. clear Hframe.
    induction (groupby p_style_color (rows lw)) as [|g gs IH]; [reflexivity|].
    cbn [flat_map map]. rewrite IH.
    - unfold F at 1. pose proof (Hunique g (or_introl eq_refl)) as Hg.
      destruct (ladder_matches lad g.1) as [|l [|l' ls]]; cbn [length] in Hg;
        [reflexivity | reflexivity | lia].
    - intros g' Hg'. apply Hunique. right. exact Hg'. }
  split.
  - rewrite Hmap, map_map. cbn [joined_row c_style_color]. apply groupby_keys.
  - intros f col Hf. rewrite <- groupby_total. rewrite Hmap.
    unfold total. clear - Hf.
    induction (groupby p_style_color (rows lw)) as [|g gs IH]; [reflexivity|].
    cbn [map col_sum foldr]. rewrite Hf. cbn [_safe_float].
    unfold col_sum in IH. rewrite IH. reflexivity.
Qed.

(** X24.  The joined frame of [build_sku_master].  Every row carries the
    style/color of a last-week store row.  The rows that carry the key
    of a last-week group number the ladder rows with that key, and one
    when there is none: a style the ladder lists twice is in the frame,
    and so in the SKU master, twice.  The YTD figures of a row are
    missing exactly when no row of the YTD table carries its key.  When
    the ladder lists no style more than once, the frame has one row per
    last-week style, in ascending order of key, and its six last-week
    measures add up to the column totals over the store rows that have a
    style/color. *)
Theorem joined_frame_rows (t : tiers) (lw ytd : pos_table) (lad : ladder_table)
    (frame : list sku_row) :
  sku_frame t lw ytd lad = Ok frame ->
  Forall (fun r => exists p, In p (rows lw) /\ p_style_color p = c_style_color r
                             /\ pd_isna (c_style_color r) = false) frame
  /\ (forall g, In g (groupby p_style_color (rows lw)) ->
       length (rows_of_key g.1 frame)
       = Nat.max 1 (length (ladder_matches lad g.1)))
  /\ Forall (fun r =>
               isnan (c_sales_dollars_ytd r)
               = negb (existsb (fun y => cell_eqb (p_style_color y) (c_style_color r))
                               (rows ytd))
               /\ isnan (c_sales_units_ytd r) = isnan (c_sales_dollars_ytd r))
            frame
  /\ ((forall g, In g (groupby p_style_color (rows lw)) ->
        (length (ladder_matches lad g.1) <= 1)%nat) ->
      let present := with_key p_style_color (rows lw) in
      map c_style_color frame = group_keys p_style_color (rows lw)
      /\ StronglySorted key_lt (map c_style_color frame)
      /\ col_sum c_sales_units_lw frame == col_sum p_sales_units_lw present
      /\ col_sum c_sales_units_lwly frame == col_sum p_sales_units_lwly present
      /\ col_sum c_sales_dollars_lw frame == col_sum p_sales_dollars_lw present
      /\ col_sum c_sales_dollars_lwly frame == col_sum p_sales_dollars_lwly present
      /\ col_sum c_inventory_units_lw frame == col_sum p_inventory_units_lw present
      /\ col_sum c_inventory_dollars_lw frame
         == col_sum p_inventory_dollars_lw present).
Proof.
  intros Hsku. pose proof (sku_frame_rows _ _ _ _ _ Hsku) as Hframe.
  set (yg := groupby p_style_color (rows ytd)) in Hframe |- *.
  set (F := fun g : cell * list pos_row =>
              match ladder_matches lad g.1 with
              | [] => [joined_row t yg lad g no_ladder_row]
              | ls => map (joined_row t yg lad g) ls
              end) in *.
  assert (HF : forall g, Forall (fun r => c_style_color r = g.1) (F g))
    by (intros g; apply joined_rows_keys).
  pose proof (groupby_present p_style_color (rows lw)) as Hp.
  pose proof (group_keys_sorted p_style_color (rows lw)) as Hs.
  rewrite <- groupby_keys in Hs.
  assert (Hrow : forall r, In r frame ->
                   exists g l, In g (groupby p_style_color (rows lw))
                               /\ r = joined_row t yg lad g l).
  { intros r Hr. rewrite Hframe in Hr.
    apply in_flat_map in Hr as (g & Hg & Hr). exists g.
    unfold F in Hr. destruct (ladder_matches lad g.1) as [|l ls].
    - destruct Hr as [<- | []]. exists no_ladder_row. split; [exact Hg | reflexivity].
    - apply in_map_iff in Hr as (l' & <- & _). exists l'.
      split; [exact Hg | reflexivity]. }
  split; [|split; [|split]].
  - apply Forall_forall. intros r Hr. apply list_elem_of_In in Hr.
    destruct (Hrow r Hr) as (g & l & Hg & ->). cbn [joined_row c_style_color].
    pose proof (group_keys_from_rows p_style_color (rows lw)) as Hk.
    rewrite <- groupby_keys in Hk. rewrite Forall_forall in Hk.
    destruct (Hk g.1) as (p & Hin & Hkey).
    { apply list_elem_of_In, in_map, Hg. }
    exists p. split; [exact Hin|]. split; [exact Hkey|].
    rewrite Forall_forall in Hp. apply Hp, list_elem_of_In, Hg.
  - intros g Hg. rewrite Hframe.
    rewrite (rows_of_group F _ g HF Hs Hp Hg). apply joined_rows_length.
  - apply Forall_forall. intros r Hr. apply list_elem_of_In in Hr.
    destruct (Hrow r Hr) as (g & l & Hg & ->).
    cbn [joined_row c_style_color c_sales_dollars_ytd c_sales_units_ytd].
    unfold yg. rewrite !joined_sum_missing. split; reflexivity.
  - intros Hunique present. subst present.
    assert (Hok : sku_frame t lw ytd lad = Ok frame) by exact Hsku.
    destruct (unique_ladder_frame t lw ytd lad frame Hok Hunique) as [Hkeys Hsum].
    split; [exact Hkeys|]. split; [rewrite Hkeys; apply group_keys_sorted|].
    repeat split; apply Hsum; reflexivity.
Qed.

Lemma joined_frame_rows_witness :
  exists frame,
    sku_frame (tier_assignments init) pos_complete pos_complete ladder_twice
    = Ok frame
    /\ length (rows_of_key (CStr "A1") frame) = 2%nat
    /\ length frame = 4%nat.
Proof.
  destruct (sku_frame (tier_assignments init) pos_complete pos_complete
              ladder_twice) as [frame|e] eqn:E;
    [|vm_compute in E; discriminate E].
  exists frame. split; [reflexivity|].
  destruct (joined_frame_rows _ _ _ _ _ E) as (_ & Hcount & _).
  split.
  - assert (Hin : In (CStr "A1",
                      List.filter (fun r => cell_eqb (p_style_color r) (CStr "A1"))
                                  (rows pos_complete))
                     (groupby p_style_color (rows pos_complete))).
    { vm_compute. left. reflexivity. }
    pose proof (Hcount _ Hin) as H. cbn [fst] in H. rewrite H. reflexivity.
  - vm_compute in E. injection E as <-. reflexivity.
Defined.

(** Keys in strictly ascending order are pairwise distinct. *)
Lemma sorted_keys_NoDup (ks : list cell) :
  StronglySorted key_lt ks -> NoDup ks.
Proof.
  induction 1 as [|k ks _ IH Hlt]; constructor; [|exact IH].
  intros Hin. rewrite Forall_forall in Hlt. specialize (Hlt k Hin).
  pose proof (cell_ltb_not_eqb k k Hlt) as Hne. unfold key_lt in Hlt.
  destruct k as [[x|]|str|]; simpl in Hlt, Hne; try discriminate.
  - assert (E : Qeq_bool x x = true) by (apply Qeq_bool_iff; reflexivity).
    congruence.
  - rewrite String.eqb_refl in Hne. discriminate.
Qed.

Lemma sku_loop_field (field : sku_record -> Q) (h : sku_row -> Q) t ti c frame :
  (forall c' row, field (sku_record_of t ti c' row).1 = h row) ->
  map field (sku_loop t ti c frame) = map h frame.
Proof.
  intros H. revert c. induction frame as [|row rest IH]; intros c; [reflexivity|].
  rewrite sku_loop_cons. cbn [map]. rewrite H, IH. reflexivity.
Qed.

(** The sum of a measure over the master is its sum over the frame. *)
Lemma master_total (sort_values : list sku_row -> list sku_row)
    (field : sku_record -> Q) (col : sku_row -> pyfloat) (frame : list sku_row) :
  (forall l, sort_values l ≡ₚ l) ->
  (forall t ti c row, field (sku_record_of t ti c row).1 = _safe_float (col row) 0) ->
  total field (sku_master_of sort_values frame) == col_sum col frame.
Proof.
  intros Hperm Hfield. unfold total, sku_master_of.
  rewrite (sku_loop_field field (fun r => _safe_float (col r) 0));
    [|intros; apply Hfield].
  rewrite (sum_of_map col). apply col_sum_perm, Hperm.
Qed.

(** X25.  From the store rows to the SKU master.  When the ladder lists
    no last-week style more than once, a build that succeeds yields one
    SKU per last-week style/color, and each of the six last-week measures
    adds up, over the SKU master, to the column total over the store rows
    that have a style/color; so the SKU master agrees with the weekly
    summary of the same table on all six totals when every store row has
    a style/color. *)
Theorem sku_master_matches_pos (sort_values : list sku_row -> list sku_row)
    (s s' : etl) (lw : pos_table) (lad : ladder_table) :
  (forall l, sort_values l ≡ₚ l) ->
  pos_lw s = Some lw -> ladder s = Some lad ->
  (forall g, In g (groupby p_style_color (rows lw)) ->
             (length (ladder_matches lad g.1) <= 1)%nat) ->
  build_sku_master sort_values s = Ok s' ->
  let present := with_key p_style_color (rows lw) in
  map sku (sku_master s') ≡ₚ group_keys p_style_color (rows lw)
  /\ NoDup (map sku (sku_master s'))
  /\ total sales_units_lw (sku_master s') == col_sum p_sales_units_lw present
  /\ total sales_units_lwly (sku_master s') == col_sum p_sales_units_lwly present
  /\ total sales_dollars_lw (sku_master s') == col_sum p_sales_dollars_lw present
  /\ total sales_dollars_lwly (sku_master s') == col_sum p_sales_dollars_lwly present
  /\ total inventory_units_lw (sku_master s') == col_sum p_inventory_units_lw present
  /\ total inventory_dollars_lw (sku_master s')
     == col_sum p_inventory_dollars_lw present
  /\ (forall w, weekly_summary_of lw = Ok w ->
                without_key p_style_color (rows lw) = [] ->
                ws_sales_units_lw w == total sales_units_lw (sku_master s')
                /\ ws_sales_dollars_lw w == total sales_dollars_lw (sku_master s')
                /\ ws_inventory_units_lw w
                   == total inventory_units_lw (sku_master s')
                /\ ws_inventory_dollars_lw w
                   == total inventory_dollars_lw (sku_master s')).
Proof.
  intros Hperm Hlw Hlad Hunique Hbuild present.
  unfold build_sku_master in Hbuild. rewrite Hlw, Hlad in Hbuild.
  destruct (pos_ytd s) as [ytd|]; [|discriminate].
  destruct (sku_frame (tier_assignments s) lw ytd lad) as [frame|e] eqn:Hframe;
    unfold_result; [|discriminate].
  injection Hbuild as <-. cbn [sku_master set_sku_master].
  destruct (unique_ladder_frame _ _ _ _ _ Hframe Hunique) as [Hkeys Hsum].
  assert (Hmaster : map sku (sku_master_of sort_values frame)
                    ≡ₚ group_keys p_style_color (rows lw)).
  { unfold sku_master_of. rewrite sku_loop_keys, <- Hkeys.
    apply Permutation_map, Hperm. }
  assert (T1 : total sales_units_lw (sku_master_of sort_values frame)
               == col_sum p_sales_units_lw present).
  { rewrite (master_total sort_values _ c_sales_units_lw frame Hperm);
      [apply Hsum|]; reflexivity. }
  assert (T2 : total sales_units_lwly (sku_master_of sort_values frame)
               == col_sum p_sales_units_lwly present).
  { rewrite (master_total sort_values _ c_sales_units_lwly frame Hperm);
      [apply Hsum|]; reflexivity. }
  assert (T3 : total sales_dollars_lw (sku_master_of sort_values frame)
               == col_sum p_sales_dollars_lw present).
  { rewrite (master_total sort_values _ c_sales_dollars_lw frame Hperm);
      [apply Hsum|]; reflexivity. }
  assert (T4 : total sales_dollars_lwly (sku_master_of sort_values frame)
               == col_sum p_sales_dollars_lwly present).
  { rewrite (master_total sort_values _ c_sales_dollars_lwly frame Hperm);
      [apply Hsum|]; reflexivity. }
  assert (T5 : total inventory_units_lw (sku_master_of sort_values frame)
               == col_sum p_inventory_units_lw present).
  { rewrite (master_total sort_values _ c_inventory_units_lw frame Hperm);
      [apply Hsum|]; reflexivity. }
  assert (T6 : total inventory_dollars_lw (sku_master_of sort_values frame)
               == col_sum p_inventory_dollars_lw present).
  { rewrite (master_total sort_values _ c_inventory_dollars_lw frame Hperm);
      [apply Hsum|]; reflexivity. }
  split; [exact Hmaster|]. split.
  - rewrite Hmaster. apply sorted_keys_NoDup, group_keys_sorted.
  - do 6 (split; [assumption|]).
    intros w Hw Hall.
    pose proof (weekly_summary_cases lw) as Hc.
    destruct (first_absent (columns lw) weekly_cols); [congruence|].
    destruct Hc as (w' & Ew & H1 & _ & H3 & _ & H5 & H6).
    rewrite Hw in Ew. injection Ew as <-.
    rewrite H1, H3, H5, H6, T1, T3, T5, T6. subst present.
    rewrite (col_sum_by_key p_sales_units_lw p_style_color (rows lw)).
    rewrite (col_sum_by_key p_sales_dollars_lw p_style_color (rows lw)).
    rewrite (col_sum_by_key p_inventory_units_lw p_style_color (rows lw)).
    rewrite (col_sum_by_key p_inventory_dollars_lw p_style_color (rows lw)).
    rewrite Hall. cbn [col_sum foldr]. repeat split; ring.
Qed.

Lemma sku_master_matches_pos_witness :
  exists s',
    build_sku_master sort_values_desc loaded = Ok s'
    /\ total sales_units_lw (sku_master s') == 55
    /\ NoDup (map sku (sku_master s')).
Proof.
  destruct (build_sku_master sort_values_desc loaded) as [s'|e] eqn:E;
    [|vm_compute in E; discriminate E].
  exists s'. split; [reflexivity|].
  assert (Hunique : forall g, In g (groupby p_style_color (rows pos_complete)) ->
                      (length (ladder_matches ladder_sample g.1) <= 1)%nat).
  { intros g Hg. vm_compute in Hg.
    repeat (destruct Hg as [<- | Hg]; [vm_compute; lia|]). contradiction. }
  destruct (sku_master_matches_pos sort_values_desc loaded s' pos_complete
              ladder_sample sort_values_desc_perm eq_refl eq_refl Hunique E)
    as (_ & Hnodup & Hunits & _).
  split; [rewrite Hunits; reflexivity | exact Hnodup].
Defined.

End Joins.

(** ** Ladder attributes of the SKU master *)

Section LadderAttributes.

Import Etl Claims Notions Samples.

(** Where a row of the joined frame comes from. *)
Lemma frame_row_origin (t : tiers) (lw ytd : pos_table) (lad : ladder_table)
    (frame : list sku_row) (r : sku_row) :
  sku_frame t lw ytd lad = Ok frame ->
  In r frame ->
  exists g l,
    In g (groupby p_style_color (rows lw))
    /\ r = joined_row t (groupby p_style_color (rows ytd)) lad g l
    /\ ((l = no_ladder_row /\ ladder_matches lad g.1 = [])
        \/ In l (ladder_matches lad g.1)).
Proof.
  intros Hframe Hr. apply sku_frame_rows in Hframe. rewrite Hframe in Hr.
  apply in_flat_map in Hr as (g & Hg & Hr). exists g.
  destruct (ladder_matches lad g.1) as [|l ls] eqn:Hm.
  - destruct Hr as [<- | []]. exists no_ladder_row.
    split; [exact Hg|]. split; [reflexivity|]. left. split; reflexivity.
  - apply in_map_iff in Hr as (l' & <- & Hl'). exists l'.
    split; [exact Hg|]. split; [reflexivity|]. right. exact Hl'.
Qed.

Lemma sku_loop_origin t ti c frame (r : sku_record) :
  In r (sku_loop t ti c frame) ->
  exists c' row, In row frame /\ r = (sku_record_of t ti c' row).1.
Proof.
  revert c. induction frame as [|row rest IH]; intros c; [contradiction|].
  rewrite sku_loop_cons. intros [<- | Hin].
  - exists c, row. split; [left; reflexivity | reflexivity].
  - destruct (IH _ Hin) as (c' & row' & Hrow & Hr).
    exists c', row'. split; [right; exact Hrow | exact Hr].
Qed.

(** X27.  The ladder attributes of a SKU record after a build that
    succeeds.  A record whose style the ladder does not list gets, for
    each text attribute, the missing value NaN where the ladder has the
    column (the default '' of [row.get] applies only where the ladder
    lacks the column), and an AUR of 0.0; a record whose style the ladder
    lists gets the attributes of one of the ladder rows of that style,
    its AUR being 0.0 where that row's is missing. *)
Theorem ladder_attributes (sort_values : list sku_row -> list sku_row)
    (s s' : etl) (lad : ladder_table) (r : sku_record) :
  (forall l, sort_values l ≡ₚ l) ->
  ladder s = Some lad ->
  build_sku_master sort_values s = Ok s' ->
  In r (sku_master s') ->
  (ladder_matches lad (sku r) = [] ->
   sku_fineline r = attribute_of lad "Fineline" (CFloat NaN)
   /\ description r = attribute_of lad "Item Description" (CFloat NaN)
   /\ color r = attribute_of lad "Color" (CFloat NaN)
   /\ gender r = attribute_of lad "Gender" (CFloat NaN)
   /\ category r = attribute_of lad "Category" (CFloat NaN)
   /\ sub_category r = attribute_of lad "Sub Category" (CFloat NaN)
   /\ aur_ty r = 0 /\ aur_ly r = 0)
  /\ (ladder_matches lad (sku r) <> [] ->
      exists l,
        In l (ladder_matches lad (sku r))
        /\ sku_fineline r = attribute_of lad "Fineline" (l_fineline l)
        /\ description r = attribute_of lad "Item Description" (l_description l)
        /\ color r = attribute_of lad "Color" (l_color l)
        /\ gender r = attribute_of lad "Gender" (l_gender l)
        /\ category r = attribute_of lad "Category" (l_category l)
        /\ sub_category r = attribute_of lad "Sub Category" (l_sub_category l)
        /\ aur_ty r = _safe_float (row_get (ladder_attr lad "AUR TY" (l_aur_ty l))
                                           (Fin 0)) 0
        /\ aur_ly r = _safe_float (row_get (ladder_attr lad "AUR LY" (l_aur_ly l))
                                           (Fin 0)) 0).
Proof.
  intros Hperm Hlad Hbuild Hr.
  unfold build_sku_master in Hbuild. rewrite Hlad in Hbuild.
  destruct (pos_lw s) as [lw|]; [|discriminate].
  destruct (pos_ytd s) as [ytd|]; [|discriminate].
  destruct (sku_frame (tier_assignments s) lw ytd lad) as [frame|e] eqn:Hframe;
    unfold_result; [|discriminate].
  injection Hbuild as <-. cbn [sku_master set_sku_master] in Hr.
  unfold sku_master_of in Hr.
  apply sku_loop_origin in Hr as (c & row & Hrow & ->).
  assert (Hin : In row frame).
  { apply list_elem_of_In. rewrite <- (Hperm frame). apply list_elem_of_In, Hrow. }
  destruct (frame_row_origin _ _ _ _ _ _ Hframe Hin) as (g & l & _ & -> & Hl).
  cbn [sku_record_of fst sku sku_fineline description color gender category
       sub_category aur_ty aur_ly joined_row c_style_color c_fineline
       c_description c_color c_gender c_category c_sub_category c_aur_ty c_aur_ly].
  unfold attribute_of. split.
  - intros Hnone. destruct Hl as [[-> _] | Hl]; [|rewrite Hnone in Hl; contradiction].
    cbn [no_ladder_row l_fineline l_description l_color l_gender l_category
         l_sub_category l_aur_ty l_aur_ly].
    repeat split; unfold ladder_attr; case_bool_decide; reflexivity.
  - intros Hsome. destruct Hl as [[_ Hnone] | Hl]; [congruence|].
    exists l. split; [exact Hl|]. repeat split.
Qed.

Lemma ladder_attributes_witness :
  exists s',
    build_sku_master sort_values_desc loaded = Ok s'
    /\ Forall (fun r => sku r <> CStr "A1" ->
                        color r = CFloat NaN /\ description r = CStr "")
              (sku_master s').
Proof.
  destruct (build_sku_master sort_values_desc loaded) as [s'|e] eqn:E;
    [|vm_compute in E; discriminate E].
  exists s'. split; [reflexivity|].
  apply Forall_forall. intros r Hr Hkey. apply list_elem_of_In in Hr.
  destruct (ladder_attributes sort_values_desc loaded s' ladder_sample r
              sort_values_desc_perm eq_refl E Hr) as [Hnone _].
  assert (Hm : ladder_matches ladder_sample (sku r) = []).
  { unfold ladder_matches, ladder_sample. cbn [l_rows List.filter l_style_color].
    destruct (sku r) as [x|str|]; cbn [cell_eqb]; try reflexivity.
    destruct (String.eqb "A1" str) eqn:Es; [|reflexivity].
    apply String.eqb_eq in Es. subst str. exfalso. apply Hkey. reflexivity. }
  destruct (Hnone Hm) as (_ & Hd & Hc & _).
  split; [rewrite Hc | rewrite Hd]; reflexivity.
Defined.

End LadderAttributes.

(** ** Summary metrics and unsold sizes *)

Section SummaryMetrics.

Import Etl Velocity Claims Notions Samples.

(** X28.  [calculate_summary_metrics]: the three tier counts are the
    sizes of the three tier sets, whatever the SKU master holds; avg_wos
    is 0.0 for an empty master and otherwise the mean of the WOS of the
    SKUs, which lies between any two bounds that hold of every SKU. *)
Theorem summary_metrics_average (s : etl) :
  let m := calculate_summary_metrics s in
  tier_a_count m = size (tier_A (tier_assignments s))
  /\ tier_b_count m = size (tier_B (tier_assignments s))
  /\ tier_c_count m = size (tier_C (tier_assignments s))
  /\ (sku_master s = [] -> metrics_avg_wos m = 0)
  /\ (sku_master s <> [] ->
      metrics_avg_wos m
      = total sku_wos (sku_master s) / nat_Q (length (sku_master s)))
  /\ (forall lo hi,
        sku_master s <> [] ->
        Forall (fun r => lo <= sku_wos r /\ sku_wos r <= hi) (sku_master s) ->
        lo <= metrics_avg_wos m /\ metrics_avg_wos m <= hi).
Proof.
  intros m. subst m. unfold calculate_summary_metrics.
  cbn [tier_a_count tier_b_count tier_c_count metrics_avg_wos].
  do 3 (split; [reflexivity|]).
  assert (Hmean : sku_master s <> [] ->
            match map sku_wos (sku_master s) with
            | [] => 0
            | _ :: _ =>
                foldr Qplus 0 (map sku_wos (sku_master s))
                / inject_Z (Z.of_nat (length (map sku_wos (sku_master s))))
            end
            = total sku_wos (sku_master s) / nat_Q (length (sku_master s))).
  { intros Hne. rewrite length_map. unfold total, nat_Q.
    destruct (sku_master s); [congruence | reflexivity]. }
  split; [intros ->; reflexivity|]. split; [exact Hmean|].
  intros lo hi Hne Hall. rewrite (Hmean Hne). unfold total.
  rewrite <- (length_map sku_wos). apply mean_bounds.
  - destruct (sku_master s); [congruence | discriminate].
  - clear - Hall. induction Hall as [|r l Hr _ IH]; constructor; assumption.
Qed.

(** X29.  An unsold size, from the velocity row to the size analysis: a
    row whose 'LW POS Qty' cell is absent, [None] or zero yields a record
    with sales 0.0 and WOS 0.0, whatever its inventory; such a size is
    never counted productive, and is counted dead exactly when its
    inventory units are positive. *)
Theorem unsold_size_classified (show_float : Q -> string)
    (float_of_str : string -> result pyfloat) (int_of_str : string -> result Z)
    (row : gmap string cell) (k : string) (p : prime_item) :
  map_row show_float float_of_str int_of_str row = Ok (Some (k, p)) ->
  cell_truthy (get row "LW POS Qty" (CFloat (Fin 0))) = false ->
  lw_pos_qty p = Fin 0
  /\ f_equal (wos p) 0
  /\ is_productive p = false
  /\ is_dead p = f_gt (lw_inv_units p) (Fin 0).
Proof.
  intros Hrow Hqty. unfold Velocity.map_row in Hrow.
  destruct (String.eqb _ "" || pd_isna _)%bool; [discriminate|].
  unfold_result.
  destruct (inv_units_and_wos row) as [[[[a b] c] d]|e] eqn:Hinv; [|discriminate].
  apply inv_units_and_wos_ok in Hinv as (Ha & _ & _ & Hwos).
  unfold cell_or in Ha. rewrite Hqty in Ha. subst a.
  unfold wos_of in Hwos. cbn [gt_zero] in Hwos. unfold_result.
  assert (Hz : f_gt (Fin 0) (Fin 0) = false) by reflexivity.
  rewrite Hz in Hwos. injection Hwos as <-.
  cbn [py_float] in Hrow.
  destruct (py_float float_of_str c) as [fc|]; [|discriminate].
  destruct (py_float float_of_str b) as [fb|]; [|discriminate].
  destruct (py_int int_of_str _) as [n|]; [|discriminate].
  destruct (py_float float_of_str _) as [fr|]; [|discriminate].
  destruct (py_float float_of_str _) as [fu|]; [|discriminate].
  injection Hrow as _ <-.
  unfold is_productive, is_dead.
  cbn [lw_pos_qty wos lw_inv_units f_round].
  split; [reflexivity|]. split; [|split; reflexivity].
  exists (py_round 0 1). split; reflexivity.
Qed.

End SummaryMetrics.

Section SummaryMetricsSamples.

Import Etl Velocity Claims Notions Samples.

Lemma unsold_size_classified_witness :
  exists p,
    map_row (fun _ => "0"%string)
      (fun _ => Raise (ValueError "could not convert string to float"))
      (fun _ => Raise (ValueError "invalid literal for int()"))
      row_unsold
    = Ok (Some ("EU1939BK"%string, p))
    /\ is_productive p = false
    /\ is_dead p = true.
Proof.
  destruct (map_row (fun _ => "0"%string)
              (fun _ => Raise (ValueError "could not convert string to float"))
              (fun _ => Raise (ValueError "invalid literal for int()"))
              row_unsold) as [[[k p]|]|e] eqn:E;
    [|vm_compute in E; discriminate E|vm_compute in E; discriminate E].
  assert (Hk : k = "EU1939BK"%string).
  { vm_compute in E. injection E as <- _. reflexivity. }
  subst k. exists p. split; [reflexivity|].
  destruct (unsold_size_classified _ _ _ row_unsold "EU1939BK" p E eq_refl)
    as (_ & _ & Hp & Hd).
  split; [exact Hp|]. rewrite Hd.
  vm_compute in E. injection E as <-. reflexivity.
Defined.

End SummaryMetricsSamples.

(** ** The shares of the dashboard and of the SKU master *)

Section DashboardShares.

Import Etl Velocity Html Claims Notions Samples.

Variable show_float : Q -> string.

Lemma Forall2_Forall_l {A B : Type} (P : A -> Prop) (R Q : A -> B -> Prop)
    (l : list A) (l' : list B) :
  Forall P l -> Forall2 R l l' ->
  (forall x y, P x -> R x y -> Q x y) -> Forall2 Q l l'.
Proof.
  intros HP HR Himp. induction HR as [|x y l l' Hxy _ IH]; [constructor|].
  apply Forall_cons in HP as [Hx HP].
  constructor; [apply (Himp x y Hx Hxy) | apply IH, HP].
Qed.

(** X30.  The dashboard and the SKU master take their sales shares of
    one and the same total.  Over the SKU master of a frame whose YTD
    sales total is positive, when the description of every record can be
    escaped (otherwise [build_sku_js_array] raises),
    [build_sku_js_array] divides by the total [build_sku_master] divided
    by: Pct_of_Sales is the ratio of the SKU's sales to that total, in
    percent and rounded to one decimal, and for a SKU with positive sales
    sales_pct_of_total is the same ratio rounded to six decimals. *)
Theorem dashboard_shares_agree (sort_values : list sku_row -> list sku_row)
    (sku_df : list sku_row) :
  (forall l, sort_values l ≡ₚ l) ->
  0 < total_sales_ytd_of sku_df ->
  Forall (fun s => describable s = true) (sku_master_of sort_values sku_df) ->
  exists rows,
    js_rows show_float (sku_master_of sort_values sku_df) = Ok rows
    /\ Forall2 (fun s r =>
                  Item_Key r = sku s
                  /\ Pct_of_Sales r
                     == py_round (sales_dollars_ytd s / total_sales_ytd_of sku_df * 100) 1
                  /\ (0 < sales_dollars_ytd s ->
                      sales_pct_of_total s
                      = py_round (sales_dollars_ytd s / total_sales_ytd_of sku_df) 6))
               (sku_master_of sort_values sku_df) rows.
Proof.
  intros Hperm Hpos Hdesc.
  set (master := sku_master_of sort_values sku_df) in *.
  assert (Htotal : total sales_dollars_ytd master == total_sales_ytd_of sku_df).
  { unfold master. rewrite (master_total sort_values _ c_sales_dollars_ytd sku_df Hperm);
      [|reflexivity].
    unfold total_sales_ytd_of. rewrite total_or_zero_eq. reflexivity. }
  assert (Hshare : Forall (fun s => 0 < sales_dollars_ytd s ->
                             sales_pct_of_total s
                             = py_round (sales_dollars_ytd s
                                         / total_sales_ytd_of sku_df) 6) master).
  { unfold master, sku_master_of. apply sku_loop_Forall. intros c row _.
    rewrite sales_pct_of_record.
    cbn [sku_record_of fst sales_dollars_ytd]. fold (ytd_of row).
    intros Hrow. apply Qltb_lt in Hpos, Hrow. rewrite Hpos, Hrow. reflexivity. }
  unfold js_rows, compute_totals.
  destruct (guarded_total inventory_dollars_lw master) as [Hti _].
  cbv zeta in Hti.
  pose proof (py_sum_total sales_dollars_ytd master) as Hsum.
  set (x := py_sum (map (fun s => or_zero (sales_dollars_ytd s)) master)) in *.
  set (ti := if Qeq_bool (py_sum (map (fun s => or_zero (inventory_dollars_lw s))
                                     master)) 0
             then 1
             else py_sum (map (fun s => or_zero (inventory_dollars_lw s)) master)) in *.
  assert (Hx : x == total_sales_ytd_of sku_df) by (rewrite Hsum; exact Htotal).
  assert (Hnz : Qeq_bool x 0 = false).
  { destruct (Qeq_bool x 0) eqn:E; [|reflexivity].
    apply Qeq_bool_iff in E. lra. }
  rewrite Hnz.
  destruct (js_rows_loop_ok show_float x ti master Hnz Hti Hdesc)
    as (rows & Hrows & Hall).
  exists rows. split; [exact Hrows|].
  apply (Forall2_Forall_l _ _ _ _ _ Hshare Hall).
  intros s0 r Hs (d & _ & ->). cbn [Item_Key Pct_of_Sales].
  split; [reflexivity|]. split; [|exact Hs].
  apply py_round_comp. rewrite or_zero_eq, Hx. reflexivity.
Qed.

End DashboardShares.

Section DashboardSharesSamples.

Import Etl Velocity Html Claims Notions Samples.

Lemma dashboard_shares_agree_witness :
  Forall (fun s => describable s = true)
         (sku_master_of sort_values_desc frame_with_missing)
  /\ exists rows,
       js_rows (fun _ => "0"%string)
               (sku_master_of sort_values_desc frame_with_missing) = Ok rows
       /\ Forall2 Qeq (map Pct_of_Sales rows) [100; 0; 0].
Proof.
  assert (Hpos : 0 < total_sales_ytd_of frame_with_missing) by reflexivity.
  assert (Hdesc : Forall (fun s => describable s = true)
                         (sku_master_of sort_values_desc frame_with_missing)).
  { vm_compute. repeat constructor. }
  split; [exact Hdesc|].
  destruct (dashboard_shares_agree (fun _ => "0"%string) sort_values_desc
              frame_with_missing sort_values_desc_perm Hpos Hdesc)
    as (rows & Hrows & _).
  exists rows. split; [exact Hrows|].
  vm_compute in Hrows. injection Hrows as <-.
  repeat constructor.
Defined.

End DashboardSharesSamples.

(** ** Running again *)

Section Rerun.

Import Etl Claims Notions Samples.

(** What a run returns, by the outcome of its stages. *)
Lemma run_ok (sort_values : list sku_row -> list sku_row) (w : world) (s s1 : etl) :
  stages sort_values w s = Ok s1 ->
  run sort_values w s
  = {| success := true; failure_line := None;
       files := <["meta.json" := AMeta (meta s1)]>
                  (<["action_items.json" := action_items s1]>
                     (<["seasonal_risk.json" := seasonal_risk s1]>
                        (<["weekly_sales_summary.json"
                             := AWeeklySummary (weekly_summary s1)]>
                           (<["fineline_rollup.json"
                                := AFinelineRollup (fineline_rollup s1)]>
                              (<["sku_master.json" := ASkuMaster (sku_master s1)]>
                                 (output_dir w)))))) |}.
Proof. intros E. unfold run. rewrite E. reflexivity. Qed.

Lemma run_raise (sort_values : list sku_row -> list sku_row) (w : world) (s : etl)
    (e : exn) :
  stages sort_values w s = Raise e ->
  run sort_values w s
  = {| success := false;
       failure_line := Some ("ETL FAILED: " +:+ exn_message e);
       files := output_dir w |}.
Proof. intros E. unfold run. rewrite E. reflexivity. Qed.

(** The stages read the output directory for the two files only, and
    the clock for the time stamp of the meta only. *)
Lemma stages_read (sort_values : list sku_row -> list sku_row) (w w' : world)
    (s s1 : etl) :
  pos_workbook w' = pos_workbook w ->
  velocity_workbook w' = velocity_workbook w ->
  output_dir w' !! "seasonal_risk.json"%string = Some (seasonal_risk s1) ->
  output_dir w' !! "action_items.json"%string = Some (action_items s1) ->
  stages sort_values w s = Ok s1 ->
  exists m,
    meta s1 = Some {| generated_at := utcnow w +:+ "Z";
                      source_files := source_names w;
                      meta_metrics := m |}
    /\ stages sort_values w' s
       = Ok (set_meta (Some {| generated_at := utcnow w' +:+ "Z";
                               source_files := source_names w';
                               meta_metrics := m |}) s1).
Proof.
  intros Hp Hv. unfold stages, load_pos_data, load_ladder_data.
  rewrite Hp, Hv.
  destruct (pos_workbook w) as [df|]; [|discriminate]. unfold_result.
  destruct (build_sku_master sort_values _) as [s2|]; [|discriminate].
  destruct (build_fineline_rollup s2) as [s3|]; [|discriminate].
  destruct (build_weekly_sales_summary s3) as [s4|]; [|discriminate].
  unfold load_seasonal_risk_and_actions, build_meta.
  intros Hr Ha E. injection E as E. rewrite <- E in Hr, Ha |- *.
  cbn [seasonal_risk action_items set_meta set_metrics set_risk_and_actions]
    in Hr, Ha.
  rewrite Hr, Ha. eexists. split; reflexivity.
Qed.

Lemma append_Z_inj (a b : string) : a +:+ "Z" = b +:+ "Z" -> a = b.
Proof.
  revert b. induction a as [|c a IH]; intros [|d b]; cbn; intros H.
  - reflexivity.
  - injection H as _ H. destruct b; discriminate H.
  - injection H as _ H. destruct a; discriminate H.
  - injection H as -> H. f_equal. apply IH, H.
Qed.

(** X26.  A second run, at the time [now], of an object in the same
    state over the same workbooks and the directory a successful run
    left: it succeeds too; it leaves every file other than meta.json as
    it found it (in particular the seasonal-risk and action-item files
    it reads back are the ones the first run wrote); it rewrites
    meta.json with the same source files and metrics under its own time
    stamp.  So the run leaves the directory as it found it only when the
    clock reads what it read at the first run. *)
Theorem rerun_rewrites_meta (sort_values : list sku_row -> list sku_row)
    (w : world) (s : etl) (now : string) :
  success (run sort_values w s) = true ->
  let first := run sort_values w s in
  let second := run sort_values (after_run sort_values w s now) s in
  success second = true
  /\ failure_line second = None
  /\ (forall name, name <> "meta.json"%string ->
                   files second !! name = files first !! name)
  /\ (exists m,
        files first !! "meta.json"%string
        = Some (AMeta (Some {| generated_at := utcnow w +:+ "Z";
                               source_files := source_names w;
                               meta_metrics := m |}))
        /\ files second !! "meta.json"%string
           = Some (AMeta (Some {| generated_at := now +:+ "Z";
                                  source_files := source_names w;
                                  meta_metrics := m |})))
  /\ (files second = files first <-> now = utcnow w).
Proof.
  intros Hs first second.
  destruct (stages sort_values w s) as [s1|e] eqn:E;
    [|unfold run in Hs; rewrite E in Hs; discriminate Hs].
  assert (Hfirst : first = run sort_values w s) by reflexivity.
  rewrite (run_ok _ _ _ _ E) in Hfirst.
  destruct (stages_read sort_values w (after_run sort_values w s now) s s1)
    as (m & Hmeta & Hstages); try reflexivity; try exact E.
  { unfold after_run. cbn [output_dir]. rewrite (run_ok _ _ _ _ E). cbn [files].
    simplify_map_eq. reflexivity. }
  { unfold after_run. cbn [output_dir]. rewrite (run_ok _ _ _ _ E). cbn [files].
    simplify_map_eq. reflexivity. }
  assert (Hsecond : second = run sort_values (after_run sort_values w s now) s)
    by reflexivity.
  rewrite (run_ok _ _ _ _ Hstages) in Hsecond.
  cbn [meta action_items seasonal_risk weekly_summary fineline_rollup sku_master
       set_meta] in Hsecond.
  unfold after_run in Hsecond. cbn [output_dir utcnow source_names] in Hsecond.
  fold first in Hsecond. rewrite Hfirst in Hsecond. cbn [files] in Hsecond.
  clearbody first second. subst first second. cbn [success failure_line files].
  rewrite Hmeta.
  assert (Hothers : forall name, name <> "meta.json"%string ->
            (<["meta.json"%string := AMeta (Some {| generated_at := now +:+ "Z";
                                          source_files := source_names w;
                                          meta_metrics := m |})]>
               (<["action_items.json"%string := action_items s1]>
                  (<["seasonal_risk.json"%string := seasonal_risk s1]>
                     (<["weekly_sales_summary.json"%string
                          := AWeeklySummary (weekly_summary s1)]>
                        (<["fineline_rollup.json"%string
                             := AFinelineRollup (fineline_rollup s1)]>
                           (<["sku_master.json"%string := ASkuMaster (sku_master s1)]>
            (<["meta.json"%string := AMeta (Some {| generated_at := utcnow w +:+ "Z";
                                          source_files := source_names w;
                                          meta_metrics := m |})]>
               (<["action_items.json"%string := action_items s1]>
                  (<["seasonal_risk.json"%string := seasonal_risk s1]>
                     (<["weekly_sales_summary.json"%string
                          := AWeeklySummary (weekly_summary s1)]>
                        (<["fineline_rollup.json"%string
                             := AFinelineRollup (fineline_rollup s1)]>
                           (<["sku_master.json"%string := ASkuMaster (sku_master s1)]>
                              (output_dir w)))))))))))))
            !! name
            = (<["meta.json"%string := AMeta (Some {| generated_at := utcnow w +:+ "Z";
                                          source_files := source_names w;
                                          meta_metrics := m |})]>
               (<["action_items.json"%string := action_items s1]>
                  (<["seasonal_risk.json"%string := seasonal_risk s1]>
                     (<["weekly_sales_summary.json"%string
                          := AWeeklySummary (weekly_summary s1)]>
                        (<["fineline_rollup.json"%string
                             := AFinelineRollup (fineline_rollup s1)]>
                           (<["sku_master.json"%string := ASkuMaster (sku_master s1)]>
                              (output_dir w))))))) !! name).
  { intros name N1.
    destruct (decide (name = "action_items.json"%string)) as [-> | N2];
      [simplify_map_eq; reflexivity|].
    destruct (decide (name = "seasonal_risk.json"%string)) as [-> | N3];
      [simplify_map_eq; reflexivity|].
    destruct (decide (name = "weekly_sales_summary.json"%string)) as [-> | N4];
      [simplify_map_eq; reflexivity|].
    destruct (decide (name = "fineline_rollup.json"%string)) as [-> | N5];
      [simplify_map_eq; reflexivity|].
    destruct (decide (name = "sku_master.json"%string)) as [-> | N6];
      [simplify_map_eq; reflexivity|].
    simplify_map_eq. reflexivity. }
  split; [reflexivity|]. split; [reflexivity|]. split; [exact Hothers|]. split.
  - exists m. split; simplify_map_eq; reflexivity.
  - split.
    + intros Heq.
      assert (Hm := Logic.f_equal (fun d : gmap string artifact => d !! "meta.json"%string) Heq).
      cbv beta in Hm. rewrite !lookup_insert_eq in Hm.
      injection Hm as Hm. apply append_Z_inj, Hm.
    + intros ->. apply map_eq. intros name.
      destruct (decide (name = "meta.json"%string)) as [-> | N1];
        [rewrite !lookup_insert_eq; reflexivity | apply Hothers, N1].
Qed.

Lemma rerun_rewrites_meta_witness :
  success (run sort_values_desc world_complete loaded) = true
  /\ success (run sort_values_desc
                (after_run sort_values_desc world_complete loaded
                           "2025-11-18T08:00:00")
                loaded) = true
  /\ files (run sort_values_desc
              (after_run sort_values_desc world_complete loaded
                         "2025-11-18T08:00:00")
              loaded) !! "seasonal_risk.json"%string
     = Some (AOpaque "[1]")
  /\ files (run sort_values_desc
              (after_run sort_values_desc world_complete loaded
                         "2025-11-18T08:00:00")
              loaded)
     <> files (run sort_values_desc world_complete loaded).
Proof.
  assert (H : success (run sort_values_desc world_complete loaded) = true).
  { vm_compute. reflexivity. }
  destruct (rerun_rewrites_meta sort_values_desc world_complete loaded
              "2025-11-18T08:00:00" H) as (Hs & _ & Hothers & _ & Hiff).
  split; [exact H|]. split; [exact Hs|]. split.
  - rewrite Hothers; [|discriminate]. vm_compute. reflexivity.
  - intros Heq. apply Hiff in Heq. discriminate Heq.
Defined.

End Rerun.
